(** * cakemail-smtp-service: the SMTP gateway, its validator, parser and submitter

    A shallow embedding of
      - [smtp_gateway/config.py]        (module [Config]),
      - [smtp_gateway/api/errors.py]    (module [Errors]),
      - [smtp_gateway/api/auth.py]      (module [ApiAuth]),
      - [smtp_gateway/email/parser.py]  (module [Parser]),
      - [smtp_gateway/api/email.py]     (module [ApiEmail]),
      - [smtp_gateway/smtp/auth.py]     (module [SmtpAuth]),
      - [smtp_gateway/smtp/handler.py]  (module [Handler]),
      - [smtp_gateway/smtp/server.py]   (module [Server]),
    followed by the properties of the specification, stated on these
    definitions.

    Conventions.  A Python [str] is a [string]; [bytes] is a [list byte];
    an [int] is a [Z]; a [dict] keyed by strings is a [gmap string _]; a
    value that may be [None] is an [option]; a call that may raise gives a
    [result].  A coroutine that talks to the
    upstream HTTP services is a computation in the monad [M]: it threads the
    log of the requests sent so far and either returns or raises.  The
    upstream services are deterministic functions of the requests they have
    received.  Delays are in milliseconds. *)

From stdpp Require Import gmap strings list pretty.
From Stdlib Require Import ZArith Lia.
From Stdlib.Strings Require Import Byte Ascii.

Set Warnings "-register-all".

Local Open Scope string_scope.
Local Open Scope Z_scope.
Local Open Scope list_scope.

(** ** Exceptions *)

Module Errors.

(** [api/errors.py] declares five subclasses of [APIError]; the others
    are Python's own.  Each carries its message, [str(e)]. *)
Inductive exn : Type :=
| AuthenticationError (msg : string)
| ValidationError (msg : string)
| RateLimitError (msg : string)
| ServerError (msg : string)
| NetworkError (msg : string)
| ValueError (msg : string)
| JSONDecodeError (msg : string)
| UnicodeError (msg : string)
| UnicodeDecodeError (msg : string)
| LookupError (msg : string)
| IndexError (msg : string)
| AttributeError (msg : string).

Definition str (e : exn) : string :=
  match e with
  | AuthenticationError m | ValidationError m | RateLimitError m
  | ServerError m | NetworkError m | ValueError m | JSONDecodeError m
  | UnicodeError m | UnicodeDecodeError m | LookupError m | IndexError m
  | AttributeError m => m
  end.

(** [except ValueError]: [json.JSONDecodeError] and [UnicodeError] are
    subclasses of [ValueError], and [UnicodeDecodeError] of
    [UnicodeError]. *)
Definition is_ValueError (e : exn) : bool :=
  match e with
  | ValueError _ | JSONDecodeError _ | UnicodeError _ | UnicodeDecodeError _ => true
  | _ => false
  end.

(** [except (UnicodeDecodeError, LookupError)]: [IndexError] is a
    subclass of [LookupError]. *)
Definition is_UnicodeDecodeError_or_LookupError (e : exn) : bool :=
  match e with
  | UnicodeDecodeError _ | LookupError _ | IndexError _ => true
  | _ => false
  end.

Inductive result (A : Type) : Type :=
| Ok (a : A)
| Raise (e : exn).
Arguments Ok {A} a.
Arguments Raise {A} e.

(** Sequencing of calls that may raise. *)
Definition and_then {A B} (r : result A) (k : A -> result B) : result B :=
  match r with
  | Ok a => k a
  | Raise e => Raise e
  end.

End Errors.
Export Errors.

Notation "x <~~ r ;; k" := (and_then r (fun x => k))
  (at level 100, r at next level, right associativity).

(** ** The upstream HTTP services and the effect monad *)

Module Http.

(** A value of a decoded JSON document, as far as the code looks at it:
    a string, or anything else (null, a boolean, a number, an array, an
    object), of which the code only takes the truth value ([if not v],
    [a or b]) and the text ([f"{v}"]; for these values [str] and [repr]
    agree). *)
Inductive json_value : Type :=
| JString (s : string)
| JOther (truth : bool) (text : string).

Coercion JString : string >-> json_value.

#[export] Instance json_value_eq_dec : EqDecision json_value.
Proof. solve_decision. Defined.

(** [bool(v)] *)
Definition py_bool (v : json_value) : bool :=
  match v with
  | JString s => negb (String.eqb s "")
  | JOther truth _ => truth
  end.

(** [str(v)] *)
Definition py_str (v : json_value) : string :=
  match v with
  | JString s => s
  | JOther _ text => text
  end.

(** Why [response.json()] raises: the body is not JSON
    ([json.JSONDecodeError]) or not even text ([UnicodeDecodeError]). *)
Inductive json_failure : Type := InvalidJson | InvalidUnicode.

(** The body of a response, as [response.json()] sees it: undecodable, a
    JSON document that is not an object (an array, a string, a number, a
    boolean, null: a Python value of type [type_name], without [get]), or
    an object. *)
Inductive json : Type :=
| Undecodable (why : json_failure) (msg : string)
| NotAnObject (type_name : string)
| Object (fields : gmap string json_value).

(** [data = response.json()] and the first [data.get(...)], which
    follows it at once in all three places: the fields of the object. *)
Definition fields_of (body : json) : result (gmap string json_value) :=
  match body with
  | Undecodable InvalidJson msg => Raise (JSONDecodeError msg)
  | Undecodable InvalidUnicode msg => Raise (UnicodeDecodeError msg)
  | NotAnObject type_name =>
      Raise (AttributeError ("'" +:+ type_name +:+ "' object has no attribute 'get'"))
  | Object fields => Ok fields
  end.

(** What [await client.post(...)] gives: a response, or one of the two
    [httpx] exceptions the code catches ([TimeoutException] is the more
    specific one and is caught first). *)
Inductive http_result : Type :=
| Response (status_code : Z) (body : json)
| TimeoutException (msg : string)
| RequestError (msg : string).

(** One attachment record of the parser, also the shape sent upstream. *)
Record attachment : Type := Attachment {
  att_filename : string;
  att_content_type : string;
  att_content : string;
  att_size : Z
}.

(** The JSON body of [POST /email]. *)
Record api_payload : Type := ApiPayload {
  p_from : string;
  p_to : list string;
  p_subject : string;
  p_text : string;
  p_html : option string;
  p_attachments : option (list attachment)
}.

(** [bearer] is the text after ["Bearer "] in the [Authorization]
    header. *)
Record email_request : Type := EmailRequest {
  bearer : string;
  payload : api_payload
}.

(** The requests sent so far, oldest first, and the sleeps taken. *)
Record io : Type := IO {
  auth_requests : list (string * string);
  email_requests : list email_request;
  sleeps : list Z
}.

Definition io0 : io := IO [] [] [].

(** The upstream: each answer is a function of the requests received so
    far on that endpoint, the current one last. *)
Record upstream : Type := Upstream {
  auth_api : list (string * string) -> http_result;
  email_api : list email_request -> http_result
}.

Definition M (A : Type) : Type := io -> result A * io.

Definition ret {A} (a : A) : M A := fun s => (Ok a, s).
Definition raise {A} (e : exn) : M A := fun s => (Raise e, s).
Definition bind {A B} (m : M A) (k : A -> M B) : M B :=
  fun s => match m s with
           | (Ok a, s') => k a s'
           | (Raise e, s') => (Raise e, s')
           end.

(** [try: m except <those e with h e = Some _>: ...] *)
Definition try_except {A} (m : M A) (h : exn -> option (M A)) : M A :=
  fun s => match m s with
           | (Ok a, s') => (Ok a, s')
           | (Raise e, s') =>
               match h e with
               | Some k => k s'
               | None => (Raise e, s')
               end
           end.

Definition post_auth (up : upstream) (username password : string)
  : M http_result :=
  fun s =>
    let log := auth_requests s ++ [(username, password)] in
    (Ok (auth_api up log), IO log (email_requests s) (sleeps s)).

Definition post_email (up : upstream) (rq : email_request) : M http_result :=
  fun s =>
    let log := email_requests s ++ [rq] in
    (Ok (email_api up log), IO (auth_requests s) log (sleeps s)).

Definition sleep (ms : Z) : M unit :=
  fun s => (Ok tt, IO (auth_requests s) (email_requests s) (sleeps s ++ [ms])).

End Http.
Export Http.

Notation "x <-- m ;; k" := (bind m (fun x => k))
  (at level 100, m at next level, right associativity).

(** Truthiness of a Python string that may be [None]. *)
Definition truthy (v : option string) : option string :=
  match v with
  | Some s => if decide (s = "") then None else Some s
  | None => None
  end.

(** Truthiness of the result of [data.get(k)]: [None] for a missing
    field. *)
Definition truthy_value (v : option json_value) : option json_value :=
  match v with
  | Some x => if py_bool x then Some x else None
  | None => None
  end.

(** [a or b] on such values. *)
Definition py_or (a b : option json_value) : option json_value :=
  match truthy_value a with
  | Some x => Some x
  | None => b
  end.

(** ** config.py *)

Module Config.

(** The fields of [Settings] the core reads. *)
Record Settings : Type := MkSettings {
  cakemail_api_url : string;
  cakemail_auth_url : string;
  smtp_host : string;
  smtp_port : Z;
  smtp_hostname : string;
  message_size_limit : Z;
  max_recipients : Z;
  api_max_retries : Z
}.

(** The [Field(default=...)] values. *)
Definition default_settings : Settings := {|
  cakemail_api_url := "https://api.cakemail.com/v1";
  cakemail_auth_url := "https://api.cakemail.com/v1/auth";
  smtp_host := "0.0.0.0";
  smtp_port := 587;
  smtp_hostname := "smtp.cakemail.com";
  message_size_limit := 26214400;
  max_recipients := 100;
  api_max_retries := 2
|}.

Definition with_message_size_limit (s : Settings) (n : Z) : Settings :=
  MkSettings (cakemail_api_url s) (cakemail_auth_url s) (smtp_host s)
    (smtp_port s) (smtp_hostname s) n (max_recipients s) (api_max_retries s).

Definition with_api_max_retries (s : Settings) (n : Z) : Settings :=
  MkSettings (cakemail_api_url s) (cakemail_auth_url s) (smtp_host s)
    (smtp_port s) (smtp_hostname s) (message_size_limit s)
    (max_recipients s) n.

End Config.
Export Config.

(** ** api/auth.py *)

Module ApiAuth.

(** [retry_delays = [0.5, 1.0]], in milliseconds. *)
Definition retry_delays : list Z := [500; 1000].

(** What one pass through the body of the [for] loop decides before the
    retry test: the function is over ([Finished]), or the attempt failed
    transiently with [last_error] ([Transient]).  What [response.json()]
    or [data.get] raises is caught by none of the [except] clauses and
    ends the function. *)
Inductive attempt_outcome : Type :=
| Finished (r : result json_value)
| Transient (last_error : exn).

Definition classify_attempt (username : string) (r : http_result)
  : attempt_outcome :=
  match r with
  | Response status_code body =>
      if status_code =? 200 then
        match fields_of body with
        | Raise e => Finished (Raise e)
        | Ok data =>
            match truthy_value (data !! "api_key") with
            | Some api_key => Finished (Ok api_key)
            | None =>
                Finished (Raise (ServerError "Invalid API response: missing api_key"))
            end
        end
      else if (status_code =? 401) || (status_code =? 403) then
        Finished (Raise (AuthenticationError ("Invalid credentials for " +:+ username)))
      else if 500 <=? status_code then
        Transient (ServerError ("API server error: " +:+ pretty status_code))
      else
        Finished (Raise (ServerError ("Unexpected API response: " +:+ pretty status_code)))
  | TimeoutException e =>
      Transient (NetworkError ("API request timeout: " +:+ e))
  | RequestError e =>
      Transient (NetworkError ("Network error: " +:+ e))
  end.

(** The loop [for attempt in range(max_retries + 1)], [todo] iterations
    left.  [retry_delays[attempt]] raises [IndexError] out of range. *)
Fixpoint attempts (up : upstream) (username password : string)
    (max_retries : Z) (todo : nat) (attempt : Z) (last_error : option exn)
  : M json_value :=
  match todo with
  | O =>
      match last_error with
      | Some e => raise e
      | None => raise (NetworkError "Authentication request failed after all retries")
      end
  | S todo' =>
      r <-- post_auth up username password ;;
      match classify_attempt username r with
      | Finished (Ok api_key) => ret api_key
      | Finished (Raise e) => raise e
      | Transient e =>
          if attempt <? max_retries then
            match retry_delays !! Z.to_nat attempt with
            | Some d =>
                _ <-- sleep d ;;
                attempts up username password max_retries todo'
                  (attempt + 1) (Some e)
            | None => raise (IndexError "list index out of range")
            end
          else raise e
      end
  end.

Definition validate_credentials (up : upstream) (settings : Settings)
    (username password : string) : M json_value :=
  let max_retries := api_max_retries settings in
  attempts up username password max_retries (Z.to_nat (max_retries + 1)) 0 None.

End ApiAuth.
Export ApiAuth.

(** ** Python's library, as far as the gateway uses it *)

Module PyLib.

(** [base64.b64encode(bs).decode("ascii")] (RFC 4648, with padding). *)
Definition b64_alphabet : string :=
  "ABCDEFGHIJKLMNOPQRSTUVWXYZabcdefghijklmnopqrstuvwxyz0123456789+/".

Definition b64_char (n : N) : Ascii.ascii :=
  match String.get (N.to_nat n) b64_alphabet with
  | Some c => c
  | None => "="%char
  end.

Fixpoint b64encode (bs : list byte) : string :=
  match bs with
  | [] => ""
  | [a] =>
      let x := Byte.to_N a in
      String (b64_char (x / 4)) (String (b64_char ((x mod 4) * 16)) "==")
  | [a; b] =>
      let x := Byte.to_N a in
      let y := Byte.to_N b in
      String (b64_char (x / 4))
        (String (b64_char ((x mod 4) * 16 + y / 16))
           (String (b64_char ((y mod 16) * 4)) "="))
  | a :: b :: c :: rest =>
      let x := Byte.to_N a in
      let y := Byte.to_N b in
      let z := Byte.to_N c in
      String (b64_char (x / 4))
        (String (b64_char ((x mod 4) * 16 + y / 16))
           (String (b64_char ((y mod 16) * 4 + z / 64))
              (String (b64_char (z mod 64)) (b64encode rest))))
  end%N.

(** [s.lower()] on the ASCII letters.  It is applied to header names
    and to header values that are [str]; both are ASCII in a message
    parsed from bytes (a value with other bytes comes back as a [Header]
    object, see [header_value]). *)
Definition lower_ascii (c : Ascii.ascii) : Ascii.ascii :=
  let n := Ascii.N_of_ascii c in
  if ((65 <=? n) && (n <=? 90))%N then Ascii.ascii_of_N (n + 32) else c.

Fixpoint lower (s : string) : string :=
  match s with
  | EmptyString => EmptyString
  | String c s' => String (lower_ascii c) (lower s')
  end.

(** [s.upper()] on the ASCII letters: what [str.upper] does on a string
    of ASCII characters.  The handler applies [str.upper] to text the
    client sent, which need not be ASCII; see [upper] in [Lib]. *)
Definition upper_ascii (c : Ascii.ascii) : Ascii.ascii :=
  let n := Ascii.N_of_ascii c in
  if ((97 <=? n) && (n <=? 122))%N then Ascii.ascii_of_N (n - 32) else c.

Fixpoint ascii_upper (s : string) : string :=
  match s with
  | EmptyString => EmptyString
  | String c s' => String (upper_ascii c) (ascii_upper s')
  end.

(** [needle in hay]. *)
Fixpoint contains (needle hay : string) : bool :=
  String.prefix needle hay ||
  match hay with
  | EmptyString => false
  | String _ hay' => contains needle hay'
  end.

(** [hay.startswith(needle)]. *)
Definition startswith (needle hay : string) : bool := String.prefix needle hay.

(** [s.split(sep)] for a one-character separator. *)
Fixpoint split_go (sep : Ascii.ascii) (cur : string) (s : string) : list string :=
  match s with
  | EmptyString => [String.rev cur]
  | String c s' =>
      if Ascii.eqb c sep then String.rev cur :: split_go sep "" s'
      else split_go sep (String c cur) s'
  end.
Definition split (sep : Ascii.ascii) (s : string) : list string := split_go sep "" s.

(** What [msg.get(name)] and [msg.items()] give for a header: a [str],
    or, when the raw header has bytes outside ASCII, an
    [email.header.Header] object ([text] is its [str()]). *)
Inductive header_value : Type :=
| HStr (s : string)
| HObj (text : string).

#[export] Instance header_value_eq_dec : EqDecision header_value.
Proof. solve_decision. Defined.

(** [str(v)] *)
Definition header_str (v : header_value) : string :=
  match v with
  | HStr s => s
  | HObj text => text
  end.

(** [if not header_value]: an empty [str] is false, a [Header] object is
    true. *)
Definition truthy_header (v : option header_value) : option header_value :=
  match v with
  | Some (HStr s) => if decide (s = "") then None else Some (HStr s)
  | Some (HObj text) => Some (HObj text)
  | None => None
  end.

(** A parsed [email.message.Message]: a leaf part with its decoded
    payload ([get_payload(decode=True)]), or a multipart container.  The
    derived accessors [get_content_type()], [get_content_charset()] and
    [get_filename()] are stored with the part; [get_filename()] raises on
    an RFC 2231 parameter whose charset is no usable codec. *)
Inductive Message : Type :=
| Part (headers : list (string * header_value)) (content_type : string)
       (content_charset : option string) (filename : result (option string))
       (body : list byte)
| Multipart (headers : list (string * header_value)) (content_type : string)
            (filename : result (option string)) (parts : list Message).

Definition items (m : Message) : list (string * header_value) :=
  match m with
  | Part h _ _ _ _ | Multipart h _ _ _ => h
  end.

Definition is_multipart (m : Message) : bool :=
  match m with
  | Part _ _ _ _ _ => false
  | Multipart _ _ _ _ => true
  end.

Definition get_content_type (m : Message) : string :=
  match m with
  | Part _ t _ _ _ | Multipart _ t _ _ => t
  end.

Definition get_content_charset (m : Message) : option string :=
  match m with
  | Part _ _ c _ _ => c
  | Multipart _ _ _ _ => None
  end.

Definition get_filename (m : Message) : result (option string) :=
  match m with
  | Part _ _ _ f _ | Multipart _ _ f _ => f
  end.

Definition get_payload (m : Message) : option (list byte) :=
  match m with
  | Part _ _ _ _ b => Some b
  | Multipart _ _ _ _ => None
  end.

(** [msg.get(name)]: the first header of that name, names compared
    without case. *)
Definition get (m : Message) (name : string) : option header_value :=
  snd <$> List.find (fun kv => String.eqb (lower (fst kv)) (lower name)) (items m).

(** [msg.walk()]: the message, then its parts, depth first. *)
Fixpoint walk (m : Message) : list Message :=
  match m with
  | Part _ _ _ _ _ => [m]
  | Multipart _ _ _ ps =>
      m :: (fix walk_all (l : list Message) : list Message :=
              match l with
              | [] => []
              | p :: l' => walk p ++ walk_all l'
              end) ps
  end.

(** The library functions that are not re-implemented here.  A [Raise]
    or [None] stands for the call raising. *)
Class Lib : Type := {
  (** [email.message_from_bytes] *)
  message_from_bytes : list byte -> result Message;
  (** [str(make_header(decode_header(v)))]; [None] when it raises *)
  make_header_str : header_value -> option string;
  (** [email.utils.getaddresses([v])]: pairs (name, address) *)
  getaddresses : header_value -> list (string * string);
  (** [payload.decode(charset, errors="replace")], which raises
      [LookupError] for an unknown codec, [UnicodeDecodeError] where the
      codec ignores the error handler, and other exceptions for some
      codecs ([UnicodeError] for [undefined] and [idna]) *)
  decode_replace : string -> list byte -> result string;
  (** [payload.decode("utf-8", errors="replace")], which cannot fail *)
  decode_utf8_replace : list byte -> string;
  (** [base64.b64decode(s).decode("utf-8")]; [inr e] when it raises
      [binascii.Error] or [UnicodeDecodeError] with [str(e) = e] *)
  b64decode_utf8 : string -> string + string;
  (** [str(l)] of a list of values *)
  str_of_list : list json_value -> string;
  (** [s.upper()] *)
  upper : string -> string
}.

End PyLib.
Export PyLib.

(** ** email/parser.py *)

Module Parser.
Section WithLib.
Context {lib : Lib}.

(** The dictionary [parse_email_message] returns. *)
Record email_data : Type := EmailData {
  ed_from : string;
  ed_to : list string;
  ed_cc : list string;
  ed_bcc : list string;
  ed_subject : string;
  ed_body_text : string;
  ed_body_html : option string;
  ed_attachments : list attachment;
  ed_reply_to : string;
  ed_message_id : header_value;
  ed_date : header_value;
  ed_custom_headers : gmap string string
}.

(** [except Exception] covers whatever the two library calls raise. *)
Definition _decode_header (header_value : option header_value) : string :=
  match truthy_header header_value with
  | None => ""
  | Some v =>
      match make_header_str v with
      | Some s => s
      | None => header_str v
      end
  end.

Definition _extract_recipients (msg : Message) (header_name : string)
  : list string :=
  match truthy_header (get msg header_name) with
  | None => []
  | Some header_value =>
      snd <$> List.filter
                (fun na => negb (String.eqb (snd na) ""))
                (getaddresses header_value)
  end.

(** [payload.decode(charset, errors="replace")] with the fallback to
    UTF-8 of the [except (UnicodeDecodeError, LookupError)] clause; any
    other exception of the first call is raised. *)
Definition decode_payload (part : Message) (payload : list byte) : result string :=
  let charset := default "utf-8" (truthy (get_content_charset part)) in
  match decode_replace charset payload with
  | Ok s => Ok s
  | Raise e =>
      if is_UnicodeDecodeError_or_LookupError e
      then Ok (decode_utf8_replace payload)
      else Raise e
  end.

(** The loop [for part in msg.walk()] of the two body extractors: the
    first leaf of type [ctype] with a non-empty payload. *)
Fixpoint first_body (ctype : string) (ps : list Message) : result (option string) :=
  match ps with
  | [] => Ok None
  | part :: ps' =>
      if String.eqb (get_content_type part) ctype && negb (is_multipart part)
      then match get_payload part with
           | Some (b :: bs) => s <~~ decode_payload part (b :: bs) ;; Ok (Some s)
           | _ => first_body ctype ps'
           end
      else first_body ctype ps'
  end.

Definition _extract_plain_text_body (msg : Message) : result (option string) :=
  if negb (is_multipart msg) then
    if String.eqb (get_content_type msg) "text/plain" then
      match get_payload msg with
      | Some (b :: bs) => s <~~ decode_payload msg (b :: bs) ;; Ok (Some s)
      | _ => Ok None
      end
    else Ok None
  else first_body "text/plain" (walk msg).

Definition _extract_html_body (msg : Message) : result (option string) :=
  if negb (is_multipart msg) then
    if String.eqb (get_content_type msg) "text/html" then
      match get_payload msg with
      | Some (b :: bs) => s <~~ decode_payload msg (b :: bs) ;; Ok (Some s)
      | _ => Ok None
      end
    else Ok None
  else first_body "text/html" (walk msg).

(** [content_disposition.lower()], where [content_disposition] is
    [part.get("Content-Disposition", "")]: a [Header] object has no such
    method. *)
Definition disposition_lower (part : Message) : result string :=
  match default (HStr "") (get part "Content-Disposition") with
  | HStr content_disposition => Ok (lower content_disposition)
  | HObj _ => Raise (AttributeError "'Header' object has no attribute 'lower'")
  end.

(** The test [is_attachment] of [_extract_attachments], its three
    operands evaluated from left to right as far as [or] and [and] need
    them. *)
Definition is_attachment (part : Message) : result bool :=
  let content_type := get_content_type part in
  lowered <~~ disposition_lower part ;;
  if contains "attachment" lowered then Ok true
  else if contains "inline" lowered then Ok true
  else if negb (String.eqb content_type "text/plain"
                || String.eqb content_type "text/html")
  then filename <~~ get_filename part ;;
       Ok (bool_decide (filename <> None))
  else Ok false.

(** What one iteration of the loop of [_extract_attachments] appends:
    nothing or one record. *)
Definition attachment_of (part : Message) : result (list attachment) :=
  if is_multipart part then Ok []
  else
    attached <~~ is_attachment part ;;
    if attached : bool then
      filename <~~ get_filename part ;;
      match truthy filename with
      | Some filename =>
          match get_payload part with
          | Some (b :: bs) =>
              let payload := b :: bs in
              Ok [ Attachment (_decode_header (Some (HStr filename)))
                     (get_content_type part)
                     (b64encode payload)
                     (Z.of_nat (length payload)) ]
          | _ => Ok []
          end
      | None => Ok []
      end
    else Ok [].

(** [for part in msg.walk(): ...], [attachments] being the list so far. *)
Fixpoint collect_attachments (ps : list Message) (attachments : list attachment)
  : result (list attachment) :=
  match ps with
  | [] => Ok attachments
  | part :: ps' =>
      new <~~ attachment_of part ;;
      collect_attachments ps' (attachments ++ new)
  end.

Definition _extract_attachments (msg : Message) : result (list attachment) :=
  collect_attachments (walk msg) [].

(** The loop over [msg.items()] that fills [custom_headers]. *)
Definition extract_custom_headers (msg : Message) : gmap string string :=
  List.fold_left
    (fun custom_headers kv =>
       if startswith "X-" (fst kv)
       then <[fst kv := _decode_header (Some (snd kv))]> custom_headers
       else custom_headers)
    (items msg) ∅.

(** The body of the [try] block, after [message_from_bytes]. *)
Definition parse_message (msg : Message) : result email_data :=
  let from_addr := _decode_header (get msg "From") in
  if String.eqb from_addr "" then
    Raise (ValueError "Missing required header: From")
  else
    let to_recipients := _extract_recipients msg "To" in
    let cc_recipients := _extract_recipients msg "Cc" in
    let bcc_recipients := _extract_recipients msg "Bcc" in
    match to_recipients, cc_recipients, bcc_recipients with
    | [], [], [] =>
        Raise (ValueError "At least one recipient required (To, Cc, or Bcc)")
    | _, _, _ =>
        let subject :=
          _decode_header (Some (default (HStr "") (get msg "Subject"))) in
        body_text <~~ _extract_plain_text_body msg ;;
        body_html <~~ _extract_html_body msg ;;
        attachments <~~ _extract_attachments msg ;;
        let reply_to :=
          _decode_header (Some (default (HStr "") (get msg "Reply-To"))) in
        let message_id := default (HStr "") (get msg "Message-ID") in
        let date := default (HStr "") (get msg "Date") in
        Ok {| ed_from := from_addr;
              ed_to := to_recipients;
              ed_cc := cc_recipients;
              ed_bcc := bcc_recipients;
              ed_subject := subject;
              ed_body_text := default "" body_text;
              ed_body_html := body_html;
              ed_attachments := attachments;
              ed_reply_to := reply_to;
              ed_message_id := message_id;
              ed_date := date;
              ed_custom_headers := extract_custom_headers msg |}
    end.

(** [except Exception as e: raise ValueError(f"Invalid email format: {e}")]
    wraps whatever the [try] block raised. *)
Definition parse_email_message (raw_content : list byte) : result email_data :=
  let attempt :=
    match message_from_bytes raw_content with
    | Ok msg => parse_message msg
    | Raise e => Raise e
    end in
  match attempt with
  | Ok d => Ok d
  | Raise e => Raise (ValueError ("Invalid email format: " +:+ str e))
  end.

End WithLib.
End Parser.
Export Parser.

(** ** api/email.py *)

Module ApiEmail.

(** The dictionary [_submit_to_single_recipient] returns.  The id and
    the error are what the upstream sent, whatever their JSON type, or a
    string of the gateway. *)
Inductive single_result : Type :=
| Success (message_id : json_value)
| Failed (error : json_value).

(** ["message_id": message_ids[0] if len(message_ids) == 1 else message_ids] *)
Inductive message_id_value : Type :=
| OneId (message_id : json_value)
| IdList (message_ids : list json_value).


(** The dictionary [submit_email] returns. *)
Record submit_result : Type := SubmitResult {
  message_id : message_id_value;
  status : string;
  succeeded : list string;
  failed : list (string * json_value)
}.

Definition build_payload (email_data : email_data) (recipient_email : string)
  : api_payload :=
  {| p_from := ed_from email_data;
     p_to := [recipient_email];
     p_subject := ed_subject email_data;
     p_text := ed_body_text email_data;
     p_html := truthy (ed_body_html email_data);
     p_attachments :=
       match ed_attachments email_data with
       | [] => None
       | a :: l => Some (a :: l)
       end |}.

(** The branches on [response.status_code]; [429] raises, and so does
    [response.json()] or [data.get] on a body that is no JSON object. *)
Definition classify_response (status_code : Z) (body : json)
  : result single_result :=
  if (status_code =? 200) || (status_code =? 202) then
    data <~~ fields_of body ;;
    match truthy_value (py_or (data !! "message_id") (data !! "id")) with
    | Some message_id => Ok (Success message_id)
    | None => Ok (Failed "Invalid API response: missing message_id")
    end
  else if status_code =? 400 then
    data <~~ fields_of body ;;
    let error_msg :=
      default (JString "Validation error")
        (truthy_value (py_or (data !! "error") (data !! "message"))) in
    Ok (Failed error_msg)
  else if status_code =? 429 then
    Raise (RateLimitError "Rate limit exceeded, try again later")
  else if 500 <=? status_code then
    Ok (Failed ("API server error: " +:+ pretty status_code))
  else
    Ok (Failed ("Unexpected API response: " +:+ pretty status_code)).

(** The loop [for attempt in range(max_attempts)], [todo] iterations
    left.  An exception of [classify_response] is caught by none of the
    [except] clauses or re-raised by the last one. *)
Fixpoint single_attempts (up : upstream) (rq : email_request)
    (max_attempts : Z) (todo : nat) (attempt : Z) : M single_result :=
  match todo with
  | O => ret (Failed "Unknown error")
  | S todo' =>
      r <-- post_email up rq ;;
      match r with
      | Response status_code data =>
          match classify_response status_code data with
          | Ok res => ret res
          | Raise e => raise e
          end
      | TimeoutException e =>
          let last_error := "API request timeout: " +:+ e in
          if attempt <? max_attempts - 1
          then single_attempts up rq max_attempts todo' (attempt + 1)
          else ret (Failed last_error)
      | RequestError e =>
          let last_error := "Network error: " +:+ e in
          if attempt <? max_attempts - 1
          then single_attempts up rq max_attempts todo' (attempt + 1)
          else ret (Failed last_error)
      end
  end.

(** The [Authorization] header is [f"Bearer {api_key}"]. *)
Definition _submit_to_single_recipient (up : upstream) (api_key : json_value)
    (email_data : email_data) (recipient_email : string) : M single_result :=
  let api_payload := build_payload email_data recipient_email in
  let max_attempts := 2 in
  single_attempts up (EmailRequest (py_str api_key) api_payload)
    max_attempts (Z.to_nat max_attempts) 0.

(** The three lists the fan-out loop appends to. *)
Record tally : Type := Tally {
  succeeded_recipients : list string;
  failed_recipients : list (string * json_value);
  message_ids : list json_value
}.

Definition record_result (t : tally) (recipient_email : string)
    (res : single_result) : tally :=
  match res with
  | Success mid =>
      Tally (succeeded_recipients t ++ [recipient_email])
            (failed_recipients t)
            (message_ids t ++ [mid])
  | Failed err =>
      Tally (succeeded_recipients t)
            (failed_recipients t ++ [(recipient_email, err)])
            (message_ids t)
  end.

(** [for recipient_email in all_recipients: ...] *)
Fixpoint fan_out (up : upstream) (api_key : json_value) (email_data : email_data)
    (recipients : list string) (t : tally) : M tally :=
  match recipients with
  | [] => ret t
  | recipient_email :: rest =>
      res <-- _submit_to_single_recipient up api_key email_data recipient_email ;;
      fan_out up api_key email_data rest (record_result t recipient_email res)
  end.

Definition error_summary (failed_recipients : list (string * json_value)) : string :=
  String.concat "; "
    ((fun r => fst r +:+ ": " +:+ py_str (snd r)) <$> failed_recipients).

Definition submit_email (up : upstream) (api_key : json_value)
    (email_data : email_data) : M submit_result :=
  let all_recipients :=
    ed_to email_data ++ ed_cc email_data ++ ed_bcc email_data in
  match all_recipients with
  | [] => raise (ValidationError "No recipients specified")
  | _ :: _ =>
      t <-- fan_out up api_key email_data all_recipients (Tally [] [] []) ;;
      match succeeded_recipients t with
      | [] =>
          raise (ValidationError
                   ("All recipients failed: " +:+ error_summary (failed_recipients t)))
      | _ :: _ =>
          ret {| message_id :=
                   match message_ids t with
                   | [i] => OneId i
                   | _ => IdList (message_ids t)
                   end;
                 status := "accepted";
                 succeeded := succeeded_recipients t;
                 failed := failed_recipients t |}
      end
  end.

End ApiEmail.
Export ApiEmail.

(** ** smtp/auth.py *)

Module SmtpAuth.
Section WithLib.
Context {lib : Lib}.

(** [except (binascii.Error, UnicodeDecodeError)] only covers the
    decoding; the two [ValueError]s raised inside the [try] pass
    through. *)
Definition parse_auth_plain (auth_string : string) : result (string * string) :=
  match b64decode_utf8 auth_string with
  | inr e => Raise (ValueError ("Invalid base64 encoding: " +:+ e))
  | inl decoded =>
      let parts := split Ascii.zero decoded in
      match parts with
      | [_; username; password] =>
          if String.eqb username "" || String.eqb password "" then
            Raise (ValueError "Username and password cannot be empty")
          else Ok (username, password)
      | _ =>
          Raise (ValueError ("Invalid AUTH PLAIN format: expected 3 parts, got "
                             +:+ pretty (Z.of_nat (length parts))))
      end
  end.

End WithLib.
End SmtpAuth.
Export SmtpAuth.

(** ** smtp/handler.py *)

Module Handler.

(** What the handler reads of aiosmtpd's [Session]: the peer (host,
    port), and the TLS object, [None] before STARTTLS. *)
Record Session : Type := MkSession {
  peer : option (string * Z);
  ssl : option string;
  host_name : option string
}.

(** aiosmtpd's [Envelope]. *)
Record Envelope : Type := MkEnvelope {
  mail_from : option string;
  mail_options : list string;
  rcpt_tos : list string;
  rcpt_options : list string;
  content : list byte
}.

(** An entry of [_authenticated_sessions]. *)
Record session_data : Type := SessionData {
  username : string;
  api_key : option json_value;
  authenticated : bool
}.

(** The attributes of [SMTPHandler]; times are in milliseconds. *)
Record SMTPHandler : Type := MkHandler {
  settings : Settings;
  _connection_start_time : gmap string Z;
  _authenticated_sessions : gmap string session_data
}.

(** [SMTPHandler.__init__] *)
Definition init (s : Settings) : SMTPHandler := MkHandler s ∅ ∅.

Definition set_sessions (self : SMTPHandler) (m : gmap string session_data)
  : SMTPHandler :=
  MkHandler (settings self) (_connection_start_time self) m.

Definition set_settings (self : SMTPHandler) (s : Settings) : SMTPHandler :=
  MkHandler s (_connection_start_time self) (_authenticated_sessions self).

(** [session.peer[0] if session.peer else "unknown"] *)
Definition peer_key (session : Session) : string :=
  match peer session with
  | Some (host, _) => host
  | None => "unknown"
  end.

Definition connection_made (self : SMTPHandler) (session : Session) (now : Z)
  : SMTPHandler :=
  MkHandler (settings self)
    (<[peer_key session := now]> (_connection_start_time self))
    (_authenticated_sessions self).

Definition connection_lost (self : SMTPHandler) (session : Session)
  : SMTPHandler :=
  MkHandler (settings self)
    (delete (peer_key session) (_connection_start_time self))
    (_authenticated_sessions self).

(** [not session_data or not session_data.get("authenticated")] *)
Definition not_authenticated (self : SMTPHandler) (session : Session) : bool :=
  match _authenticated_sessions self !! peer_key session with
  | Some session_data => negb (authenticated session_data)
  | None => true
  end.

Section WithLib.
Context {lib : Lib}.

Definition handle_AUTH (up : upstream) (self : SMTPHandler)
    (session : Session) (args : list string) : M (string * SMTPHandler) :=
  match ssl session with
  | None => ret ("530 5.7.0 Must issue STARTTLS command first", self)
  | Some _ =>
      match args with
      | [] => ret ("501 Syntax error: AUTH mechanism required", self)
      | arg0 :: rest =>
          let mechanism := upper arg0 in
          let peer_key := peer_key session in
          if String.eqb mechanism "PLAIN" then
            match rest with
            | [] => ret ("334 ", self)
            | auth_string :: _ =>
                try_except
                  match parse_auth_plain auth_string with
                  | Raise e => raise e
                  | Ok (username, password) =>
                      try_except
                        (api_key <-- validate_credentials up (settings self)
                                       username password ;;
                         ret ("235 2.7.0 Authentication successful",
                              set_sessions self
                                (<[peer_key := SessionData username (Some api_key) true]>
                                   (_authenticated_sessions self))))
                        (fun e =>
                           match e with
                           | AuthenticationError _ =>
                               Some (ret ("535 5.7.8 Authentication failed",
                                          set_sessions self
                                            (delete peer_key
                                               (_authenticated_sessions self))))
                           | ServerError _ | NetworkError _ =>
                               Some (ret ("451 4.7.0 Temporary authentication failure, please try again",
                                          self))
                           | _ => None
                           end)
                  end
                  (fun e =>
                     if is_ValueError e
                     then Some (ret ("535 5.7.8 Authentication credentials invalid", self))
                     else None)
            end
          else if String.eqb mechanism "LOGIN" then
            ret ("504 5.5.4 AUTH mechanism LOGIN not implemented yet", self)
          else
            ret ("504 5.5.4 AUTH mechanism not supported", self)
      end
  end.

Definition handle_MAIL (self : SMTPHandler) (session : Session)
    (envelope : Envelope) (address : string) (options : list string)
  : string * Envelope :=
  if not_authenticated self session then
    ("530 5.7.0 Authentication required", envelope)
  else
    ("250 OK",
     MkEnvelope (Some address) (mail_options envelope ++ options)
       (rcpt_tos envelope) (rcpt_options envelope) (content envelope)).

Definition handle_RCPT (self : SMTPHandler) (session : Session)
    (envelope : Envelope) (address : string) (options : list string)
  : string * Envelope :=
  if not_authenticated self session then
    ("530 5.7.0 Authentication required", envelope)
  else
    let max_recipients := max_recipients (settings self) in
    if max_recipients <=? Z.of_nat (length (rcpt_tos envelope)) then
      ("452 4.5.3 Too many recipients (max " +:+ pretty max_recipients +:+ ")",
       envelope)
    else
      ("250 OK",
       MkEnvelope (mail_from envelope) (mail_options envelope)
         (rcpt_tos envelope ++ [address])
         (rcpt_options envelope ++ options) (content envelope)).

(** [f"{message_id}"] *)
Definition str_of_message_id (v : message_id_value) : string :=
  match v with
  | OneId i => py_str i
  | IdList l => str_of_list l
  end.

(** The four [except] clauses around [submit_email]. *)
Definition submit_handlers (e : exn) : option (M string) :=
  match e with
  | ValidationError _ => Some (ret ("550 5.6.0 Message rejected: " +:+ str e))
  | RateLimitError _ => Some (ret "451 4.7.1 Rate limit exceeded, try again later")
  | ServerError _ => Some (ret "451 4.3.0 Temporary failure, try again later")
  | NetworkError _ => Some (ret "451 4.4.0 Service temporarily unavailable")
  | _ => None
  end.

(** [handle_DATA], with the parser and the submitter it imports as
    arguments. *)
Definition handle_DATA_with
    (parse_email_message : list byte -> result email_data)
    (submit_email : json_value -> email_data -> M submit_result)
    (self : SMTPHandler) (session : Session) (envelope : Envelope) : M string :=
  match _authenticated_sessions self !! peer_key session with
  | None => ret "530 5.7.0 Authentication required"
  | Some session_data =>
      if negb (authenticated session_data) then
        ret "530 5.7.0 Authentication required"
      else
        match truthy (mail_from envelope) with
        | None => ret "503 5.5.1 Error: MAIL FROM required"
        | Some _ =>
            match rcpt_tos envelope with
            | [] => ret "503 5.5.1 Error: RCPT TO required"
            | _ :: _ =>
                try_except
                  match parse_email_message (content envelope) with
                  | Raise e => raise e
                  | Ok email_data =>
                      match truthy_value (api_key session_data) with
                      | None => ret "451 4.3.0 Internal error: missing API key"
                      | Some api_key =>
                          try_except
                            (result <-- submit_email api_key email_data ;;
                             ret ("250 2.0.0 Message accepted for delivery: "
                                  +:+ str_of_message_id (message_id result)))
                            submit_handlers
                      end
                  end
                  (fun e =>
                     if is_ValueError e
                     then Some (ret ("550 5.6.0 Message rejected: " +:+ str e))
                     else None)
            end
        end
  end.

Definition handle_DATA (up : upstream) : SMTPHandler -> Session -> Envelope -> M string :=
  handle_DATA_with parse_email_message (submit_email up).

End WithLib.
End Handler.
Export Handler.

(** ** smtp/server.py *)

Module Server.

(** The arguments [create_smtp_server] gives to aiosmtpd's [Controller];
    an argument it does not pass is [None]. *)
Record Controller : Type := MkController {
  handler : SMTPHandler;
  hostname : string;
  port : Z;
  server_hostname : string;
  require_starttls : bool;
  auth_require_tls : bool;
  decode_data : bool;
  enable_SMTPUTF8 : bool;
  data_size_limit : option Z
}.

Definition create_smtp_server (settings : Settings) : Controller :=
  {| handler := init settings;
     hostname := smtp_host settings;
     port := smtp_port settings;
     server_hostname := smtp_hostname settings;
     require_starttls := false;
     auth_require_tls := true;
     decode_data := false;
     enable_SMTPUTF8 := true;
     data_size_limit := None |}.

Definition with_handler (c : Controller) (h : SMTPHandler) : Controller :=
  MkController h (hostname c) (port c) (server_hostname c)
    (require_starttls c) (auth_require_tls c) (decode_data c)
    (enable_SMTPUTF8 c) (data_size_limit c).

Section WithLib.
Context {lib : Lib}.

(** The size cutoff of the engine the controller starts.  The engine is
    aiosmtpd, a library outside this repository: it counts the bytes of
    the DATA block against its [data_size_limit] (the keyword argument of
    the controller, or the library's default [DATA_SIZE_DEFAULT] when
    none was passed; zero disables the test), answers 552 without
    calling the handler when the count exceeds it, and otherwise replies
    what [handle_DATA] returns. *)
Definition smtp_DATA (DATA_SIZE_DEFAULT : Z) (up : upstream) (c : Controller)
    (session : Session) (envelope : Envelope) : M string :=
  let limit := default DATA_SIZE_DEFAULT (data_size_limit c) in
  if negb (limit =? 0) && (limit <? Z.of_nat (length (content envelope))) then
    ret "552 Error: Too much mail data"
  else handle_DATA up (handler c) session envelope.

End WithLib.
End Server.
Export Server.

(** The three-digit code of a reply line. *)
Definition reply_code (reply : string) : string := String.substring 0 3 reply.

(** ** Vocabulary of the specification *)

Module Spec.

(** The answers the validator treats as transient: a status of 500 or
    more, a timeout, another transport error. *)
Inductive transient : http_result -> Prop :=
| transient_status st body : 500 <= st -> transient (Response st body)
| transient_timeout m : transient (TimeoutException m)
| transient_transport m : transient (RequestError m).

(** The answer to the [k]-th request (from 0) a call of the validator
    makes when it starts after the requests [log]. *)
Definition auth_answer (up : upstream) (log : list (string * string))
    (username password : string) (k : nat) : http_result :=
  auth_api up (log ++ replicate (S k) (username, password)).


(** What the fan-out recorded, read off the per-recipient results. *)
Fixpoint successes (l : list (string * single_result)) : list string :=
  match l with
  | [] => []
  | (r, Success _) :: l' => r :: successes l'
  | (_, Failed _) :: l' => successes l'
  end.

Fixpoint failures (l : list (string * single_result)) : list (string * json_value) :=
  match l with
  | [] => []
  | (_, Success _) :: l' => failures l'
  | (r, Failed e) :: l' => (r, e) :: failures l'
  end.

Fixpoint success_ids (l : list (string * single_result)) : list json_value :=
  match l with
  | [] => []
  | (_, Success i) :: l' => i :: success_ids l'
  | (_, Failed _) :: l' => success_ids l'
  end.

Definition rate_limited : exn := RateLimitError "Rate limit exceeded, try again later".

(** What [response.json()] and [data.get] raise on a body that is no
    JSON object. *)
Definition body_error (e : exn) : Prop :=
  match e with
  | JSONDecodeError _ | UnicodeDecodeError _ | AttributeError _ => True
  | _ => False
  end.

(** The [k]-th request of the log was answered with status 429. *)
Definition answered_429 (up : upstream) (log : list email_request) (k : nat) : Prop :=
  exists body, email_api up (take (S k) log) = Response 429 body.

(** What one recipient costs, from state [s] to state [s'], ending in
    [res]: one or two copies of the request [rq]; a 429 among the answers
    is the last answer and raises; nothing else raises but the reading of
    a body that is no JSON object. *)
Definition recipient_requests (up : upstream) (rq : email_request)
    (s s' : io) (res : result single_result) : Prop :=
  exists new : list email_request,
    email_requests s' = email_requests s ++ new /\
    auth_requests s' = auth_requests s /\
    sleeps s' = sleeps s /\
    (1 <= length new <= 2)%nat /\
    Forall (fun x => x = rq) new /\
    (forall k body, (k < length new)%nat ->
       email_api up (email_requests s ++ take (S k) new) = Response 429 body ->
       res = Raise rate_limited /\ S k = length new) /\
    (forall e, res = Raise e -> e = rate_limited \/ body_error e).

(** The reply table of the DATA flow: what [reply] must be, given what
    the parser and the submitter do on this envelope from state [io]. *)
Definition data_reply_table {lib : Lib}
    (parse : list byte -> result email_data)
    (submit : json_value -> email_data -> M submit_result)
    (sd : session_data) (envelope : Envelope) (io : Http.io)
    (reply : result string * Http.io) : Prop :=
  (forall m, parse (content envelope) = Raise (ValueError m) ->
     reply = (Ok ("550 5.6.0 Message rejected: " +:+ m), io)) /\
  (forall email_data, parse (content envelope) = Ok email_data ->
     (truthy_value (api_key sd) = None ->
        reply = (Ok "451 4.3.0 Internal error: missing API key", io)) /\
     (forall key res io',
        truthy_value (api_key sd) = Some key ->
        submit key email_data io = (res, io') ->
        match res with
        | Ok out =>
            reply = (Ok ("250 2.0.0 Message accepted for delivery: "
                         +:+ str_of_message_id (message_id out)), io')
        | Raise (ValidationError m) =>
            reply = (Ok ("550 5.6.0 Message rejected: " +:+ m), io')
        | Raise (RateLimitError _) =>
            reply = (Ok "451 4.7.1 Rate limit exceeded, try again later", io')
        | Raise (ServerError _) =>
            reply = (Ok "451 4.3.0 Temporary failure, try again later", io')
        | Raise (NetworkError _) =>
            reply = (Ok "451 4.4.0 Service temporarily unavailable", io')
        | Raise _ => True
        end)).

End Spec.
Export Spec.

(** ** Sample inputs *)

Module Sample.

(** An upstream that answers from a script, one entry per request, as
    the mocked routes of the test suite do. *)
Definition script {A} (answers : list http_result) (log : list A) : http_result :=
  default (RequestError "connection refused") (answers !! (length log - 1)%nat).

Definition upstream_of (auth email : list http_result) : upstream :=
  Upstream (script auth) (script email).

Definition key_body (k : string) : json := Object {[ "api_key" := JString k ]}.
Definition id_body (i : string) : json := Object {[ "message_id" := JString i ]}.
Definition no_body : json := Object ∅.

(** Two server errors, then a key. *)
Definition flaky_auth : upstream :=
  upstream_of [Response 500 no_body; Response 503 no_body; Response 200 (key_body "k")] [].

(** An auth service that only ever fails. *)
Definition failing_auth : upstream :=
  upstream_of (replicate 8 (Response 500 no_body)) [].

(** An auth service that answers 200 with a page of HTML, as a proxy in
    front of it may; [json.loads] reports its first character. *)
Definition html_auth : upstream :=
  upstream_of
    [Response 200 (Undecodable InvalidJson "Expecting value: line 1 column 1 (char 0)")]
    [].

(** Spec scenario 2: the second of three recipients is rejected. *)
Definition one_rejected : upstream :=
  upstream_of [Response 200 (key_body "k")]
    [Response 200 (id_body "m-a"); Response 400 (Object {[ "error" := JString "bad" ]});
     Response 200 (id_body "m-c")].

(** Spec scenario 5: the second of three recipients hits the rate limit. *)
Definition rate_limit_mid : upstream :=
  upstream_of [Response 200 (key_body "k")]
    [Response 200 (id_body "m-a"); Response 429 no_body; Response 200 (id_body "m-c")].

(** Spec scenario 1: one recipient, accepted. *)
Definition happy : upstream :=
  upstream_of [Response 200 (key_body "k")] [Response 200 (id_body "m-1")].

Definition crlf : string := String (ascii_of_nat 13) (String (ascii_of_nat 10) "").

Definition raw_one : string :=
  "From: s@x.com" +:+ crlf +:+ "To: r@x.com" +:+ crlf +:+ "Subject: T" +:+ crlf
  +:+ crlf +:+ "body" +:+ crlf.

Definition msg_one : Message :=
  Part [("From", HStr "s@x.com"); ("To", HStr "r@x.com"); ("Subject", HStr "T")]
    "text/plain" None (Ok None) (String.list_byte_of_string ("body" +:+ crlf)).

Definition raw_three : string :=
  "From: s@x.com" +:+ crlf +:+ "To: a@x.com,b@x.com" +:+ crlf
  +:+ "Cc: c@x.com" +:+ crlf +:+ "Subject: T" +:+ crlf
  +:+ crlf +:+ "body" +:+ crlf.

Definition msg_three : Message :=
  Part [("From", HStr "s@x.com"); ("To", HStr "a@x.com,b@x.com");
        ("Cc", HStr "c@x.com"); ("Subject", HStr "T")]
    "text/plain" None (Ok None) (String.list_byte_of_string ("body" +:+ crlf)).

(** A message with no recipient header. *)
Definition raw_no_rcpt : string :=
  "From: s@x.com" +:+ crlf +:+ "Subject: T" +:+ crlf +:+ crlf +:+ "body" +:+ crlf.

Definition msg_no_rcpt : Message :=
  Part [("From", HStr "s@x.com"); ("Subject", HStr "T")]
    "text/plain" None (Ok None) (String.list_byte_of_string ("body" +:+ crlf)).

(** The AUTH PLAIN payload of [u@x.com] with password [pw]. *)
Definition credentials : string :=
  String Ascii.zero ("u@x.com" +:+ String Ascii.zero "pw").

Definition auth_token : string := b64encode (String.list_byte_of_string credentials).

(** A message whose only part is an attachment named in raw UTF-8
    ([café.bin], the [é] as the two bytes C3 A9).  The library hands out
    its Content-Disposition as a [Header] object, whose text has U+FFFD
    for each of the two bytes. *)
Definition e_acute : string :=
  String (ascii_of_nat 195) (String (ascii_of_nat 169) "").

Definition replacement_character : string :=
  String (ascii_of_nat 239) (String (ascii_of_nat 191) (String (ascii_of_nat 189) "")).

Definition unreadable_name : string :=
  "caf" +:+ replacement_character +:+ replacement_character +:+ ".bin".

Definition raw_8bit_name : string :=
  "From: s@x.com" +:+ crlf +:+ "To: r@x.com" +:+ crlf +:+ "Subject: T" +:+ crlf
  +:+ "Content-Type: application/octet-stream" +:+ crlf
  +:+ "Content-Disposition: attachment; filename=caf" +:+ e_acute +:+ ".bin" +:+ crlf
  +:+ crlf +:+ "data" +:+ crlf.

Definition msg_8bit_name : Message :=
  Part [("From", HStr "s@x.com"); ("To", HStr "r@x.com"); ("Subject", HStr "T");
        ("Content-Type", HStr "application/octet-stream");
        ("Content-Disposition", HObj ("attachment; filename=" +:+ unreadable_name))]
    "application/octet-stream" None (Ok (Some unreadable_name))
    (String.list_byte_of_string ("data" +:+ crlf)).

(** A text message that declares the charset [undefined], a codec of
    Python that raises [UnicodeError] whatever it is given. *)
Definition raw_undefined_charset : string :=
  "From: s@x.com" +:+ crlf +:+ "To: r@x.com" +:+ crlf +:+ "Subject: T" +:+ crlf
  +:+ "Content-Type: text/plain; charset=undefined" +:+ crlf
  +:+ crlf +:+ "body" +:+ crlf.

Definition msg_undefined_charset : Message :=
  Part [("From", HStr "s@x.com"); ("To", HStr "r@x.com"); ("Subject", HStr "T");
        ("Content-Type", HStr "text/plain; charset=undefined")]
    "text/plain" (Some "undefined") (Ok None)
    (String.list_byte_of_string ("body" +:+ crlf)).

(** [repr(v)] of a decoded JSON value: a string in quotes. *)
Definition py_repr (v : json_value) : string :=
  match v with
  | JString s => "'" +:+ s +:+ "'"
  | JOther _ text => text
  end.

(** Python's library on the sample inputs: the raw messages above (other
    bytes are read as the body of a message without headers, as the
    library reads text that has no header line), headers without encoded
    words, comma-separated bare addresses, ASCII payloads in UTF-8, the
    codec [undefined], the one well-formed AUTH token, ids without
    quotes, and ASCII mechanisms. *)
Definition lib : Lib := {|
  message_from_bytes raw :=
    let text := String.string_of_list_byte raw in
    if String.eqb text raw_one then Ok msg_one
    else if String.eqb text raw_three then Ok msg_three
    else if String.eqb text raw_no_rcpt then Ok msg_no_rcpt
    else if String.eqb text raw_8bit_name then Ok msg_8bit_name
    else if String.eqb text raw_undefined_charset then Ok msg_undefined_charset
    else Ok (Part [] "text/plain" None (Ok None) raw);
  make_header_str v := Some (header_str v);
  getaddresses v := (fun a => ("", a)) <$> split ","%char (header_str v);
  decode_replace charset payload :=
    if String.eqb charset "utf-8" then Ok (String.string_of_list_byte payload)
    else if String.eqb charset "undefined" then
      Raise (UnicodeError "decoding with 'undefined' codec failed (UnicodeError: undefined encoding)")
    else Raise (LookupError ("unknown encoding: " +:+ charset));
  decode_utf8_replace := String.string_of_list_byte;
  b64decode_utf8 s :=
    if String.eqb s auth_token then inl credentials else inr "Incorrect padding";
  str_of_list l := "[" +:+ String.concat ", " (py_repr <$> l) +:+ "]";
  upper := ascii_upper
|}.

(** A multipart message with a text body, a five-byte attachment and an
    attachment of no bytes at all. *)
Definition text_part : Message :=
  Part [("Content-Type", HStr "text/plain")] "text/plain" None (Ok None)
    (String.list_byte_of_string "hi").

Definition hello_part : Message :=
  Part [("Content-Type", HStr "application/octet-stream");
        ("Content-Disposition", HStr "attachment; filename=hello.bin")]
    "application/octet-stream" None (Ok (Some "hello.bin"))
    (String.list_byte_of_string "hello").

Definition empty_part : Message :=
  Part [("Content-Type", HStr "application/octet-stream");
        ("Content-Disposition", HStr "attachment; filename=empty.bin")]
    "application/octet-stream" None (Ok (Some "empty.bin")) [].

Definition msg_attachments : Message :=
  Multipart [("From", HStr "s@x.com"); ("To", HStr "r@x.com"); ("Subject", HStr "T");
             ("Content-Type", HStr "multipart/mixed; boundary=X")]
    "multipart/mixed" (Ok None) [text_part; hello_part; empty_part].

Definition three_recipients : email_data :=
  {| ed_from := "s@x.com"; ed_to := ["a@x.com"; "b@x.com"]; ed_cc := ["c@x.com"];
     ed_bcc := []; ed_subject := "T"; ed_body_text := "body" +:+ crlf;
     ed_body_html := None; ed_attachments := []; ed_reply_to := "";
     ed_message_id := HStr ""; ed_date := HStr ""; ed_custom_headers := ∅ |}.


(** A client after STARTTLS, and a second connection from the same
    address. *)
Definition client : Session := MkSession (Some ("203.0.113.7", 40000)) (Some "TLSv1.3") None.
Definition neighbour : Session := MkSession (Some ("203.0.113.7", 40001)) (Some "TLSv1.3") None.
Definition stranger : Session := MkSession (Some ("198.51.100.9", 40000)) (Some "TLSv1.3") None.

Definition envelope_of (rcpts : list string) (raw : string) : Envelope :=
  MkEnvelope (Some "s@x.com") [] rcpts [] (String.list_byte_of_string raw).

(** The handler once [u@x.com] has authenticated from [client]. *)
Definition authenticated_handler : SMTPHandler :=
  MkHandler default_settings ∅
    {[ "203.0.113.7" := SessionData "u@x.com" (Some (JString "k")) true ]}.

(** An empty envelope, as the engine hands it to the first MAIL FROM. *)
Definition fresh_envelope : Envelope := MkEnvelope None [] [] [] [].

(** A configuration whose size limit is one byte short of [raw_one], and
    the default limit of the engine (32 MiB). *)
Definition tight_settings : Settings := with_message_size_limit default_settings 47.
Definition engine_default : Z := 33554432.

End Sample.


(** ** The rest of smtp/handler.py and smtp/auth.py *)

Module HandlerRest.

(** [handle_EHLO] records the announced hostname in the session and
    returns the capability lines it was given. *)
Definition handle_EHLO (self : SMTPHandler) (session : Session)
    (envelope : Envelope) (hostname : string) (responses : list string)
  : list string * Session :=
  (responses, MkSession (peer session) (ssl session) (Some hostname)).

Definition handle_QUIT (self : SMTPHandler) (session : Session)
    (envelope : Envelope) : string :=
  "221 Bye".

End HandlerRest.
Export HandlerRest.

Module SmtpAuthLogin.
Section WithLib.
Context {lib : Lib}.

(** The two LOGIN parsers share one body: decode, refuse the empty
    string.  The [ValueError] raised inside the [try] is not one of the
    two exceptions the [except] clause names, so it passes through. *)
Definition parse_auth_login_username (username_b64 : string) : result string :=
  match b64decode_utf8 username_b64 with
  | inr e => Raise (ValueError ("Invalid base64 encoding: " +:+ e))
  | inl username =>
      if String.eqb username "" then Raise (ValueError "Username cannot be empty")
      else Ok username
  end.

Definition parse_auth_login_password (password_b64 : string) : result string :=
  match b64decode_utf8 password_b64 with
  | inr e => Raise (ValueError ("Invalid base64 encoding: " +:+ e))
  | inl password =>
      if String.eqb password "" then Raise (ValueError "Password cannot be empty")
      else Ok password
  end.

(** [base64.b64encode(prompt.encode("utf-8")).decode("ascii")] *)
Definition encode_auth_challenge (prompt : string) : string :=
  b64encode (String.list_byte_of_string prompt).

End WithLib.
End SmtpAuthLogin.
Export SmtpAuthLogin.

(** ** Sequences of handler calls *)

Module Engine.
Section WithLib.
Context {lib : Lib}.

(** One call of the engine into the handler object. *)
Inductive call : Type :=
| Connected (session : Session) (now : Z)
| Lost (session : Session)
| Ehlo (session : Session) (envelope : Envelope) (hostname : string)
       (responses : list string)
| Quit (session : Session) (envelope : Envelope)
| Auth (session : Session) (args : list string)
| Mail (session : Session) (envelope : Envelope) (address : string)
       (options : list string)
| Rcpt (session : Session) (envelope : Envelope) (address : string)
       (options : list string)
| Data (session : Session) (envelope : Envelope).

(** The handler object after the call.  Only [connection_made],
    [connection_lost] and [handle_AUTH] assign to its attributes. *)
Definition step (up : upstream) (self : SMTPHandler) (c : call) : M SMTPHandler :=
  match c with
  | Connected session now => ret (connection_made self session now)
  | Lost session => ret (connection_lost self session)
  | Auth session args =>
      r <-- handle_AUTH up self session args ;; ret (snd r)
  | Data session envelope =>
      _ <-- handle_DATA up self session envelope ;; ret self
  | Ehlo _ _ _ _ | Quit _ _ | Mail _ _ _ _ | Rcpt _ _ _ _ => ret self
  end.

(** The calls in order.  A call that raises leaves the handler object as
    it was: [handle_AUTH] writes the table only on two of its return
    paths. *)
Fixpoint run (up : upstream) (calls : list call) (self : SMTPHandler) (s : io)
  : SMTPHandler * io :=
  match calls with
  | [] => (self, s)
  | c :: calls' =>
      match step up self c s with
      | (Ok self', s') => run up calls' self' s'
      | (Raise _, s') => run up calls' self s'
      end
  end.

(** The call is an AUTH from the address [a]. *)
Definition auth_from (a : string) (c : call) : Prop :=
  match c with
  | Auth session _ => peer_key session = a
  | _ => False
  end.

(** RCPT TO for each address in turn, on the envelope the previous one
    left: the replies and the final envelope. *)
Fixpoint rcpt_each (self : SMTPHandler) (session : Session) (envelope : Envelope)
    (addresses : list string) : list string * Envelope :=
  match addresses with
  | [] => ([], envelope)
  | address :: rest =>
      let '(reply, envelope') := handle_RCPT self session envelope address [] in
      let '(replies, final) := rcpt_each self session envelope' rest in
      (reply :: replies, final)
  end.

End WithLib.
End Engine.
Export Engine.

(** ** Well-formed tables *)

Module Invariants.

(** An entry as [handle_AUTH] writes it: flagged authenticated, with a
    key that is true as a condition (for a string: not empty). *)
Definition entry_ok (sd : session_data) : Prop :=
  authenticated sd = true /\ exists key, api_key sd = Some key /\ py_bool key = true.

Definition table_ok (self : SMTPHandler) : Prop :=
  forall a sd, _authenticated_sessions self !! a = Some sd -> entry_ok sd.

End Invariants.
Export Invariants.

(** ** More sample inputs *)

Module MoreSamples.

(** Room for two recipients. *)
Definition two_recipients_settings : Settings :=
  MkSettings (cakemail_api_url default_settings) (cakemail_auth_url default_settings)
    (smtp_host default_settings) (smtp_port default_settings)
    (smtp_hostname default_settings) (message_size_limit default_settings)
    2 (api_max_retries default_settings).

Definition two_recipients_handler : SMTPHandler :=
  set_settings Sample.authenticated_handler two_recipients_settings.

End MoreSamples.

Module SubmitSamples.

(** Spec scenario 4: two recipients, both answered 500. *)
Definition both_fail : upstream :=
  Sample.upstream_of [] [Response 500 Sample.no_body; Response 500 Sample.no_body].

Definition two_recipients : email_data :=
  {| ed_from := "s@x.com"; ed_to := ["a@x.com"]; ed_cc := []; ed_bcc := ["b@x.com"];
     ed_subject := "T"; ed_body_text := "body"; ed_body_html := None;
     ed_attachments := []; ed_reply_to := ""; ed_message_id := HStr "";
     ed_date := HStr "";
     ed_custom_headers := ∅ |}.

(** A timeout, then an acceptance. *)
Definition timeout_then_ok : upstream :=
  Sample.upstream_of [] [TimeoutException "read timed out"; Response 202 (Sample.id_body "m-2")].

End SubmitSamples.

(** ** Vocabulary for the parser and for AUTH PLAIN *)

Module ParserSpec.


(** No character of the string is [c]. *)
Fixpoint free_of (c : Ascii.ascii) (s : string) : Prop :=
  match s with
  | EmptyString => True
  | String x s' => x <> c /\ free_of c s'
  end.

Section WithLib.
Context {lib : Lib}.



(** The header [header] of the message names the address [a]. *)
Definition address_in (msg : Message) (header a : string) : Prop :=
  exists v name,
    get msg header = Some v /\ v <> HStr "" /\
    (name, a) ∈ getaddresses v /\ a <> "".









(** One step of the loop over [msg.items()] in [parse_email_message]. *)
Definition keep_custom (custom_headers : gmap string string)
    (kv : string * header_value) : gmap string string :=
  if startswith "X-" (fst kv)
  then <[fst kv := _decode_header (Some (snd kv))]> custom_headers
  else custom_headers.

End WithLib.

End ParserSpec.
Export ParserSpec.

(** ** utils/tls.py, config.validate_tls_paths and the TLS part of smtp/server.py *)

Module Tls.

(** The exceptions of this part of the code. *)
Inductive os_error : Type :=
| FileNotFoundError (msg : string)
| OSError (msg : string)
| SSLError (msg : string)
| PathValueError (msg : string).

Inductive os_result (A : Type) : Type :=
| Returns (a : A)
| Raises (e : os_error).
Arguments Returns {A} a.
Arguments Raises {A} e.

Inductive tls_version : Type := TLSv1_2 | TLSv1_3.
Inductive verify_mode : Type := CERT_NONE | CERT_REQUIRED.

(** The attributes of the [ssl.SSLContext] that [create_tls_context]
    sets. *)
Record SSLContext : Type := MkSSLContext {
  minimum_version : tls_version;
  maximum_version : tls_version;
  ciphers : string;
  verify : verify_mode;
  check_hostname : bool;
  cert_chain : option (string * string)
}.

(** The operating system and the libraries, as far as this code
    calls them.  A path is the string [str(path)].  An operation gives its
    result and the file system it leaves, also when it raises. *)
Class OS (fs : Type) : Type := {
  (** [path.exists()] *)
  path_exists : fs -> string -> bool;
  (** the bytes of a file, and its permission bits *)
  read_bytes : fs -> string -> option (list byte);
  mode_of : fs -> string -> option Z;
  (** [path.parent] *)
  parent : string -> string;
  (** [path.mkdir(parents=True, exist_ok=True)] *)
  mkdir_parents : string -> fs -> os_result unit * fs;
  (** [with open(path, "wb") as f: f.write(data)] *)
  write_bytes : string -> list byte -> fs -> os_result unit * fs;
  (** [path.chmod(mode)] *)
  chmod : string -> Z -> fs -> os_result unit * fs;
  (** [context.load_cert_chain(certfile, keyfile)] *)
  load_cert_chain : fs -> string -> string -> os_result unit;
  (** [controller.start()] of the controller built with this context: it
      binds the port and starts the server thread *)
  controller_start : Controller -> SSLContext -> os_result unit;
  (** the PEM bytes of the certificate and of the fresh private key that
      the cryptography library produces for a hostname and a validity *)
  issue : string -> Z -> list byte * list byte
}.

(** What a successful operation guarantees. *)
Class OSLaws (fs : Type) `{OS fs} : Prop := {
  write_reads_back p data s s' :
    write_bytes p data s = (Returns tt, s') ->
    path_exists s' p = true /\ read_bytes s' p = Some data;
  write_keeps_others p data s s' q :
    write_bytes p data s = (Returns tt, s') -> q <> p ->
    path_exists s' q = path_exists s q /\ read_bytes s' q = read_bytes s q;
  mkdir_keeps_files p s s' q :
    mkdir_parents p s = (Returns tt, s') ->
    (path_exists s q = true -> path_exists s' q = true) /\
    (forall data, read_bytes s q = Some data -> read_bytes s' q = Some data);
  chmod_sets_mode p m s s' :
    chmod p m s = (Returns tt, s') -> mode_of s' p = Some m;
  chmod_keeps_files p m s s' q :
    chmod p m s = (Returns tt, s') ->
    path_exists s' q = path_exists s q /\ read_bytes s' q = read_bytes s q
}.

(** The two TLS fields of [Settings]. *)
Record TlsPaths : Type := MkTlsPaths {
  tls_cert_path : string;
  tls_key_path : string
}.

Definition default_tls_paths : TlsPaths :=
  MkTlsPaths "/etc/smtp-gateway/tls/tls.crt" "/etc/smtp-gateway/tls/tls.key".

Section WithOS.
Context {fs : Type} `{OS fs}.

(** [Settings.validate_tls_paths] *)
Definition validate_tls_paths (paths : TlsPaths) (s : fs) : os_result unit :=
  if negb (path_exists s (tls_cert_path paths)) then
    Raises (PathValueError ("TLS certificate not found: " +:+ tls_cert_path paths))
  else if negb (path_exists s (tls_key_path paths)) then
    Raises (PathValueError ("TLS key not found: " +:+ tls_key_path paths))
  else Returns tt.

(** [generate_self_signed_cert]: the two directories, the two files, the
    permissions of the key; the first operation that raises ends it. *)
Definition generate_self_signed_cert (hostname cert_path key_path : string)
    (days_valid : Z) (s : fs) : os_result (string * string) * fs :=
  let '(cert, private_key) := issue hostname days_valid in
  match mkdir_parents (parent cert_path) s with
  | (Raises e, s1) => (Raises e, s1)
  | (Returns _, s1) =>
      match mkdir_parents (parent key_path) s1 with
      | (Raises e, s2) => (Raises e, s2)
      | (Returns _, s2) =>
          match write_bytes cert_path cert s2 with
          | (Raises e, s3) => (Raises e, s3)
          | (Returns _, s3) =>
              match write_bytes key_path private_key s3 with
              | (Raises e, s4) => (Raises e, s4)
              | (Returns _, s4) =>
                  match chmod key_path 384 s4 with
                  | (Raises e, s5) => (Raises e, s5)
                  | (Returns _, s5) => (Returns (cert_path, key_path), s5)
                  end
              end
          end
      end
  end.

(** [_ensure_tls_certificates] of smtp/server.py *)
Definition _ensure_tls_certificates (settings : Settings) (paths : TlsPaths)
    (s : fs) : os_result (string * string) * fs :=
  let cert_path := tls_cert_path paths in
  let key_path := tls_key_path paths in
  if path_exists s cert_path && path_exists s key_path then
    (Returns (cert_path, key_path), s)
  else
    generate_self_signed_cert (smtp_hostname settings) cert_path key_path 365 s.

(** [create_tls_context] *)
Definition create_tls_context (cert_path key_path : option string)
    (require_cert : bool) (s : fs) : os_result SSLContext :=
  let context verify check chain :=
    MkSSLContext TLSv1_2 TLSv1_3
      "ECDHE+AESGCM:ECDHE+CHACHA20:DHE+AESGCM:DHE+CHACHA20:!aNULL:!MD5:!DSS"
      verify check chain in
  let verify := if require_cert then CERT_REQUIRED else CERT_NONE in
  match cert_path, key_path with
  | Some cert, Some key =>
      if negb (path_exists s cert) then
        Raises (FileNotFoundError ("Certificate file not found: " +:+ cert))
      else if negb (path_exists s key) then
        Raises (FileNotFoundError ("Private key file not found: " +:+ key))
      else
        match load_cert_chain s cert key with
        | Raises e => Raises e
        | Returns _ => Returns (context verify require_cert (Some (cert, key)))
        end
  | _, _ => Returns (context verify require_cert None)
  end.

(** [create_smtp_server] as a whole: the certificates, the context, the
    controller with its handler ([Server.create_smtp_server] has its
    arguments; the context is its [tls_context]), and [controller.start()].
    It returns the controller. *)
Definition create_smtp_server_with_tls (settings : Settings) (paths : TlsPaths)
    (s : fs) : os_result (SSLContext * Controller) * fs :=
  match _ensure_tls_certificates settings paths s with
  | (Raises e, s1) => (Raises e, s1)
  | (Returns (cert_path, key_path), s1) =>
      match create_tls_context (Some cert_path) (Some key_path) false s1 with
      | Raises e => (Raises e, s1)
      | Returns tls_context =>
          let controller := create_smtp_server settings in
          match controller_start controller tls_context with
          | Raises e => (Raises e, s1)
          | Returns _ => (Returns (tls_context, controller), s1)
          end
      end
  end.

End WithOS.

(** A file system for the examples: a map from paths to contents and
    modes.  A chmod of a missing file fails; a certificate and a key load
    when they are PEM blocks of the right kind; a controller starts on an
    unprivileged port. *)
Abbreviation simple_fs := (gmap string (list byte * Z)).

Definition pem (label body : string) : list byte :=
  String.list_byte_of_string ("-----BEGIN " +:+ label +:+ "-----" +:+ body).

Definition is_pem (label : string) (data : list byte) : bool :=
  String.prefix ("-----BEGIN " +:+ label +:+ "-----") (String.string_of_list_byte data).

(** The path without its last component. *)
Fixpoint after_slash (reversed : string) : string :=
  match reversed with
  | EmptyString => EmptyString
  | String c rest => if Ascii.eqb c "/"%char then rest else after_slash rest
  end.

Definition simple_os : OS simple_fs := {|
  path_exists s p := bool_decide (is_Some (s !! p));
  read_bytes s p := fst <$> s !! p;
  mode_of s p := snd <$> s !! p;
  parent p := String.rev (after_slash (String.rev p));
  mkdir_parents p s := (Returns tt, s);
  write_bytes p data s := (Returns tt, <[p := (data, 420)]> s);
  chmod p m s :=
    match s !! p with
    | Some (data, _) => (Returns tt, <[p := (data, m)]> s)
    | None => (Raises (FileNotFoundError p), s)
    end;
  load_cert_chain s cert key :=
    match s !! cert, s !! key with
    | Some (c, _), Some (k, _) =>
        if is_pem "CERTIFICATE" c && is_pem "RSA PRIVATE KEY" k then Returns tt
        else Raises (SSLError "[SSL] PEM lib")
    | _, _ => Raises (FileNotFoundError "No such file or directory")
    end;
  controller_start c context :=
    if port c <? 1024 then Raises (OSError "[Errno 13] Permission denied")
    else Returns tt;
  issue hostname days := (pem "CERTIFICATE" hostname, pem "RSA PRIVATE KEY" "fresh")
|}.

(** The two default files in place, with a certificate and a key; the
    same with a certificate file that holds no certificate; and the key
    there alone. *)
Definition both_present : simple_fs :=
  <[tls_cert_path default_tls_paths := (pem "CERTIFICATE" "old", 420)]>
    (<[tls_key_path default_tls_paths := (pem "RSA PRIVATE KEY" "old", 384)]> ∅).

Definition broken_certificate : simple_fs :=
  <[tls_cert_path default_tls_paths := (String.list_byte_of_string "garbage", 420)]>
    (<[tls_key_path default_tls_paths := (pem "RSA PRIVATE KEY" "old", 384)]> ∅).

Definition key_alone : simple_fs :=
  <[tls_key_path default_tls_paths := (pem "RSA PRIVATE KEY" "old", 420)]>
    (<["/etc/motd" := (String.list_byte_of_string "hello", 420)]> ∅).

(** The default settings on an unprivileged port. *)
Definition unprivileged_settings : Settings :=
  MkSettings (cakemail_api_url default_settings) (cakemail_auth_url default_settings)
    (smtp_host default_settings) 2525 (smtp_hostname default_settings)
    (message_size_limit default_settings) (max_recipients default_settings)
    (api_max_retries default_settings).

End Tls.
Export Tls.
(** * Properties *)

(** ** The credential validator *)

Section ValidatorFacts.
Variable up : upstream.
Variables username password : string.

Lemma classify_transient r e :
  classify_attempt username r = Transient e ->
  transient r /\
  match r with
  | Response st _ => e = ServerError ("API server error: " +:+ pretty st)
  | TimeoutException m => e = NetworkError ("API request timeout: " +:+ m)
  | RequestError m => e = NetworkError ("Network error: " +:+ m)
  end.
Proof.
  destruct r as [st body|m|m]; simpl.
  - destruct (st =? 200) eqn:E200.
    { destruct (fields_of body) as [fields|e0]; [|discriminate].
      destruct (truthy_value (fields !! "api_key")); discriminate. }
    destruct ((st =? 401) || (st =? 403)); [discriminate|].
    destruct (500 <=? st) eqn:E500; [|discriminate].
    intros [= <-]. split; [|reflexivity].
    constructor. lia.
  - intros [= <-]. split; [constructor|reflexivity].
  - intros [= <-]. split; [constructor|reflexivity].
Qed.

Lemma classify_no_index_error r :
  match classify_attempt username r with
  | Finished (Raise e) | Transient e => forall m, e <> IndexError m
  | Finished (Ok _) => True
  end.
Proof.
  destruct r as [st body|m|m]; simpl; try discriminate.
  destruct (st =? 200).
  { destruct body as [[|] msg|type_name|fields]; simpl; try discriminate.
    destruct (truthy_value (fields !! "api_key")); [exact I|discriminate]. }
  destruct ((st =? 401) || (st =? 403)); [discriminate|].
  destruct (500 <=? st); discriminate.
Qed.

(** One iteration of the loop. *)
Lemma attempts_step mr todo a last s :
  attempts up username password mr (S todo) a last s =
  let log := auth_requests s ++ [(username, password)] in
  let s1 := IO log (email_requests s) (sleeps s) in
  match classify_attempt username (auth_api up log) with
  | Finished (Ok k) => (Ok k, s1)
  | Finished (Raise e) => (Raise e, s1)
  | Transient e =>
      if a <? mr then
        match retry_delays !! Z.to_nat a with
        | Some d =>
            attempts up username password mr todo (a + 1) (Some e)
              (IO log (email_requests s) (sleeps s ++ [d]))
        | None => (Raise (IndexError "list index out of range"), s1)
        end
      else (Raise e, s1)
  end.
Proof.
  simpl. unfold bind, post_auth. simpl.
  destruct (classify_attempt username _) as [[k|e]|e]; try reflexivity.
  destruct (a <? mr); [|reflexivity].
  destruct (retry_delays !! Z.to_nat a); reflexivity.
Qed.

(** The run of the loop from iteration [a] on, when the retry count is
    at most the length of the schedule. *)
Lemma attempts_run mr :
  mr <= 2 ->
  forall todo a last s r s',
    0 <= a ->
    todo = Z.to_nat (mr + 1 - a) ->
    todo <> O ->
    attempts up username password mr todo a last s = (r, s') ->
    exists n : nat,
      (1 <= n <= todo)%nat /\
      auth_requests s' = auth_requests s ++ replicate n (username, password) /\
      email_requests s' = email_requests s /\
      sleeps s' = sleeps s ++ take (n - 1) (drop (Z.to_nat a) retry_delays) /\
      (forall k, (k < n - 1)%nat ->
         transient (auth_api up (auth_requests s
                                 ++ replicate (S k) (username, password)))) /\
      match classify_attempt username (auth_api up (auth_requests s')) with
      | Finished res => r = res
      | Transient e => r = Raise e /\ n = todo
      end.
Proof.
  intros Hmr todo. induction todo as [|todo IH]; [congruence|].
  intros a last s r s' Ha Htodo _. rewrite attempts_step. cbv zeta.
  destruct (classify_attempt username
              (auth_api up (auth_requests s ++ [(username, password)])))
    as [res|e] eqn:Hc.
  - (* the attempt settles the call *)
    intros Hrun. assert (r = res /\ s' = IO (auth_requests s ++ [(username, password)])
                                            (email_requests s) (sleeps s)) as [-> ->].
    { destruct res; inversion Hrun; auto. }
    exists 1%nat. simpl. rewrite Hc, app_nil_r.
    repeat split; try lia; auto.
  - destruct (a <? mr) eqn:Hlt.
    + (* sleep and retry *)
      apply Z.ltb_lt in Hlt.
      assert (Z.to_nat a = 0%nat \/ Z.to_nat a = 1%nat) as Hidx by lia.
      assert (exists d, retry_delays !! Z.to_nat a = Some d /\
                        drop (Z.to_nat a) retry_delays
                        = d :: drop (Z.to_nat (a + 1)) retry_delays) as (d & Hd & Hdrop).
      { replace (Z.to_nat (a + 1)) with (S (Z.to_nat a)) by lia.
        destruct Hidx as [-> | ->]; eexists; split; reflexivity. }
      rewrite Hd. intros Hrun.
      apply IH in Hrun; [|lia|lia|lia].
      destruct Hrun as (n & Hn & Hlog & Hmail & Hsl & Htr & Hout).
      simpl in Hlog, Hmail, Hsl, Htr.
      exists (S n). repeat split; try lia.
      * rewrite Hlog, <- app_assoc. reflexivity.
      * exact Hmail.
      * rewrite Hsl, Hdrop, <- app_assoc. simpl.
        replace (n - 0)%nat with (S (n - 1)) by lia. reflexivity.
      * intros k Hk. destruct k as [|k].
        -- simpl. apply (classify_transient _ _ Hc).
        -- specialize (Htr k ltac:(lia)).
           rewrite <- app_assoc in Htr. exact Htr.
      * destruct (classify_attempt username (auth_api up (auth_requests s')));
          [exact Hout|]. destruct Hout as [-> ->]. split; [reflexivity|lia].
    + (* the last iteration *)
      apply Z.ltb_ge in Hlt. intros [= <- <-].
      exists 1%nat. simpl. rewrite Hc, app_nil_r.
      repeat split; try lia; auto.
Qed.

End ValidatorFacts.

(** The loop is skipped altogether when the retry count is below zero. *)
Lemma validate_credentials_no_attempt up s u p io :
  api_max_retries s < 0 ->
  validate_credentials up s u p io =
  (Raise (NetworkError "Authentication request failed after all retries"), io).
Proof.
  intros Hneg. unfold validate_credentials.
  replace (Z.to_nat (api_max_retries s + 1)) with O by lia. reflexivity.
Qed.

(** What the validator does with a status of 200, by the body. *)
Lemma classify_attempt_200 (u : string) (body : json) :
  classify_attempt u (Response 200 body) =
  match body with
  | Undecodable InvalidJson msg => Finished (Raise (JSONDecodeError msg))
  | Undecodable InvalidUnicode msg => Finished (Raise (UnicodeDecodeError msg))
  | NotAnObject type_name =>
      Finished (Raise (AttributeError
                         ("'" +:+ type_name +:+ "' object has no attribute 'get'")))
  | Object fields =>
      match fields !! "api_key" with
      | Some key =>
          if py_bool key then Finished (Ok key)
          else Finished (Raise (ServerError "Invalid API response: missing api_key"))
      | None => Finished (Raise (ServerError "Invalid API response: missing api_key"))
      end
  end.
Proof.
  destruct body as [[|] msg|type_name|fields]; try reflexivity.
  simpl. destruct (fields !! "api_key") as [key|]; [|reflexivity].
  simpl. destruct (py_bool key); reflexivity.
Qed.



Section UndecodableAnswer.
#[local] Existing Instance Sample.lib.

(** C3, where the code departs from it.  The auth service answers 200 with
    a body that is not JSON, so that there is no [api_key] to read:
    [response.json()] raises [JSONDecodeError], which no [except] clause of
    the validator catches.  The validation ends after this one request with
    that error, not with a server error, and [handle_AUTH], for which a
    [JSONDecodeError] is a [ValueError], answers 535 as for a malformed
    AUTH payload instead of 451. *)
Theorem undecodable_200_is_no_server_error :
  let e := JSONDecodeError "Expecting value: line 1 column 1 (char 0)" in
  let sent := IO [("u@x.com", "pw")] [] [] in
  validate_credentials Sample.html_auth default_settings "u@x.com" "pw" io0
  = (Raise e, sent) /\
  (forall m, e <> ServerError m) /\
  handle_AUTH Sample.html_auth (init default_settings) Sample.client
    ["PLAIN"; Sample.auth_token] io0
  = (Ok ("535 5.7.8 Authentication credentials invalid", init default_settings), sent).
Proof.
  intros e sent. split; [reflexivity|]. split; [discriminate|]. reflexivity.
Qed.

End UndecodableAnswer.

(** C10, as the code has it.  When the configured retry count is at most
    two, a validation never indexes the two-entry schedule out of bounds
    (no [IndexError]), sleeps 0.5 s before its second request and 1.0 s
    before its third, and makes at most [max(0, api_max_retries + 1)]
    requests. *)
Theorem validate_credentials_schedule_in_bounds up s u p io r io' :
  api_max_retries s <= 2 ->
  validate_credentials up s u p io = (r, io') ->
  (forall m, r <> Raise (IndexError m)) /\
  exists n : nat,
    auth_requests io' = auth_requests io ++ replicate n (u, p) /\
    Z.of_nat n <= Z.max 0 (api_max_retries s + 1) /\
    sleeps io' = sleeps io ++ take (n - 1) retry_delays.
Proof.
  intros Hmr Hrun.
  destruct (Z_lt_le_dec (api_max_retries s) 0) as [Hneg|Hpos].
  - rewrite validate_credentials_no_attempt in Hrun by assumption.
    injection Hrun as <- <-. split; [discriminate|].
    exists O. simpl. rewrite !app_nil_r. repeat split; lia.
  - unfold validate_credentials in Hrun.
    apply attempts_run in Hrun; [|lia|lia|f_equal; lia|lia].
    destruct Hrun as (n & Hn & Hlog & _ & Hsl & _ & Hout).
    split.
    + pose proof (classify_no_index_error u (auth_api up (auth_requests io'))) as Hc.
      destruct (classify_attempt u (auth_api up (auth_requests io'))) as [[k|e]|e].
      * subst r. discriminate.
      * subst r. intros m [= He]. exact (Hc m He).
      * destruct Hout as [-> _]. intros m [= He]. exact (Hc m He).
    + exists n. repeat split; [assumption|lia|assumption].
Qed.

Lemma validate_credentials_schedule_in_bounds_witness :
  api_max_retries default_settings <= 2 /\
  validate_credentials Sample.failing_auth default_settings "u@x.com" "pw" io0
  = (Raise (ServerError "API server error: 500"),
     IO (replicate 3 ("u@x.com", "pw")) [] [500; 1000]) /\
  (forall m, Raise (ServerError "API server error: 500") <> Raise (A:=json_value) (IndexError m)) /\
  exists n : nat,
    replicate 3 ("u@x.com", "pw") = [] ++ replicate n ("u@x.com", "pw") /\
    Z.of_nat n <= Z.max 0 (api_max_retries default_settings + 1) /\
    [500; 1000] = [] ++ take (n - 1) retry_delays.
Proof.
  split; [simpl; lia|]. split; [reflexivity|].
  apply (validate_credentials_schedule_in_bounds Sample.failing_auth default_settings
           "u@x.com" "pw" io0 (Raise (ServerError "API server error: 500"))
           (IO (replicate 3 ("u@x.com", "pw")) [] [500; 1000]));
    [simpl; lia|reflexivity].
Defined.

(** With a retry count of -2, which is at most two, no request is made,
    and zero exceeds [api_max_retries + 1 = -1]. *)
Lemma attempts_exceed_negative_retry_bound :
  let s := with_api_max_retries default_settings (-2) in
  api_max_retries s <= 2 /\
  exists r io',
    validate_credentials Sample.failing_auth s "u@x.com" "pw" io0 = (r, io') /\
    ~ Z.of_nat (length (auth_requests io')) <= api_max_retries s + 1.
Proof.
  simpl. split; [lia|]. eexists _, _. split; [reflexivity|]. simpl. lia.
Qed.

(** Beyond two retries the schedule is too short: the third transient
    failure raises [IndexError]. *)
Lemma validate_credentials_three_retries_index_error :
  validate_credentials Sample.failing_auth
    (with_api_max_retries default_settings 3) "u@x.com" "pw" io0
  = (Raise (IndexError "list index out of range"),
     IO (replicate 3 ("u@x.com", "pw")) [] [500; 1000]).
Proof. reflexivity. Qed.

(** ** The per-recipient submitter *)

(** Split a goal into its conjuncts, leaving each conjunct as it is. *)
Ltac conjs := repeat match goal with |- _ /\ _ => split end.

Section SubmitterFacts.
Variable up : upstream.
Variable api_key : json_value.
Variable data : email_data.

Lemma fields_of_raises body e : fields_of body = Raise e -> body_error e.
Proof.
  destruct body as [[|] msg|type_name|fields]; intros [= <-]; exact I.
Qed.

(** A response raises on status 429, or where its body is read (status
    200, 202 or 400) and is no JSON object. *)
Lemma classify_response_raises st body e :
  classify_response st body = Raise e ->
  (st = 429 /\ e = rate_limited) \/
  (st <> 429 /\ fields_of body = Raise e).
Proof.
  unfold classify_response.
  destruct ((st =? 200) || (st =? 202)) eqn:E200.
  { destruct (fields_of body) as [fields|e0]; simpl.
    - destruct (truthy_value _); discriminate.
    - intros [= <-]. right. split; [|reflexivity]. intros ->. discriminate. }
  destruct (st =? 400) eqn:E400.
  { destruct (fields_of body) as [fields|e0]; simpl; [discriminate|].
    intros [= <-]. right. split; [|reflexivity]. intros ->. discriminate. }
  destruct (st =? 429) eqn:E; [|destruct (500 <=? st); discriminate].
  apply Z.eqb_eq in E. intros [= <-]. auto.
Qed.

Lemma classify_response_429 body : classify_response 429 body = Raise rate_limited.
Proof. reflexivity. Qed.

(** The answer to a request settles the recipient. *)
Lemma settle_response st body log s res s' :
  email_api up log = Response st body ->
  match classify_response st body with
  | Ok x => ret x
  | Raise e => raise e
  end s = (res, s') ->
  s' = s /\
  (forall e, res = Raise e -> e = rate_limited \/ body_error e) /\
  (st = 429 -> res = Raise rate_limited).
Proof.
  intros Ha Hrun.
  destruct (classify_response st body) as [x|e] eqn:Hc;
    unfold ret, raise in Hrun; injection Hrun as <- <-; conjs; auto.
  - discriminate.
  - intros ->. rewrite classify_response_429 in Hc. discriminate.
  - intros e' [= <-].
    apply classify_response_raises in Hc as [[_ ->]|[_ Hc]]; auto.
    right. exact (fields_of_raises _ _ Hc).
  - intros ->. rewrite classify_response_429 in Hc. injection Hc as <-. reflexivity.
Qed.

(** The second request to a recipient, after a transport error. *)
Lemma single_second_attempt rq s res s' :
  (forall b, email_api up (email_requests s ++ [rq]) <> Response 429 b) ->
  single_attempts up rq 2 1 1
    (IO (auth_requests s) (email_requests s ++ [rq]) (sleeps s)) = (res, s') ->
  recipient_requests up rq s s' res.
Proof.
  intros Hfirst Hrun. simpl in Hrun. unfold bind, post_email in Hrun.
  simpl in Hrun. rewrite <- app_assoc in Hrun. simpl in Hrun.
  exists [rq; rq].
  destruct (email_api up (email_requests s ++ [rq; rq])) as [st body|e|e] eqn:Ha2.
  - destruct (settle_response _ _ _ _ _ _ Ha2 Hrun) as (-> & Hraise & H429).
    simpl. conjs; try reflexivity; try lia; [repeat constructor| |exact Hraise].
    intros [|[|k]] b Hk Hans; simpl in Hk, Hans; try lia.
    + exfalso. exact (Hfirst b Hans).
    + rewrite Ha2 in Hans. injection Hans as -> _. auto.
  - unfold ret in Hrun. injection Hrun as <- <-. simpl.
    conjs; try reflexivity; try lia; [repeat constructor| |discriminate].
    intros [|[|k]] b Hk Hans; simpl in Hk, Hans; try lia.
    + exfalso. exact (Hfirst b Hans).
    + rewrite Ha2 in Hans. discriminate.
  - unfold ret in Hrun. injection Hrun as <- <-. simpl.
    conjs; try reflexivity; try lia; [repeat constructor| |discriminate].
    intros [|[|k]] b Hk Hans; simpl in Hk, Hans; try lia.
    + exfalso. exact (Hfirst b Hans).
    + rewrite Ha2 in Hans. discriminate.
Qed.

(** The requests one recipient costs: one, or two after a transport
    error; a 429 among their answers is the last of them and raises. *)
Lemma single_recipient_run r s res s' :
  _submit_to_single_recipient up api_key data r s = (res, s') ->
  recipient_requests up (EmailRequest (py_str api_key) (build_payload data r)) s s' res.
Proof.
  unfold _submit_to_single_recipient. set (rq := EmailRequest _ _).
  change (Z.to_nat 2) with 2%nat.
  cbn [single_attempts]. unfold bind at 1. unfold post_email at 1.
  cbn [auth_requests email_requests sleeps].
  destruct (email_api up (email_requests s ++ [rq])) as [st body|m|m] eqn:Ha1.
  - intros Hrun.
    destruct (settle_response _ _ _ _ _ _ Ha1 Hrun) as (-> & Hraise & H429).
    exists [rq]. simpl.
    conjs; try reflexivity; try lia; [repeat constructor| |exact Hraise].
    intros [|k] b Hk Hans; simpl in Hk, Hans; try lia.
    rewrite Ha1 in Hans. injection Hans as -> _. auto.
  - change (0 <? 2 - 1) with true. cbv iota. change (0 + 1) with 1.
    apply single_second_attempt. rewrite Ha1. discriminate.
  - change (0 <? 2 - 1) with true. cbv iota. change (0 + 1) with 1.
    apply single_second_attempt. rewrite Ha1. discriminate.
Qed.

(** The fan-out, one step. *)
Lemma fan_out_cons r rest t s :
  fan_out up api_key data (r :: rest) t s =
  match _submit_to_single_recipient up api_key data r s with
  | (Ok res, s1) => fan_out up api_key data rest (record_result t r res) s1
  | (Raise e, s1) => (Raise e, s1)
  end.
Proof. reflexivity. Qed.

(** Accounting: the three lists grow by what the per-recipient results
    say, in the order of the recipients. *)
Lemma fan_out_tally R :
  forall t s t' s',
    fan_out up api_key data R t s = (Ok t', s') ->
    exists rs : list single_result,
      length rs = length R /\
      succeeded_recipients t' = succeeded_recipients t ++ successes (zip R rs) /\
      failed_recipients t' = failed_recipients t ++ failures (zip R rs) /\
      message_ids t' = message_ids t ++ success_ids (zip R rs).
Proof.
  induction R as [|r rest IH]; intros t s t' s' Hrun.
  - injection Hrun as <- <-. exists []. simpl. rewrite !app_nil_r. auto.
  - rewrite fan_out_cons in Hrun.
    destruct (_submit_to_single_recipient up api_key data r s) as [[res|e] s1];
      [|discriminate].
    apply IH in Hrun as (rs & Hlen & Hs & Hf & Hi).
    exists (res :: rs). split; [simpl; lia|].
    rewrite Hs, Hf, Hi.
    destruct res as [mid|err]; simpl; rewrite <- ?app_assoc; auto.
Qed.

(** Requests: the fan-out only adds requests for its recipients, with
    the session's key; a 429 among the answers ends it at once. *)
Lemma fan_out_requests R :
  forall t s res s',
    fan_out up api_key data R t s = (res, s') ->
    exists new : list email_request,
      email_requests s' = email_requests s ++ new /\
      auth_requests s' = auth_requests s /\
      sleeps s' = sleeps s /\
      Forall (fun rq => exists r, r ∈ R /\
                rq = EmailRequest (py_str api_key) (build_payload data r)) new /\
      (forall k body, (k < length new)%nat ->
         email_api up (email_requests s ++ take (S k) new) = Response 429 body ->
         res = Raise rate_limited /\ S k = length new) /\
      (forall e, res = Raise e -> e = rate_limited \/ body_error e).
Proof.
  induction R as [|r rest IH]; intros t s res s' Hrun.
  - injection Hrun as <- <-. exists []. simpl. rewrite app_nil_r.
    conjs; auto; [intros; lia|discriminate].
  - rewrite fan_out_cons in Hrun.
    destruct (_submit_to_single_recipient up api_key data r s) as [r1 s1] eqn:H1.
    apply single_recipient_run in H1
      as (new1 & Hlog1 & Hauth1 & Hsl1 & Hlen1 & Hall1 & H429 & Hraise1).
    assert (Hall1' : Forall (fun rq => exists r0, r0 ∈ r :: rest /\
                        rq = EmailRequest (py_str api_key) (build_payload data r0)) new1).
    { eapply Forall_impl; [exact Hall1|]. intros rq ->. exists r.
      split; [left|reflexivity]. }
    destruct r1 as [res1|e].
    + apply IH in Hrun as (new2 & Hlog2 & Hauth2 & Hsl2 & Hall2 & H429' & Hraise2).
      exists (new1 ++ new2).
      conjs; [rewrite Hlog2, Hlog1, app_assoc; reflexivity
             |congruence|congruence| | |exact Hraise2].
      * apply Forall_app. split; [exact Hall1'|].
        eapply Forall_impl; [exact Hall2|]. intros rq (r0 & Hin & ->).
        exists r0. split; [right; exact Hin|reflexivity].
      * intros k body Hk Hans. rewrite length_app in Hk.
        destruct (decide (k < length new1)%nat) as [Hlt|Hge].
        -- rewrite take_app_le in Hans by lia.
           destruct (H429 k body Hlt Hans) as [Habs _]. discriminate.
        -- rewrite take_app_ge, app_assoc, <- Hlog1 in Hans by lia.
           replace (S k - length new1)%nat with (S (k - length new1)) in Hans by lia.
           destruct (H429' (k - length new1)%nat body ltac:(lia) Hans) as [-> Hlast].
           split; [reflexivity|]. rewrite length_app. lia.
    + injection Hrun as <- <-. exists new1.
      conjs; auto.
      * intros k body Hk Hans.
        destruct (H429 k body Hk Hans) as [[= ->] Hlast]. auto.
      * intros e0 [= <-]. apply Hraise1. reflexivity.
Qed.

End SubmitterFacts.

Section Accounting.



Lemma submit_email_empty up key data s :
  ed_to data ++ ed_cc data ++ ed_bcc data = [] ->
  submit_email up key data s
  = (Raise (ValidationError "No recipients specified"), s).
Proof. intros HR. unfold submit_email. rewrite HR. reflexivity. Qed.

(** What [submit_email] does after the emptiness test. *)
Lemma submit_email_nonempty up key data s :
  ed_to data ++ ed_cc data ++ ed_bcc data <> [] ->
  submit_email up key data s =
  match fan_out up key data (ed_to data ++ ed_cc data ++ ed_bcc data)
          (Tally [] [] []) s with
  | (Ok t, s') =>
      match succeeded_recipients t with
      | [] => (Raise (ValidationError
                        ("All recipients failed: "
                         +:+ error_summary (failed_recipients t))), s')
      | _ :: _ =>
          (Ok {| message_id := match message_ids t with
                               | [i] => OneId i
                               | _ => IdList (message_ids t)
                               end;
                 status := "accepted";
                 succeeded := succeeded_recipients t;
                 failed := failed_recipients t |}, s')
      end
  | (Raise e, s') => (Raise e, s')
  end.
Proof.
  intros HR. unfold submit_email.
  destruct (ed_to data ++ ed_cc data ++ ed_bcc data) as [|r R]; [congruence|].
  unfold bind. destruct (fan_out up key data (r :: R) _ s) as [[t|e] s']; [|reflexivity].
  destruct (succeeded_recipients t); reflexivity.
Qed.


End Accounting.



(** A submission sends nothing to the auth service and never sleeps; as
    soon as one of its requests is answered 429 it raises the rate-limit
    error, that request being its last. *)
Lemma submit_email_rate_limit up key data io res io' :
  submit_email up key data io = (res, io') ->
  (forall e, res = Raise e ->
     e = rate_limited \/ body_error e \/ exists m, e = ValidationError m) /\
  forall k,
    (length (email_requests io) <= k < length (email_requests io'))%nat ->
    answered_429 up (email_requests io') k ->
    res = Raise rate_limited /\ length (email_requests io') = S k.
Proof.
  intros Hrun.
  destruct (decide (ed_to data ++ ed_cc data ++ ed_bcc data = [])) as [HR|HR].
  - rewrite submit_email_empty in Hrun by exact HR. injection Hrun as <- <-.
    split; [intros e [= <-]; eauto|]. intros k Hk. lia.
  - rewrite submit_email_nonempty in Hrun by exact HR.
    destruct (fan_out up key data _ (Tally [] [] []) io) as [r1 s1] eqn:Hfan.
    apply fan_out_requests in Hfan as (new & Hlog & _ & _ & _ & H429 & Hraise).
    assert (Hlast : forall k,
              (length (email_requests io) <= k < length (email_requests s1))%nat ->
              answered_429 up (email_requests s1) k ->
              r1 = Raise rate_limited /\ length (email_requests s1) = S k).
    { intros k Hk [body Hans]. rewrite Hlog, length_app in Hk.
      rewrite Hlog, take_app_ge in Hans by lia.
      replace (S k - length (email_requests io))%nat
        with (S (k - length (email_requests io))) in Hans by lia.
      destruct (H429 (k - length (email_requests io))%nat body ltac:(lia) Hans)
        as [-> Hlen].
      split; [reflexivity|]. rewrite Hlog, length_app. lia. }
    destruct r1 as [t|e].
    + assert (io' = s1) as ->.
      { destruct (succeeded_recipients t); injection Hrun as _ <-; reflexivity. }
      split.
      * intros e ->. destruct (succeeded_recipients t); [|discriminate].
        injection Hrun as <-. eauto.
      * intros k Hk Hans. destruct (Hlast k Hk Hans) as [Habs _]. discriminate.
    + injection Hrun as <- <-. split.
      * intros e' [= <-]. destruct (Hraise e eq_refl) as [->|Hb]; auto.
      * intros k Hk Hans. destruct (Hlast k Hk Hans) as [[= ->] Hlen]. auto.
Qed.

(** ** The MIME parser *)

Section ParserFacts.
Context {lib : Lib}.

(** An absent header and a header with an empty value both read as the
    empty string. *)
Lemma _decode_header_empty (v : option header_value) :
  v = None \/ v = Some (HStr "") -> _decode_header v = "".
Proof. intros [-> | ->]; reflexivity. Qed.



(** The addresses read from one header. *)
Lemma _extract_recipients_spec (msg : Message) (header_name a : string) :
  a ∈ _extract_recipients msg header_name <-> address_in msg header_name a.
Proof.
  unfold _extract_recipients, address_in.
  destruct (get msg header_name) as [v|] eqn:Hget.
  2:{ split; [intros Hin; inversion Hin|intros (v & name & ? & _); discriminate]. }
  assert (Hfilter : forall v',
            a ∈ snd <$> List.filter (fun na => negb (String.eqb (snd na) ""))
                          (getaddresses v') <->
            exists name, (name, a) ∈ getaddresses v' /\ a <> "").
  { intros v'. rewrite list_elem_of_fmap. split.
    - intros ([name a'] & -> & Hin). apply list_elem_of_In, filter_In in Hin as [Hin Hne].
      simpl in *. exists name. split; [apply list_elem_of_In; exact Hin|].
      intros ->. discriminate.
    - intros (name & Hin & Hne). exists (name, a). split; [reflexivity|].
      apply list_elem_of_In, filter_In. split; [apply list_elem_of_In; exact Hin|].
      simpl. apply String.eqb_neq in Hne. rewrite Hne. reflexivity. }
  destruct v as [s|text]; simpl.
  - destruct (decide (s = "")) as [->|Hne].
    + split; [intros Hin; inversion Hin|].
      intros (v & name & [= <-] & Habs & _). contradiction.
    + rewrite Hfilter. split.
      * intros (name & Hin & Ha). exists (HStr s), name. conjs; auto; congruence.
      * intros (v & name & [= <-] & _ & Hin & Ha). eauto.
  - rewrite Hfilter. split.
    + intros (name & Hin & Ha). exists (HObj text), name. conjs; auto; discriminate.
    + intros (v & name & [= <-] & _ & Hin & Ha). eauto.
Qed.













End ParserFacts.

(** ** Attachments *)

Section AttachmentFacts.
Context {lib : Lib}.




(** What a part contributes, when it contributes. *)
Lemma attachment_of_elem (part : Message) (c : list attachment) (a : attachment) :
  attachment_of part = Ok c ->
  a ∈ c <->
  exists F B,
    is_multipart part = false /\ is_attachment part = Ok true /\
    get_filename part = Ok (Some F) /\ F <> "" /\
    get_payload part = Some B /\ B <> [] /\
    a = Attachment (_decode_header (Some (HStr F))) (get_content_type part)
          (b64encode B) (Z.of_nat (length B)).
Proof.
  unfold attachment_of.
  destruct (is_multipart part) eqn:Hmp.
  { intros [= <-]. split; [intros Hin; inversion Hin|intros (F & B & ? & _); discriminate]. }
  destruct (is_attachment part) as [[|]|e0] eqn:Hatt; simpl; [| |discriminate].
  2:{ intros [= <-].
      split; [intros Hin; inversion Hin|intros (F & B & _ & ? & _); discriminate]. }
  destruct (get_filename part) as [[F|]|e0] eqn:Hname; simpl; [| |discriminate].
  2:{ intros [= <-].
      split; [intros Hin; inversion Hin|intros (F & B & _ & _ & ? & _); discriminate]. }
  destruct (decide (F = "")) as [->|HF].
  { intros [= <-]. split; [intros Hin; inversion Hin|].
    intros (F & B & _ & _ & [= <-] & Hne & _). contradiction. }
  destruct (get_payload part) as [[|b bs]|] eqn:Hpay; intros [= <-].
  - split; [intros Hin; inversion Hin|].
    intros (F' & B & _ & _ & _ & _ & [= <-] & Hne & _). contradiction.
  - split.
    + intros Hin. apply list_elem_of_singleton in Hin as ->.
      exists F, (b :: bs). conjs; auto; discriminate.
    + intros (F' & B & _ & _ & [= <-] & _ & [= <-] & _ & ->).
      apply list_elem_of_singleton. reflexivity.
  - split; [intros Hin; inversion Hin|].
    intros (F' & B & _ & _ & _ & _ & ? & _). discriminate.
Qed.

(** The loop returns the contributions of the parts, in order, when
    every part can be read. *)
Lemma collect_attachments_ok (ps : list Message) :
  forall attachments atts,
    collect_attachments ps attachments = Ok atts ->
    exists cs : list (list attachment),
      Forall2 (fun p c => attachment_of p = Ok c) ps cs /\
      atts = attachments ++ concat cs.
Proof.
  induction ps as [|p ps IH]; intros attachments atts; simpl.
  - intros [= <-]. exists []. split; [constructor|]. simpl. rewrite app_nil_r. reflexivity.
  - destruct (attachment_of p) as [c|e] eqn:Hp; simpl; [|discriminate].
    intros Hrun. apply IH in Hrun as (cs & Hall & ->).
    exists (c :: cs). split; [constructor; assumption|].
    simpl. rewrite app_assoc. reflexivity.
Qed.

(** It raises when some part cannot be read. *)
Lemma collect_attachments_raises (ps : list Message) :
  forall attachments,
    (exists e, collect_attachments ps attachments = Raise e) <->
    exists part e, part ∈ ps /\ attachment_of part = Raise e.
Proof.
  induction ps as [|p ps IH]; intros attachments; simpl.
  - split; [intros [e ?]; discriminate|intros (part & e & Hin & _); inversion Hin].
  - destruct (attachment_of p) as [c|e0] eqn:Hp; simpl.
    + rewrite IH. split.
      * intros (part & e & Hin & He). exists part, e. split; [right; exact Hin|exact He].
      * intros (part & e & Hin & He). apply elem_of_cons in Hin as [->|Hin].
        -- congruence.
        -- eauto.
    + split; [|eauto]. intros _. exists p, e0. split; [left|exact Hp].
Qed.

Lemma contributions_elem (ps : list Message) (cs : list (list attachment))
    (a : attachment) :
  Forall2 (fun p c => attachment_of p = Ok c) ps cs ->
  a ∈ concat cs <->
  exists part c, part ∈ ps /\ attachment_of part = Ok c /\ a ∈ c.
Proof.
  induction 1 as [|p c ps cs Hp _ IH]; simpl.
  - split; [intros Hin; inversion Hin|intros (part & c & Hin & _); inversion Hin].
  - rewrite elem_of_app, IH. split.
    + intros [Ha|(part & c' & Hin & Hof & Ha)].
      * exists p, c. split; [left|auto].
      * exists part, c'. split; [right; exact Hin|auto].
    + intros (part & c' & Hin & Hof & Ha). apply elem_of_cons in Hin as [->|Hin].
      * left. congruence.
      * right. eauto.
Qed.

Lemma _extract_attachments_elem (msg : Message) (atts : list attachment)
    (a : attachment) :
  _extract_attachments msg = Ok atts ->
  a ∈ atts <->
  exists part c, part ∈ walk msg /\ attachment_of part = Ok c /\ a ∈ c.
Proof.
  unfold _extract_attachments. intros Hrun.
  apply collect_attachments_ok in Hrun as (cs & Hall & ->). simpl.
  apply contributions_elem. exact Hall.
Qed.


End AttachmentFacts.

Section ParseFacts.
Context {lib : Lib}.


Lemma parse_message_ok (msg : Message) d :
  parse_message msg = Ok d ->
  ed_from d = _decode_header (get msg "From") /\
  ed_from d <> "" /\
  ed_to d = _extract_recipients msg "To" /\
  ed_cc d = _extract_recipients msg "Cc" /\
  ed_bcc d = _extract_recipients msg "Bcc" /\
  _extract_attachments msg = Ok (ed_attachments d) /\
  (1 <= length (ed_to d) + length (ed_cc d) + length (ed_bcc d))%nat.
Proof.
  unfold parse_message.
  destruct (String.eqb_spec (_decode_header (get msg "From")) "") as [Hfrom|Hfrom];
    [discriminate|].
  destruct (_extract_plain_text_body msg) as [text|e1]; simpl;
    [|destruct (_extract_recipients msg "To"), (_extract_recipients msg "Cc"),
        (_extract_recipients msg "Bcc"); discriminate].
  destruct (_extract_html_body msg) as [html|e2]; simpl;
    [|destruct (_extract_recipients msg "To"), (_extract_recipients msg "Cc"),
        (_extract_recipients msg "Bcc"); discriminate].
  destruct (_extract_attachments msg) as [atts|e3]; simpl;
    [|destruct (_extract_recipients msg "To"), (_extract_recipients msg "Cc"),
        (_extract_recipients msg "Bcc"); discriminate].
  destruct (_extract_recipients msg "To") as [|t ts];
    destruct (_extract_recipients msg "Cc") as [|c cs];
    destruct (_extract_recipients msg "Bcc") as [|b bs];
    try discriminate; intros [= <-]; simpl; conjs; auto; lia.
Qed.

(** Whatever goes wrong is reported as the one format error. *)
Lemma parse_email_message_raises (raw_content : list byte) e :
  parse_email_message raw_content = Raise e ->
  exists m, e = ValueError ("Invalid email format: " +:+ m).
Proof.
  unfold parse_email_message.
  destruct (message_from_bytes raw_content) as [msg|e0].
  - destruct (parse_message msg); [discriminate|]. intros [= <-]. eauto.
  - intros [= <-]. eauto.
Qed.

End ParseFacts.


Section ParserExamples.
#[local] Existing Instance Sample.lib.

Example parse_three_recipients :
  parse_email_message (String.list_byte_of_string Sample.raw_three)
  = Ok Sample.three_recipients.
Proof. reflexivity. Qed.

Example parse_no_recipient :
  parse_email_message (String.list_byte_of_string Sample.raw_no_rcpt)
  = Raise (ValueError "Invalid email format: At least one recipient required (To, Cc, or Bcc)").
Proof. reflexivity. Qed.

Example parse_undefined_charset :
  parse_email_message (String.list_byte_of_string Sample.raw_undefined_charset)
  = Raise (ValueError
             "Invalid email format: decoding with 'undefined' codec failed (UnicodeError: undefined encoding)").
Proof. reflexivity. Qed.



End ParserExamples.

(** C9, as the code has it.  When the attachments of a message can be
    extracted, every leaf part that is classified as an attachment, has a
    non-empty filename [F] and a non-empty decoded payload [B] yields the
    record with the decoded [F], the type of the part, [base64(B)] and
    [|B|]; every record of the parser comes from such a part, so a part
    without a filename yields none; and the body of each submit request for
    the parsed message carries exactly these records when there are any. *)
Theorem attachments_are_base64_of_payload {lib : Lib} (msg : Message)
    (atts : list attachment) :
  _extract_attachments msg = Ok atts ->
  (forall part F B,
     part ∈ walk msg -> is_multipart part = false -> is_attachment part = Ok true ->
     get_filename part = Ok (Some F) -> F <> "" ->
     get_payload part = Some B -> B <> [] ->
     Attachment (_decode_header (Some (HStr F))) (get_content_type part)
       (b64encode B) (Z.of_nat (length B)) ∈ atts) /\
  (forall a, a ∈ atts ->
     exists part F B,
       part ∈ walk msg /\ is_multipart part = false /\ is_attachment part = Ok true /\
       get_filename part = Ok (Some F) /\ F <> "" /\
       get_payload part = Some B /\ B <> [] /\
       a = Attachment (_decode_header (Some (HStr F))) (get_content_type part)
             (b64encode B) (Z.of_nat (length B))) /\
  (forall d recipient,
     parse_message msg = Ok d ->
     p_attachments (build_payload d recipient)
     = match atts with
       | [] => None
       | a :: l => Some (a :: l)
       end).
Proof.
  intros Hatts. conjs.
  - intros part F B Hin Hmp Hatt Hname HF Hpay HB.
    apply (_extract_attachments_elem _ _ _ Hatts).
    destruct (attachment_of part) as [c|e] eqn:Hof.
    + exists part, c. conjs; auto.
      apply (attachment_of_elem _ _ _ Hof). exists F, B. conjs; auto.
    + exfalso. assert (Hraise : exists e, _extract_attachments msg = Raise e).
      { apply collect_attachments_raises. eauto. }
      destruct Hraise as [e' He']. congruence.
  - intros a Ha. apply (_extract_attachments_elem _ _ _ Hatts) in Ha
      as (part & c & Hin & Hof & Ha).
    apply (attachment_of_elem _ _ _ Hof) in Ha as (F & B & Ha). exists part, F, B.
    destruct Ha as (? & ? & ? & ? & ? & ? & ?). conjs; auto.
  - intros d recipient Hd. apply parse_message_ok in Hd as (_ & _ & _ & _ & _ & Hatt & _).
    unfold build_payload. simpl.
    assert (ed_attachments d = atts) as -> by congruence. reflexivity.
Qed.

Section AttachmentExamples.
#[local] Existing Instance Sample.lib.

Example b64encode_hello :
  b64encode (String.list_byte_of_string "hello") = "aGVsbG8=".
Proof. reflexivity. Qed.

Example b64encode_man : b64encode (String.list_byte_of_string "Man") = "TWFu".
Proof. reflexivity. Qed.

Example b64encode_pair : b64encode (String.list_byte_of_string "Ma") = "TWE=".
Proof. reflexivity. Qed.

Example extract_sample_attachments :
  _extract_attachments Sample.msg_attachments
  = Ok [Attachment "hello.bin" "application/octet-stream" "aGVsbG8=" 5].
Proof. reflexivity. Qed.

Lemma attachments_are_base64_of_payload_witness :
  let atts := [Attachment "hello.bin" "application/octet-stream" "aGVsbG8=" 5] in
  _extract_attachments Sample.msg_attachments = Ok atts /\
  (forall a, a ∈ atts ->
     exists part F B,
       part ∈ walk Sample.msg_attachments /\ is_multipart part = false /\
       is_attachment part = Ok true /\
       get_filename part = Ok (Some F) /\ F <> "" /\
       get_payload part = Some B /\ B <> [] /\
       a = Attachment (_decode_header (Some (HStr F))) (get_content_type part)
             (b64encode B) (Z.of_nat (length B))).
Proof.
  intros atts. split; [reflexivity|].
  exact (proj1 (proj2 (attachments_are_base64_of_payload
                         Sample.msg_attachments atts eq_refl))).
Defined.

(** The part [empty.bin] is a leaf, is classified as an attachment, has a
    filename and a decoded payload of no bytes; the parser records nothing
    for it, in particular no record with [base64(b"")] and size 0. *)
Lemma empty_attachment_is_dropped :
  Sample.empty_part ∈ walk Sample.msg_attachments /\
  is_multipart Sample.empty_part = false /\
  is_attachment Sample.empty_part = Ok true /\
  get_filename Sample.empty_part = Ok (Some "empty.bin") /\
  get_payload Sample.empty_part = Some [] /\
  exists atts,
    _extract_attachments Sample.msg_attachments = Ok atts /\
    ~ exists a, a ∈ atts /\
                att_filename a = "empty.bin" /\
                att_content a = b64encode [] /\ att_size a = 0.
Proof.
  conjs; try reflexivity.
  - simpl. set_solver.
  - eexists. split; [exact extract_sample_attachments|].
    intros (a & Ha & Hname & _).
    apply list_elem_of_singleton in Ha as ->. discriminate.
Qed.

End AttachmentExamples.

(** ** The DATA transaction *)

Section DataFacts.
Context {lib : Lib}.
Variable parse : list byte -> result email_data.
Variable submit : json_value -> email_data -> M submit_result.
Variables (self : SMTPHandler) (session : Session) (envelope : Envelope).

(** [handle_DATA] past its three guards. *)
Lemma handle_DATA_with_guarded sd a r rs io :
  _authenticated_sessions self !! peer_key session = Some sd ->
  authenticated sd = true ->
  truthy (mail_from envelope) = Some a ->
  rcpt_tos envelope = r :: rs ->
  handle_DATA_with parse submit self session envelope io =
  match parse (content envelope) with
  | Raise e =>
      if is_ValueError e then (Ok ("550 5.6.0 Message rejected: " +:+ str e), io)
      else (Raise e, io)
  | Ok email_data =>
      match truthy_value (api_key sd) with
      | None => (Ok "451 4.3.0 Internal error: missing API key", io)
      | Some key =>
          match submit key email_data io with
          | (Ok result, io') =>
              (Ok ("250 2.0.0 Message accepted for delivery: "
                   +:+ str_of_message_id (message_id result)), io')
          | (Raise (ValidationError m), io') =>
              (Ok ("550 5.6.0 Message rejected: " +:+ m), io')
          | (Raise (RateLimitError _), io') =>
              (Ok "451 4.7.1 Rate limit exceeded, try again later", io')
          | (Raise (ServerError _), io') =>
              (Ok "451 4.3.0 Temporary failure, try again later", io')
          | (Raise (NetworkError _), io') =>
              (Ok "451 4.4.0 Service temporarily unavailable", io')
          | (Raise e, io') =>
              if is_ValueError e
              then (Ok ("550 5.6.0 Message rejected: " +:+ str e), io')
              else (Raise e, io')
          end
      end
  end.
Proof.
  intros Hsd Hauth Hfrom Hrcpt. unfold handle_DATA_with.
  rewrite Hsd, Hauth, Hfrom, Hrcpt. simpl. unfold try_except.
  destruct (parse (content envelope)) as [d|e].
  - destruct (truthy_value (api_key sd)) as [key|]; [|reflexivity].
    unfold bind. destruct (submit key d io) as [[out|e] io']; [reflexivity|].
    destruct e; reflexivity.
  - destruct e; reflexivity.
Qed.

(** A DATA that fails a guard sends nothing. *)
Lemma handle_DATA_with_unguarded io :
  match _authenticated_sessions self !! peer_key session with
  | Some sd =>
      authenticated sd = false \/ truthy (mail_from envelope) = None
      \/ rcpt_tos envelope = []
  | None => True
  end ->
  exists reply, handle_DATA_with parse submit self session envelope io = (Ok reply, io).
Proof.
  unfold handle_DATA_with.
  destruct (_authenticated_sessions self !! peer_key session) as [sd|];
    [|intros _; eexists; reflexivity].
  destruct (authenticated sd); simpl.
  - intros [Hf|[Hf|Hf]]; [discriminate| |].
    + rewrite Hf. eexists; reflexivity.
    + destruct (truthy (mail_from envelope)); rewrite ?Hf; eexists; reflexivity.
  - intros _. eexists; reflexivity.
Qed.

End DataFacts.

(** C1.  In an authenticated session with a sender and a recipient, the
    reply to DATA is the image of what the parser and the submitter did: a
    format error of the parser is answered 550 5.6.0; with no key in the
    session, 451 4.3.0 Internal error; an outcome of the submitter (which
    has at least one success), 250 2.0.0 with the id or ids; a validation
    error, 550 5.6.0 with its detail; a rate-limit error, 451 4.7.1; a
    server error, 451 4.3.0; a network error, 451 4.4.0. *)
Theorem handle_DATA_reply_by_outcome {lib : Lib}
    (parse : list byte -> result email_data)
    (submit : json_value -> email_data -> M submit_result)
    self session envelope sd io :
  _authenticated_sessions self !! peer_key session = Some sd ->
  authenticated sd = true ->
  truthy (mail_from envelope) <> None ->
  rcpt_tos envelope <> [] ->
  data_reply_table parse submit sd envelope io
    (handle_DATA_with parse submit self session envelope io).
Proof.
  intros Hsd Hauth Hfrom Hrcpt. unfold data_reply_table.
  destruct (truthy (mail_from envelope)) as [a|] eqn:Ea; [|congruence].
  destruct (rcpt_tos envelope) as [|r rs] eqn:Er; [congruence|].
  rewrite (handle_DATA_with_guarded parse submit self session envelope
             sd a r rs io Hsd Hauth Ea Er).
  split.
  - intros m ->. reflexivity.
  - intros d ->. split.
    + intros ->. reflexivity.
    + intros key res io' -> ->. destruct res as [out|[]]; auto.
Qed.

Section DataExamples.
#[local] Existing Instance Sample.lib.

Lemma handle_DATA_reply_by_outcome_witness :
let self := Sample.authenticated_handler in
let envelope := Sample.envelope_of ["r@x.com"] Sample.raw_one in
let sd := SessionData "u@x.com" (Some (JString "k")) true in
_authenticated_sessions self !! peer_key Sample.client = Some sd /\
authenticated sd = true /\
truthy (mail_from envelope) <> None /\
rcpt_tos envelope <> [] /\
data_reply_table parse_email_message (submit_email Sample.happy) sd envelope io0
  (handle_DATA_with parse_email_message (submit_email Sample.happy)
     self Sample.client envelope io0).
Proof.
intros self envelope sd.
assert (H1 : _authenticated_sessions self !! peer_key Sample.client = Some sd)
  by reflexivity.
assert (H2 : authenticated sd = true) by reflexivity.
assert (H3 : truthy (mail_from envelope) <> None) by discriminate.
assert (H4 : rcpt_tos envelope <> []) by discriminate.
repeat (split; [assumption|]).
exact (handle_DATA_reply_by_outcome parse_email_message (submit_email Sample.happy)
         self Sample.client envelope sd io0 H1 H2 H3 H4).
Defined.

(** Spec scenario 1, end to end. *)
Example handle_DATA_happy_path :
fst (handle_DATA Sample.happy Sample.authenticated_handler Sample.client
       (Sample.envelope_of ["r@x.com"] Sample.raw_one) io0)
= Ok "250 2.0.0 Message accepted for delivery: m-1".
Proof. reflexivity. Qed.

(** Spec scenario 2: two of three accepted. *)
Example handle_DATA_one_rejected :
fst (handle_DATA Sample.one_rejected Sample.authenticated_handler Sample.client
       (Sample.envelope_of ["a@x.com"; "b@x.com"; "c@x.com"] Sample.raw_three) io0)
= Ok "250 2.0.0 Message accepted for delivery: ['m-a', 'm-c']".
Proof. reflexivity. Qed.

(** A message without recipient headers is refused by the parser. *)
Example handle_DATA_format_error :
fst (handle_DATA Sample.happy Sample.authenticated_handler Sample.client
       (Sample.envelope_of ["r@x.com"] Sample.raw_no_rcpt) io0)
= Ok "550 5.6.0 Message rejected: Invalid email format: At least one recipient required (To, Cc, or Bcc)".
Proof. reflexivity. Qed.

End DataExamples.

(** What a DATA sends upstream is what one submission sends, if anything. *)
Lemma handle_DATA_submits {lib : Lib} up self session envelope io reply io' :
  handle_DATA up self session envelope io = (reply, io') ->
  io' = io \/
  exists key email_data res,
    parse_email_message (content envelope) = Ok email_data /\
    submit_email up key email_data io = (res, io') /\
    reply = match res with
            | Ok out => Ok ("250 2.0.0 Message accepted for delivery: "
                            +:+ str_of_message_id (message_id out))
            | Raise (ValidationError m) => Ok ("550 5.6.0 Message rejected: " +:+ m)
            | Raise (RateLimitError _) =>
                Ok "451 4.7.1 Rate limit exceeded, try again later"
            | Raise e =>
                if is_ValueError e then Ok ("550 5.6.0 Message rejected: " +:+ str e)
                else Raise e
            end.
Proof.
  unfold handle_DATA. intros Hrun.
  destruct (_authenticated_sessions self !! peer_key session) as [sd|] eqn:Hsd.
  2:{ destruct (handle_DATA_with_unguarded parse_email_message (submit_email up)
                  self session envelope io) as [x Hx]; [rewrite Hsd; exact I|].
      rewrite Hx in Hrun. injection Hrun as _ <-. auto. }
  destruct (authenticated sd) eqn:Hauth.
  2:{ destruct (handle_DATA_with_unguarded parse_email_message (submit_email up)
                  self session envelope io) as [x Hx]; [rewrite Hsd; auto|].
      rewrite Hx in Hrun. injection Hrun as _ <-. auto. }
  destruct (truthy (mail_from envelope)) as [a|] eqn:Hfrom.
  2:{ destruct (handle_DATA_with_unguarded parse_email_message (submit_email up)
                  self session envelope io) as [x Hx]; [rewrite Hsd; auto|].
      rewrite Hx in Hrun. injection Hrun as _ <-. auto. }
  destruct (rcpt_tos envelope) as [|r rs] eqn:Hrcpt.
  { destruct (handle_DATA_with_unguarded parse_email_message (submit_email up)
                self session envelope io) as [x Hx]; [rewrite Hsd; auto|].
    rewrite Hx in Hrun. injection Hrun as _ <-. auto. }
  rewrite (handle_DATA_with_guarded _ _ _ _ _ sd a r rs io Hsd Hauth Hfrom Hrcpt) in Hrun.
  destruct (parse_email_message (content envelope)) as [d|e] eqn:Hparse.
  2:{ destruct (is_ValueError e); injection Hrun as _ <-; auto. }
  destruct (truthy_value (api_key sd)) as [key|]; [|injection Hrun as _ <-; auto].
  destruct (submit_email up key d io) as [res s1] eqn:Hsub.
  right. exists key, d, res. split; [reflexivity|].
  pose proof (submit_email_rate_limit _ _ _ _ _ _ Hsub) as [Hraise _].
  destruct res as [out|e].
  - injection Hrun as <- <-. auto.
  - destruct (Hraise e eq_refl) as [->|[Hbody|[m ->]]];
      [| destruct e; try contradiction |]; injection Hrun as <- <-; auto.
Qed.

(** DATA replies, whatever the parser and the submitter do, but for one
    case: a response whose body is JSON without being an object makes
    [data.get] raise [AttributeError], which no clause catches. *)
Lemma handle_DATA_replies_or_attribute_error {lib : Lib} up self session envelope io :
  (exists reply, fst (handle_DATA up self session envelope io) = Ok reply) \/
  (exists m, fst (handle_DATA up self session envelope io) = Raise (AttributeError m)).
Proof.
  destruct (handle_DATA up self session envelope io) as [res io'] eqn:Hrun. simpl.
  unfold handle_DATA, handle_DATA_with in Hrun.
  destruct (_authenticated_sessions self !! peer_key session) as [sd|];
    [|injection Hrun as <- _; eauto].
  destruct (negb (authenticated sd)); [injection Hrun as <- _; eauto|].
  destruct (truthy (mail_from envelope)); [|injection Hrun as <- _; eauto].
  destruct (rcpt_tos envelope); [injection Hrun as <- _; eauto|].
  unfold try_except in Hrun.
  pose proof (parse_email_message_raises (content envelope)) as Hfmt.
  destruct (parse_email_message (content envelope)) as [d|e].
  - destruct (truthy_value (api_key sd)) as [key|]; [|injection Hrun as <- _; eauto].
    unfold bind in Hrun.
    destruct (submit_email up key d io) as [[out|e] s1] eqn:Hsub.
    + injection Hrun as <- _. eauto.
    + destruct (submit_email_rate_limit _ _ _ _ _ _ Hsub) as [Hraise _].
      destruct (Hraise e eq_refl) as [->|[Hbody|[m ->]]];
        [| destruct e; try contradiction |]; injection Hrun as <- _; eauto.
  - destruct (Hfmt e eq_refl) as [m ->]. injection Hrun as <- _. eauto.
Qed.

(** C4.  As soon as one of the requests a DATA sends for its recipients is
    answered 429, the submitter raises the rate-limit error, that request
    is the last one of the transaction, and the reply to DATA is 451 4.7.1
    Rate limit exceeded. *)
Theorem rate_limit_short_circuits {lib : Lib} up self session envelope io reply io' k :
  handle_DATA up self session envelope io = (reply, io') ->
  (length (email_requests io) <= k < length (email_requests io'))%nat ->
  answered_429 up (email_requests io') k ->
  (exists key email_data,
     parse_email_message (content envelope) = Ok email_data /\
     submit_email up key email_data io = (Raise rate_limited, io')) /\
  length (email_requests io') = S k /\
  reply = Ok "451 4.7.1 Rate limit exceeded, try again later".
Proof.
  intros Hrun Hk Hans.
  apply handle_DATA_submits in Hrun as [->|(key & d & res & Hd & Hsub & ->)]; [lia|].
  destruct (submit_email_rate_limit _ _ _ _ _ _ Hsub) as [_ H429].
  destruct (H429 k Hk Hans) as [-> Hlen].
  split; [eauto|]. split; [exact Hlen|reflexivity].
Qed.

Section RateLimitExample.
#[local] Existing Instance Sample.lib.

(** Spec scenario 5: 200 for the first recipient, 429 for the second; the
    third is never tried. *)
Lemma rate_limit_short_circuits_witness :
  let envelope := Sample.envelope_of ["a@x.com"; "b@x.com"; "c@x.com"] Sample.raw_three in
  let run := handle_DATA Sample.rate_limit_mid Sample.authenticated_handler
               Sample.client envelope io0 in
  (length (email_requests io0) <= 1 < length (email_requests (snd run)))%nat /\
  answered_429 Sample.rate_limit_mid (email_requests (snd run)) 1 /\
  (exists key email_data,
     parse_email_message (content envelope) = Ok email_data /\
     submit_email Sample.rate_limit_mid key email_data io0
     = (Raise rate_limited, snd run)) /\
  length (email_requests (snd run)) = 2%nat /\
  fst run = Ok "451 4.7.1 Rate limit exceeded, try again later".
Proof.
  intros envelope run.
  assert (Hk : (length (email_requests io0) <= 1 < length (email_requests (snd run)))%nat)
    by (vm_compute; lia).
  assert (Hans : answered_429 Sample.rate_limit_mid (email_requests (snd run)) 1)
    by (exists Sample.no_body; reflexivity).
  split; [exact Hk|]. split; [exact Hans|].
  exact (rate_limit_short_circuits Sample.rate_limit_mid Sample.authenticated_handler
           Sample.client envelope io0 (fst run) (snd run) 1 eq_refl Hk Hans).
Defined.

End RateLimitExample.

(** ** AUTH and the session table *)

Section AuthFacts.
Context {lib : Lib}.
Variable up : upstream.

Lemma truthy_nonempty (v : option string) (s : string) :
  truthy v = Some s -> s <> "".
Proof.
  destruct v as [x|]; simpl; [|discriminate].
  destruct (decide (x = "")); [discriminate|]. intros [= <-]. assumption.
Qed.

Lemma truthy_value_true (v : option json_value) (x : json_value) :
  truthy_value v = Some x -> py_bool x = true.
Proof.
  destruct v as [y|]; simpl; [|discriminate].
  destruct (py_bool y) eqn:Hy; [|discriminate]. intros [= <-]. exact Hy.
Qed.

(** A key the validator returns is true as a condition (a string: not
    empty), whatever the retry count. *)
Lemma attempts_key_nonempty username password mr todo :
  forall a last s key s',
    attempts up username password mr todo a last s = (Ok key, s') ->
    py_bool key = true.
Proof.
  induction todo as [|todo IH]; intros a last s key s'.
  - simpl. destruct last; discriminate.
  - rewrite attempts_step. cbv zeta.
    destruct (auth_api up (auth_requests s ++ [(username, password)]))
      as [st body|m|m]; simpl.
    + destruct (st =? 200).
      { destruct (fields_of body) as [fields|e0]; [|discriminate].
        destruct (truthy_value (fields !! "api_key")) as [k|] eqn:Hk; [|discriminate].
        intros [= <- _]. eapply truthy_value_true, Hk. }
      destruct ((st =? 401) || (st =? 403)); [discriminate|].
      destruct (500 <=? st); [|discriminate].
      destruct (a <? mr); [|discriminate].
      destruct (retry_delays !! Z.to_nat a); [apply IH|discriminate].
    + destruct (a <? mr); [|discriminate].
      destruct (retry_delays !! Z.to_nat a); [apply IH|discriminate].
    + destruct (a <? mr); [|discriminate].
      destruct (retry_delays !! Z.to_nat a); [apply IH|discriminate].
Qed.

Lemma validate_credentials_key_nonempty s username password io key io' :
  validate_credentials up s username password io = (Ok key, io') ->
  py_bool key = true.
Proof. apply attempts_key_nonempty. Qed.

(** [AUTH PLAIN <payload>] after STARTTLS, branch by branch. *)
Lemma handle_AUTH_plain self session arg0 auth_string rest tls io :
  ssl session = Some tls ->
  upper arg0 = "PLAIN" ->
  handle_AUTH up self session (arg0 :: auth_string :: rest) io =
  match parse_auth_plain auth_string with
  | Raise e =>
      if is_ValueError e
      then (Ok ("535 5.7.8 Authentication credentials invalid", self), io)
      else (Raise e, io)
  | Ok (username, password) =>
      match validate_credentials up (settings self) username password io with
      | (Ok key, io') =>
          (Ok ("235 2.7.0 Authentication successful",
               set_sessions self
                 (<[peer_key session := SessionData username (Some key) true]>
                    (_authenticated_sessions self))), io')
      | (Raise (AuthenticationError _), io') =>
          (Ok ("535 5.7.8 Authentication failed",
               set_sessions self
                 (delete (peer_key session) (_authenticated_sessions self))), io')
      | (Raise (ServerError _), io') | (Raise (NetworkError _), io') =>
          (Ok ("451 4.7.0 Temporary authentication failure, please try again",
               self), io')
      | (Raise e, io') =>
          if is_ValueError e
          then (Ok ("535 5.7.8 Authentication credentials invalid", self), io')
          else (Raise e, io')
      end
  end.
Proof.
  intros Hssl Hmech. unfold handle_AUTH. rewrite Hssl, Hmech. simpl.
  unfold try_except.
  destruct (parse_auth_plain auth_string) as [[username password]|e].
  - unfold bind.
    destruct (validate_credentials up (settings self) username password io)
      as [[key|e] io']; [reflexivity|].
    destruct e; reflexivity.
  - destruct e; reflexivity.
Qed.

(** Whatever the command, AUTH either stores an entry with a key that is
    true as a condition under the peer's address (235), removes that entry
    (535 Authentication failed), or leaves the table as it was. *)
Lemma handle_AUTH_table self session args io reply self' io' :
  handle_AUTH up self session args io = (Ok (reply, self'), io') ->
  settings self' = settings self /\
  ((reply = "235 2.7.0 Authentication successful" /\
    exists username key, py_bool key = true /\
      _authenticated_sessions self'
      = <[peer_key session := SessionData username (Some key) true]>
          (_authenticated_sessions self)) \/
   (reply = "535 5.7.8 Authentication failed" /\
    _authenticated_sessions self'
    = delete (peer_key session) (_authenticated_sessions self)) \/
   (reply <> "235 2.7.0 Authentication successful" /\
    reply <> "535 5.7.8 Authentication failed" /\ self' = self)).
Proof.
  destruct (ssl session) as [tls|] eqn:Hssl.
  2:{ unfold handle_AUTH. rewrite Hssl. intros [= <- <- <-].
      split; [reflexivity|]. right. right. conjs; [discriminate..|reflexivity]. }
  destruct args as [|arg0 rest].
  { unfold handle_AUTH. rewrite Hssl. intros [= <- <- <-].
    split; [reflexivity|]. right. right. conjs; [discriminate..|reflexivity]. }
  destruct (String.eqb_spec (upper arg0) "PLAIN") as [Hmech|Hmech].
  - destruct rest as [|auth_string rest].
    { unfold handle_AUTH. rewrite Hssl, Hmech. intros [= <- <- <-].
      split; [reflexivity|]. right. right. conjs; [discriminate..|reflexivity]. }
    rewrite (handle_AUTH_plain _ _ _ _ _ tls io Hssl Hmech).
    destruct (parse_auth_plain auth_string) as [[username password]|e].
    + destruct (validate_credentials up (settings self) username password io)
        as [[key|e] s1] eqn:Hval.
      * intros [= <- <- <-]. split; [reflexivity|]. left. split; [reflexivity|].
        exists username, key. split; [|reflexivity].
        eapply validate_credentials_key_nonempty, Hval.
      * destruct e; intros [= <- <- <-]; (split; [reflexivity|]);
          first [ right; left; split; reflexivity
                | right; right; conjs; [discriminate..|reflexivity] ].
    + destruct e; intros [= <- <- <-]; (split; [reflexivity|]);
        right; right; (conjs; [discriminate..|reflexivity]).
  - unfold handle_AUTH. rewrite Hssl.
    apply String.eqb_neq in Hmech. rewrite Hmech.
    destruct (String.eqb (upper arg0) "LOGIN"); intros [= <- <- <-];
      (split; [reflexivity|]); right; right; (conjs; [discriminate..|reflexivity]).
Qed.

End AuthFacts.

Section AuthOutcomes.
Context {lib : Lib}.
Variable up : upstream.
Variables (self : SMTPHandler) (session : Session).

(** What holds of C7: a successful AUTH leaves a key that is true as a
    condition (a string: not empty) in the session's entry, and an AUTH the validator rejects leaves no entry. *)
Lemma handle_AUTH_success_sets_key args io self' io' :
  handle_AUTH up self session args io
  = (Ok ("235 2.7.0 Authentication successful", self'), io') ->
  exists username key,
    py_bool key = true /\
    _authenticated_sessions self' !! peer_key session
    = Some (SessionData username (Some key) true).
Proof.
  intros Hrun. apply handle_AUTH_table in Hrun as [_ Hcases].
  destruct Hcases as [(_ & u & key & Hkey & ->)|[[Habs _]|(Habs & _)]];
    [|discriminate|congruence].
  exists u, key. split; [exact Hkey|]. apply lookup_insert_eq.
Qed.

Lemma handle_AUTH_rejection_clears_key args io self' io' :
  handle_AUTH up self session args io
  = (Ok ("535 5.7.8 Authentication failed", self'), io') ->
  _authenticated_sessions self' !! peer_key session = None.
Proof.
  intros Hrun. apply handle_AUTH_table in Hrun as [_ Hcases].
  destruct Hcases as [[Habs _]|[[_ ->]|(_ & Habs & _)]];
    [discriminate| |congruence].
  apply lookup_delete_eq.
Qed.

(** The two failures that do not touch the table: a payload that does not
    parse, and a temporary failure of the validator. *)
Lemma handle_AUTH_bad_payload_keeps_table arg0 auth_string rest tls m io :
  ssl session = Some tls ->
  upper arg0 = "PLAIN" ->
  parse_auth_plain auth_string = Raise (ValueError m) ->
  handle_AUTH up self session (arg0 :: auth_string :: rest) io
  = (Ok ("535 5.7.8 Authentication credentials invalid", self), io).
Proof.
  intros Hssl Hmech Hparse.
  rewrite (handle_AUTH_plain up self session arg0 auth_string rest tls io Hssl Hmech).
  rewrite Hparse. reflexivity.
Qed.

Lemma handle_AUTH_temporary_failure_keeps_table
    arg0 auth_string rest tls username password e io io' :
  ssl session = Some tls ->
  upper arg0 = "PLAIN" ->
  parse_auth_plain auth_string = Ok (username, password) ->
  validate_credentials up (settings self) username password io = (Raise e, io') ->
  (exists m, e = ServerError m \/ e = NetworkError m) ->
  handle_AUTH up self session (arg0 :: auth_string :: rest) io
  = (Ok ("451 4.7.0 Temporary authentication failure, please try again", self), io').
Proof.
  intros Hssl Hmech Hparse Hval (m & [-> | ->]);
    rewrite (handle_AUTH_plain up self session arg0 auth_string rest tls io Hssl Hmech),
      Hparse, Hval; reflexivity.
Qed.

End AuthOutcomes.

Section AuthExamples.
#[local] Existing Instance Sample.lib.

(** C7, on the code.  A session authenticates and receives the key [k];
    its next [AUTH PLAIN] carries a payload that is not valid base64 and is
    answered 535; the entry of the session still holds [k], and MAIL FROM
    is still accepted.  The same happens after a 451. *)
Theorem failed_reauth_keeps_prior_key :
  let h0 := init default_settings in
  exists h1 io1,
    handle_AUTH Sample.happy h0 Sample.client ["PLAIN"; Sample.auth_token] io0
    = (Ok ("235 2.7.0 Authentication successful", h1), io1) /\
    handle_AUTH Sample.happy h1 Sample.client ["PLAIN"; "abc"] io1
    = (Ok ("535 5.7.8 Authentication credentials invalid", h1), io1) /\
    _authenticated_sessions h1 !! peer_key Sample.client
    = Some (SessionData "u@x.com" (Some (JString "k")) true) /\
    fst (handle_MAIL h1 Sample.client Sample.fresh_envelope "s@x.com" []) = "250 OK" /\
    fst (handle_AUTH Sample.failing_auth h1 Sample.client
           ["PLAIN"; Sample.auth_token] io1)
    = Ok ("451 4.7.0 Temporary authentication failure, please try again", h1).
Proof.
  exists Sample.authenticated_handler, (IO [("u@x.com", "pw")] [] []).
  repeat split; vm_compute; reflexivity.
Qed.

End AuthExamples.

(** ** Sessions and the shared table *)

Section Isolation.
Context {lib : Lib}.
Variable up : upstream.

(** The guards of MAIL, RCPT and DATA read one entry of the table: the one
    under the peer's address. *)
Lemma handle_DATA_reads_own_entry self self' session envelope io :
  _authenticated_sessions self' !! peer_key session
  = _authenticated_sessions self !! peer_key session ->
  handle_DATA up self' session envelope io = handle_DATA up self session envelope io.
Proof.
  intros Heq. unfold handle_DATA, handle_DATA_with. rewrite Heq. reflexivity.
Qed.

Lemma not_authenticated_reads_own_entry self self' session :
  _authenticated_sessions self' !! peer_key session
  = _authenticated_sessions self !! peer_key session ->
  not_authenticated self' session = not_authenticated self session.
Proof. intros Heq. unfold not_authenticated. rewrite Heq. reflexivity. Qed.

End Isolation.

(** C8, as the code has it.  The table of authenticated sessions is keyed
    by the address of the peer.  An AUTH in one session, whether it succeeds
    or fails, leaves untouched the entry, the authenticated flag and the key
    seen by any session whose peer address is different, and so the replies
    of that session to MAIL FROM and DATA; a DATA writes nothing to the
    table. *)
Theorem sessions_at_distinct_addresses_are_isolated {lib : Lib} up self
    (one other : Session) args io reply self' io' :
  peer_key one <> peer_key other ->
  handle_AUTH up self one args io = (Ok (reply, self'), io') ->
  _authenticated_sessions self' !! peer_key other
  = _authenticated_sessions self !! peer_key other /\
  not_authenticated self' other = not_authenticated self other /\
  (forall envelope address options,
     handle_MAIL self' other envelope address options
     = handle_MAIL self other envelope address options) /\
  (forall envelope io2,
     handle_DATA up self' other envelope io2 = handle_DATA up self other envelope io2).
Proof.
  intros Hne Hrun.
  assert (Hentry : _authenticated_sessions self' !! peer_key other
                   = _authenticated_sessions self !! peer_key other).
  { apply handle_AUTH_table in Hrun as [_ Hcases].
    destruct Hcases as [(_ & u & key & _ & ->)|[[_ ->]|(_ & _ & ->)]].
    - apply lookup_insert_ne. exact Hne.
    - apply lookup_delete_ne. exact Hne.
    - reflexivity. }
  split; [exact Hentry|]. split; [|split].
  - apply not_authenticated_reads_own_entry. exact Hentry.
  - intros envelope address options. unfold handle_MAIL.
    rewrite (not_authenticated_reads_own_entry self self' other Hentry). reflexivity.
  - intros envelope io2. apply handle_DATA_reads_own_entry. exact Hentry.
Qed.

Section IsolationExamples.
#[local] Existing Instance Sample.lib.

Lemma sessions_at_distinct_addresses_are_isolated_witness :
  let h0 := init default_settings in
  let h1 := Sample.authenticated_handler in
  let io1 := IO [("u@x.com", "pw")] [] [] in
  peer_key Sample.client <> peer_key Sample.stranger /\
  handle_AUTH Sample.happy h0 Sample.client ["PLAIN"; Sample.auth_token] io0
  = (Ok ("235 2.7.0 Authentication successful", h1), io1) /\
  _authenticated_sessions h1 !! peer_key Sample.stranger
  = _authenticated_sessions h0 !! peer_key Sample.stranger /\
  not_authenticated h1 Sample.stranger = not_authenticated h0 Sample.stranger /\
  (forall envelope address options,
     handle_MAIL h1 Sample.stranger envelope address options
     = handle_MAIL h0 Sample.stranger envelope address options) /\
  (forall envelope io2,
     handle_DATA Sample.happy h1 Sample.stranger envelope io2
     = handle_DATA Sample.happy h0 Sample.stranger envelope io2).
Proof.
  intros h0 h1 io1.
  assert (Hne : peer_key Sample.client <> peer_key Sample.stranger) by discriminate.
  assert (Hrun : handle_AUTH Sample.happy h0 Sample.client
                   ["PLAIN"; Sample.auth_token] io0
                 = (Ok ("235 2.7.0 Authentication successful", h1), io1))
    by (vm_compute; reflexivity).
  split; [exact Hne|]. split; [exact Hrun|].
  exact (sessions_at_distinct_addresses_are_isolated Sample.happy h0 Sample.client
           Sample.stranger ["PLAIN"; Sample.auth_token] io0 _ h1 io1 Hne Hrun).
Defined.

(** Two connections from one address are two sessions with one entry: the
    second, which never sent AUTH, is refused before the first
    authenticates and is authenticated, with the first one's key, after. *)
Lemma sessions_at_one_address_share_the_key :
  let h0 := init default_settings in
  Sample.client <> Sample.neighbour /\
  not_authenticated h0 Sample.neighbour = true /\
  fst (handle_MAIL h0 Sample.neighbour Sample.fresh_envelope "s@x.com" [])
  = "530 5.7.0 Authentication required" /\
  exists h1 io1,
    handle_AUTH Sample.happy h0 Sample.client ["PLAIN"; Sample.auth_token] io0
    = (Ok ("235 2.7.0 Authentication successful", h1), io1) /\
    not_authenticated h1 Sample.neighbour = false /\
    api_key <$> (_authenticated_sessions h1 !! peer_key Sample.neighbour)
    = Some (Some (JString "k")) /\
    fst (handle_MAIL h1 Sample.neighbour Sample.fresh_envelope "s@x.com" []) = "250 OK".
Proof.
  intros h0. split; [discriminate|]. split; [reflexivity|]. split; [reflexivity|].
  exists Sample.authenticated_handler, (IO [("u@x.com", "pw")] [] []).
  repeat split; vm_compute; reflexivity.
Qed.

End IsolationExamples.

(** ** The size cutoff *)

Section SizeCutoff.
Context {lib : Lib}.
Variable DATA_SIZE_DEFAULT : Z.
Variable up : upstream.

(** [handle_DATA] reads no setting. *)
Lemma handle_DATA_ignores_settings self s session envelope io :
  handle_DATA up (set_settings self s) session envelope io
  = handle_DATA up self session envelope io.
Proof. reflexivity. Qed.

End SizeCutoff.

(** C6, as the code has it.  [create_smtp_server] passes no size limit to
    the controller and [handle_DATA] tests no size, so the cutoff on DATA is
    the engine's own default, whatever [message_size_limit] is configured:
    a message longer than that default is answered 552, any other message
    gets the reply of [handle_DATA], and replacing [message_size_limit] by
    any other value changes no reply. *)
Theorem data_cutoff_is_the_engine_default {lib : Lib} (DATA_SIZE_DEFAULT : Z)
    up settings self session envelope io :
  let c := with_handler (create_smtp_server settings) self in
  data_size_limit c = None /\
  (DATA_SIZE_DEFAULT <> 0 ->
   DATA_SIZE_DEFAULT < Z.of_nat (length (content envelope)) ->
   smtp_DATA DATA_SIZE_DEFAULT up c session envelope io
   = (Ok "552 Error: Too much mail data", io)) /\
  (Z.of_nat (length (content envelope)) <= DATA_SIZE_DEFAULT ->
   smtp_DATA DATA_SIZE_DEFAULT up c session envelope io
   = handle_DATA up self session envelope io) /\
  (forall n,
     let s' := with_message_size_limit settings n in
     smtp_DATA DATA_SIZE_DEFAULT up
       (with_handler (create_smtp_server s') (set_settings self s'))
       session envelope io
     = smtp_DATA DATA_SIZE_DEFAULT up c session envelope io).
Proof.
  intros c. split; [reflexivity|]. unfold smtp_DATA. simpl. split; [|split].
  - intros H0 Hlong. apply Z.eqb_neq in H0. apply Z.ltb_lt in Hlong.
    rewrite H0, Hlong. reflexivity.
  - intros Hshort. apply Z.ltb_ge in Hshort. rewrite Hshort, andb_false_r.
    reflexivity.
  - intros n. reflexivity.
Qed.

Section SizeExamples.
#[local] Existing Instance Sample.lib.

Lemma data_cutoff_is_the_engine_default_witness :
  let envelope := Sample.envelope_of ["r@x.com"] Sample.raw_one in
  let c := with_handler (create_smtp_server Sample.tight_settings)
             Sample.authenticated_handler in
  Z.of_nat (length (content envelope)) <= Sample.engine_default /\
  smtp_DATA Sample.engine_default Sample.happy c Sample.client envelope io0
  = handle_DATA Sample.happy Sample.authenticated_handler Sample.client envelope io0.
Proof.
  intros envelope c.
  assert (Hshort : Z.of_nat (length (content envelope)) <= Sample.engine_default)
    by (vm_compute; discriminate).
  split; [exact Hshort|].
  destruct (data_cutoff_is_the_engine_default Sample.engine_default Sample.happy
              Sample.tight_settings Sample.authenticated_handler Sample.client
              envelope io0) as (_ & _ & Hpass & _).
  exact (Hpass Hshort).
Defined.

(** With a limit of 47 bytes configured, the 48 bytes of [raw_one] are
    accepted: the reply is 250, not 552. *)
Lemma oversize_message_is_accepted :
  let envelope := Sample.envelope_of ["r@x.com"] Sample.raw_one in
  let c := with_handler (create_smtp_server Sample.tight_settings)
             (set_settings Sample.authenticated_handler Sample.tight_settings) in
  Z.of_nat (length (content envelope))
  = message_size_limit (settings (handler c)) + 1 /\
  fst (smtp_DATA Sample.engine_default Sample.happy c Sample.client envelope io0)
  = Ok "250 2.0.0 Message accepted for delivery: m-1" /\
  fst (handle_DATA Sample.happy (handler c) Sample.client envelope io0)
  = Ok "250 2.0.0 Message accepted for delivery: m-1" /\
  reply_code "250 2.0.0 Message accepted for delivery: m-1" <> "552".
Proof.
  intros envelope c. split; [reflexivity|]. split; [reflexivity|].
  split; [reflexivity|]. vm_compute. discriminate.
Qed.

End SizeExamples.

(** Closing a connection forgets its start time, not its entry in the
    table of authenticated sessions. *)
Lemma connection_lost_keeps_sessions (self : SMTPHandler) (session : Session) :
  _authenticated_sessions (connection_lost self session)
  = _authenticated_sessions self.
Proof. reflexivity. Qed.


(** * Further properties *)

(** ** The validator under any configuration *)

Section ValidatorAnyConfig.
Variable up : upstream.
Variables username password : string.

Lemma transient_classified r :
  transient r -> exists e, classify_attempt username r = Transient e.
Proof.
  intros [st body Hst|m|m]; simpl; eauto.
  replace (st =? 200) with false by (symmetry; apply Z.eqb_neq; lia).
  replace (st =? 401) with false by (symmetry; apply Z.eqb_neq; lia).
  replace (st =? 403) with false by (symmetry; apply Z.eqb_neq; lia).
  replace (500 <=? st) with true by (symmetry; apply Z.leb_le; lia).
  simpl. eauto.
Qed.

(** The run of the loop from iteration [a] on, whatever the retry count:
    the schedule has two entries, so the loop is over after the iteration
    of index 2 at the latest, by a result, by the last error, or by the
    [IndexError] of [retry_delays[2]]. *)
Lemma attempts_run_any mr :
  forall todo a last s r s',
    0 <= a <= 2 ->
    todo = Z.to_nat (mr + 1 - a) ->
    todo <> O ->
    attempts up username password mr todo a last s = (r, s') ->
    exists n : nat,
      (1 <= n <= todo)%nat /\
      Z.of_nat n + a <= 3 /\
      auth_requests s' = auth_requests s ++ replicate n (username, password) /\
      email_requests s' = email_requests s /\
      sleeps s' = sleeps s ++ take (n - 1) (drop (Z.to_nat a) retry_delays) /\
      (forall k, (k < n - 1)%nat ->
         transient (auth_api up (auth_requests s
                                 ++ replicate (S k) (username, password)))) /\
      match classify_attempt username (auth_api up (auth_requests s')) with
      | Finished res => r = res
      | Transient e =>
          (r = Raise e /\ n = todo) \/
          (r = Raise (IndexError "list index out of range") /\
           Z.of_nat n + a = 3 /\ (n < todo)%nat)
      end.
Proof.
  intros todo. induction todo as [|todo IH]; [congruence|].
  intros a last s r s' Ha Htodo _. rewrite attempts_step. cbv zeta.
  destruct (classify_attempt username
              (auth_api up (auth_requests s ++ [(username, password)])))
    as [res|e] eqn:Hc.
  - intros Hrun.
    assert (r = res /\ s' = IO (auth_requests s ++ [(username, password)])
                              (email_requests s) (sleeps s)) as [-> ->].
    { destruct res; inversion Hrun; auto. }
    exists 1%nat. simpl. rewrite Hc, app_nil_r.
    conjs; try lia; auto.
  - destruct (a <? mr) eqn:Hlt.
    + apply Z.ltb_lt in Hlt.
      destruct (decide (a = 2)) as [->|Hne].
      * (* the schedule is exhausted *)
        change (retry_delays !! Z.to_nat 2) with (@None Z). intros [= <- <-].
        exists 1%nat. simpl. rewrite Hc, app_nil_r.
        conjs; try lia; auto.
        right. conjs; auto; lia.
      * assert (Z.to_nat a = 0%nat \/ Z.to_nat a = 1%nat) as Hidx by lia.
        assert (exists d, retry_delays !! Z.to_nat a = Some d /\
                          drop (Z.to_nat a) retry_delays
                          = d :: drop (Z.to_nat (a + 1)) retry_delays)
          as (d & Hd & Hdrop).
        { replace (Z.to_nat (a + 1)) with (S (Z.to_nat a)) by lia.
          destruct Hidx as [-> | ->]; eexists; split; reflexivity. }
        rewrite Hd. intros Hrun.
        apply IH in Hrun; [|lia|lia|lia].
        destruct Hrun as (n & Hn & Hb & Hlog & Hmail & Hsl & Htr & Hout).
        simpl in Hlog, Hmail, Hsl, Htr.
        exists (S n). conjs; try lia.
        -- rewrite Hlog, <- app_assoc. reflexivity.
        -- exact Hmail.
        -- rewrite Hsl, Hdrop, <- app_assoc. simpl.
           replace (n - 0)%nat with (S (n - 1)) by lia. reflexivity.
        -- intros k Hk. destruct k as [|k].
           ++ simpl. apply (classify_transient _ _ _ Hc).
           ++ specialize (Htr k ltac:(lia)).
              rewrite <- app_assoc in Htr. exact Htr.
        -- destruct (classify_attempt username (auth_api up (auth_requests s')));
             [exact Hout|].
           destruct Hout as [[-> ->]|(-> & Hthree & Hless)];
             [left; split; [reflexivity|lia]|right; conjs; auto; lia].
    + apply Z.ltb_ge in Hlt. intros [= <- <-].
      exists 1%nat. simpl. rewrite Hc, app_nil_r.
      conjs; try lia; auto.
      left. split; [reflexivity|lia].
Qed.

End ValidatorAnyConfig.

(** The shape of a validation under any configuration. *)
Lemma validate_credentials_requests up s u p io r io' :
  validate_credentials up s u p io = (r, io') ->
  exists n : nat,
    (n <= 3)%nat /\
    Z.of_nat n <= Z.max 0 (api_max_retries s + 1) /\
    auth_requests io' = auth_requests io ++ replicate n (u, p) /\
    email_requests io' = email_requests io /\
    sleeps io' = sleeps io ++ take (n - 1) retry_delays /\
    (forall k, (k < n - 1)%nat -> transient (auth_answer up (auth_requests io) u p k)).
Proof.
  intros Hrun.
  destruct (Z_lt_le_dec (api_max_retries s) 0) as [Hneg|Hpos].
  - rewrite validate_credentials_no_attempt in Hrun by assumption.
    injection Hrun as <- <-. exists O. simpl. rewrite !app_nil_r.
    conjs; auto; try lia.
  - unfold validate_credentials in Hrun.
    apply attempts_run_any in Hrun; [|lia|f_equal; lia|lia].
    destruct Hrun as (n & Hn & Hb & Hlog & Hmail & Hsl & Htr & _).
    exists n. conjs; auto; lia.
Qed.

(** X1.  Whatever [api_max_retries] is, a validation sends at most three
    requests, and at most [max(0, api_max_retries + 1)]; each request
    carries the username and password it was called with; it sends
    nothing to the email service; it sleeps 0.5 s and then 1.0 s between
    requests; and every answer but the last one was transient: nothing is
    sent after an answer that is not. *)
Theorem validate_credentials_run_shape up s u p io r io' :
  validate_credentials up s u p io = (r, io') ->
  exists n : nat,
    (n <= 3)%nat /\
    Z.of_nat n <= Z.max 0 (api_max_retries s + 1) /\
    auth_requests io' = auth_requests io ++ replicate n (u, p) /\
    email_requests io' = email_requests io /\
    sleeps io' = sleeps io ++ take (n - 1) retry_delays /\
    (forall k, (k < n - 1)%nat -> transient (auth_answer up (auth_requests io) u p k)).
Proof. apply validate_credentials_requests. Qed.

Lemma validate_credentials_run_shape_witness :
  let s := with_api_max_retries default_settings 7 in
  let run := validate_credentials Sample.flaky_auth s "u@x.com" "pw" io0 in
  exists n : nat,
    (n <= 3)%nat /\
    Z.of_nat n <= Z.max 0 (api_max_retries s + 1) /\
    auth_requests (snd run) = auth_requests io0 ++ replicate n ("u@x.com", "pw") /\
    email_requests (snd run) = email_requests io0 /\
    sleeps (snd run) = sleeps io0 ++ take (n - 1) retry_delays /\
    (forall k, (k < n - 1)%nat ->
       transient (auth_answer Sample.flaky_auth (auth_requests io0) "u@x.com" "pw" k)).
Proof.
  intros s run.
  exact (validate_credentials_run_shape Sample.flaky_auth s "u@x.com" "pw" io0
           (fst run) (snd run) eq_refl).
Defined.

(** X2.  A key the validator returns is the [api_key] field of a JSON
    object answered with status 200, the answer to the last request it
    sent, and it is true as a condition: not the empty string (nor null,
    zero, false or an empty array or object). *)
Theorem validate_credentials_key_origin up s u p io key io' :
  validate_credentials up s u p io = (Ok key, io') ->
  exists fields,
    auth_api up (auth_requests io') = Response 200 (Object fields) /\
    fields !! "api_key" = Some key /\ py_bool key = true /\ key <> JString "".
Proof.
  intros Hrun.
  destruct (Z_lt_le_dec (api_max_retries s) 0) as [Hneg|Hpos].
  { rewrite validate_credentials_no_attempt in Hrun by assumption. discriminate. }
  unfold validate_credentials in Hrun.
  apply attempts_run_any in Hrun; [|lia|f_equal; lia|lia].
  destruct Hrun as (n & _ & _ & _ & _ & _ & _ & Hout).
  destruct (auth_api up (auth_requests io')) as [st body|m|m].
  - destruct (Z.eqb_spec st 200) as [->|E200].
    + rewrite classify_attempt_200 in Hout.
      destruct body as [[|] msg|type_name|fields]; try discriminate.
      exists fields.
      destruct (fields !! "api_key") as [k|] eqn:Hk; [|discriminate].
      destruct (py_bool k) eqn:Hb; [|discriminate]. injection Hout as ->.
      conjs; auto. intros ->. discriminate.
    + simpl in Hout. apply Z.eqb_neq in E200. rewrite E200 in Hout.
      destruct ((st =? 401) || (st =? 403)); [discriminate|].
      destruct (500 <=? st); [|discriminate].
      destruct Hout as [[? _]|[? _]]; discriminate.
  - simpl in Hout. destruct Hout as [[? _]|[? _]]; discriminate.
  - simpl in Hout. destruct Hout as [[? _]|[? _]]; discriminate.
Qed.

Lemma validate_credentials_key_origin_witness :
  let io1 := IO (replicate 3 ("u@x.com", "pw")) [] [500; 1000] in
  validate_credentials Sample.flaky_auth default_settings "u@x.com" "pw" io0
  = (Ok (JString "k"), io1) /\
  exists fields,
    auth_api Sample.flaky_auth (auth_requests io1) = Response 200 (Object fields) /\
    fields !! "api_key" = Some (JString "k") /\
    py_bool (JString "k") = true /\ JString "k" <> JString "".
Proof.
  intros io1. split; [reflexivity|].
  exact (validate_credentials_key_origin Sample.flaky_auth default_settings
           "u@x.com" "pw" io0 (JString "k") io1 eq_refl).
Defined.

(** Three transient answers in a row under a retry count of three or
    more. *)
Lemma validate_credentials_overrun up s u p io :
  3 <= api_max_retries s ->
  (forall k, (k < 3)%nat -> transient (auth_answer up (auth_requests io) u p k)) ->
  validate_credentials up s u p io
  = (Raise (IndexError "list index out of range"),
     IO (auth_requests io ++ replicate 3 (u, p)) (email_requests io)
        (sleeps io ++ [500; 1000])).
Proof.
  intros Hmr Htr. unfold validate_credentials.
  destruct (Z.to_nat (api_max_retries s + 1)) as [|[|[|todo]]] eqn:Htodo; try lia.
  destruct (transient_classified u _ (Htr 0%nat ltac:(lia))) as [e0 H0].
  destruct (transient_classified u _ (Htr 1%nat ltac:(lia))) as [e1 H1].
  destruct (transient_classified u _ (Htr 2%nat ltac:(lia))) as [e2 H2].
  unfold auth_answer in H0, H1, H2. simpl in H0, H1, H2.
  rewrite attempts_step. cbv zeta. rewrite H0.
  replace (0 <? api_max_retries s) with true by (symmetry; apply Z.ltb_lt; lia).
  change (retry_delays !! Z.to_nat 0) with (Some 500). cbv beta iota.
  rewrite attempts_step. cbv zeta. cbn [auth_requests email_requests sleeps].
  rewrite <- app_assoc. simpl app at 1. rewrite H1.
  replace (0 + 1 <? api_max_retries s) with true by (symmetry; apply Z.ltb_lt; lia).
  change (retry_delays !! Z.to_nat (0 + 1)) with (Some 1000). cbv beta iota.
  rewrite attempts_step. cbv zeta. cbn [auth_requests email_requests sleeps].
  rewrite <- app_assoc. simpl app at 1. rewrite H2.
  replace (0 + 1 + 1 <? api_max_retries s) with true by (symmetry; apply Z.ltb_lt; lia).
  change (retry_delays !! Z.to_nat (0 + 1 + 1)) with (@None Z). cbv beta iota.
  rewrite <- (app_assoc (sleeps io)). reflexivity.
Qed.


(** X3.  With a retry count of three or more, three transient answers in
    a row end the validation with [IndexError]: the third failure asks the
    two-entry schedule for its third delay.  Three requests were sent and
    both delays slept. *)
Theorem validate_credentials_schedule_overrun up s u p io :
  3 <= api_max_retries s ->
  (forall k, (k < 3)%nat -> transient (auth_answer up (auth_requests io) u p k)) ->
  validate_credentials up s u p io
  = (Raise (IndexError "list index out of range"),
     IO (auth_requests io ++ replicate 3 (u, p)) (email_requests io)
        (sleeps io ++ [500; 1000])).
Proof. apply validate_credentials_overrun. Qed.

Lemma validate_credentials_schedule_overrun_witness :
  let s := with_api_max_retries default_settings 5 in
  3 <= api_max_retries s /\
  (forall k, (k < 3)%nat ->
     transient (auth_answer Sample.failing_auth (auth_requests io0) "u@x.com" "pw" k)) /\
  validate_credentials Sample.failing_auth s "u@x.com" "pw" io0
  = (Raise (IndexError "list index out of range"),
     IO (auth_requests io0 ++ replicate 3 ("u@x.com", "pw")) (email_requests io0)
        (sleeps io0 ++ [500; 1000])).
Proof.
  intros s.
  assert (Hmr : 3 <= api_max_retries s) by (simpl; lia).
  assert (Htr : forall k, (k < 3)%nat ->
            transient (auth_answer Sample.failing_auth (auth_requests io0)
                         "u@x.com" "pw" k)).
  { intros [|[|[|k]]] Hk; try lia; vm_compute; constructor; lia. }
  split; [exact Hmr|]. split; [exact Htr|].
  exact (validate_credentials_schedule_overrun Sample.failing_auth s
           "u@x.com" "pw" io0 Hmr Htr).
Defined.


(** ** AUTH, MAIL and RCPT *)

Lemma upper_ascii_idempotent (c : Ascii.ascii) :
  upper_ascii (upper_ascii c) = upper_ascii c.
Proof. destruct c as [[] [] [] [] [] [] [] []]; reflexivity. Qed.

Lemma ascii_upper_idempotent (s : string) :
  ascii_upper (ascii_upper s) = ascii_upper s.
Proof.
  induction s as [|c s IH]; simpl; [reflexivity|].
  rewrite upper_ascii_idempotent, IH. reflexivity.
Qed.

(** X4.  The AUTH mechanism is matched without regard to case: a command
    gets the reply, the table and the upstream traffic it would get with
    its mechanism written in capitals.  This takes of [str.upper] that
    applying it twice is applying it once, which Python's case mapping
    satisfies. *)
Theorem handle_AUTH_mechanism_case {lib : Lib} up self session mechanism rest io :
  (forall s, upper (upper s) = upper s) ->
  handle_AUTH up self session (mechanism :: rest) io
  = handle_AUTH up self session (upper mechanism :: rest) io.
Proof.
  intros Hidem. unfold handle_AUTH. destruct (ssl session); [|reflexivity].
  cbv zeta. rewrite Hidem. reflexivity.
Qed.

(** X5.  AUTH never writes to the email service, and it contacts the auth
    service only after STARTTLS, for the mechanism PLAIN, with a payload
    that parses; the requests it then sends, three at most, carry exactly
    the username and password of the payload. *)
Theorem handle_AUTH_upstream_traffic {lib : Lib} up self session args io res io' :
  handle_AUTH up self session args io = (res, io') ->
  email_requests io' = email_requests io /\
  (io' = io \/
   exists tls mechanism payload rest username password (n : nat),
     ssl session = Some tls /\
     args = mechanism :: payload :: rest /\
     upper mechanism = "PLAIN" /\
     parse_auth_plain payload = Ok (username, password) /\
     (n <= 3)%nat /\
     auth_requests io' = auth_requests io ++ replicate n (username, password)).
Proof.
  intros Hrun.
  assert (Hsame : forall x, (Ok x, io) = (res, io') ->
            email_requests io' = email_requests io /\
            (io' = io \/
             exists tls mechanism payload rest username password (n : nat),
               ssl session = Some tls /\ args = mechanism :: payload :: rest /\
               upper mechanism = "PLAIN" /\
               parse_auth_plain payload = Ok (username, password) /\
               (n <= 3)%nat /\
               auth_requests io' = auth_requests io ++ replicate n (username, password)))
    by (intros x [= _ <-]; auto).
  destruct (ssl session) as [tls|] eqn:Hssl.
  2:{ unfold handle_AUTH in Hrun. rewrite Hssl in Hrun. eapply Hsame, Hrun. }
  destruct args as [|mechanism rest].
  { unfold handle_AUTH in Hrun. rewrite Hssl in Hrun. eapply Hsame, Hrun. }
  destruct (String.eqb_spec (upper mechanism) "PLAIN") as [Hmech|Hmech].
  2:{ unfold handle_AUTH in Hrun. rewrite Hssl in Hrun.
      apply String.eqb_neq in Hmech. rewrite Hmech in Hrun.
      destruct (String.eqb (upper mechanism) "LOGIN"); eapply Hsame, Hrun. }
  destruct rest as [|payload rest].
  { unfold handle_AUTH in Hrun. rewrite Hssl, Hmech in Hrun. eapply Hsame, Hrun. }
  rewrite (handle_AUTH_plain up self session mechanism payload rest tls io Hssl Hmech)
    in Hrun.
  destruct (parse_auth_plain payload) as [[username password]|e] eqn:Hparse.
  2:{ destruct e; injection Hrun as _ <-; auto. }
  destruct (validate_credentials up (settings self) username password io)
    as [r s1] eqn:Hval.
  apply validate_credentials_requests in Hval as (n & Hn & _ & Hlog & Hmail & _).
  assert (io' = s1) as ->.
  { destruct r as [key|e]; [|destruct e]; injection Hrun as _ <-; reflexivity. }
  split; [exact Hmail|]. right.
  exists tls, mechanism, payload, rest, username, password, n. conjs; auto.
Qed.

(** X6.  Once AUTH has answered 235, MAIL FROM in the same session is
    accepted and records the sender; once it has answered 535
    Authentication failed, MAIL FROM, RCPT TO and DATA in that session are
    refused with 530 and nothing is sent upstream. *)
Theorem auth_reply_gates_the_session {lib : Lib} up self session args io reply self' io' :
  handle_AUTH up self session args io = (Ok (reply, self'), io') ->
  (reply = "235 2.7.0 Authentication successful" ->
   forall envelope address options,
     handle_MAIL self' session envelope address options
     = ("250 OK",
        MkEnvelope (Some address) (mail_options envelope ++ options)
          (rcpt_tos envelope) (rcpt_options envelope) (content envelope))) /\
  (reply = "535 5.7.8 Authentication failed" ->
   forall envelope address options io2,
     handle_MAIL self' session envelope address options
     = ("530 5.7.0 Authentication required", envelope) /\
     handle_RCPT self' session envelope address options
     = ("530 5.7.0 Authentication required", envelope) /\
     handle_DATA up self' session envelope io2
     = (Ok "530 5.7.0 Authentication required", io2)).
Proof.
  intros Hrun. apply handle_AUTH_table in Hrun as [_ Hcases]. split.
  - intros ->.
    destruct Hcases as [(_ & u & key & _ & Htab)|[[Habs _]|(Habs & _)]];
      [|discriminate|congruence].
    intros envelope address options. unfold handle_MAIL, not_authenticated.
    rewrite Htab, lookup_insert_eq. reflexivity.
  - intros ->.
    destruct Hcases as [[Habs _]|[[_ Htab]|(_ & Habs & _)]];
      [discriminate| |congruence].
    intros envelope address options io2.
    unfold handle_MAIL, handle_RCPT, handle_DATA, handle_DATA_with, not_authenticated.
    rewrite Htab, lookup_delete_eq. auto.
Qed.

(** X7.  In a session that is not authenticated, MAIL FROM, RCPT TO and
    DATA are answered 530, the envelope is not touched and nothing is sent
    upstream. *)
Theorem unauthenticated_session_is_refused {lib : Lib} up self session
    envelope address options io :
  not_authenticated self session = true ->
  handle_MAIL self session envelope address options
  = ("530 5.7.0 Authentication required", envelope) /\
  handle_RCPT self session envelope address options
  = ("530 5.7.0 Authentication required", envelope) /\
  handle_DATA up self session envelope io
  = (Ok "530 5.7.0 Authentication required", io).
Proof.
  intros Hna. unfold handle_MAIL, handle_RCPT. rewrite Hna.
  split; [reflexivity|]. split; [reflexivity|].
  unfold handle_DATA, handle_DATA_with. unfold not_authenticated in Hna.
  destruct (_authenticated_sessions self !! peer_key session) as [sd|];
    [|reflexivity].
  rewrite Hna. reflexivity.
Qed.

(** X8.  With a negative [api_max_retries] no AUTH can succeed: a
    well-formed AUTH PLAIN after STARTTLS is answered 451 without any
    request to the auth service, and the table is left as it was. *)
Theorem negative_retries_refuse_every_auth {lib : Lib} up self session
    mechanism payload rest tls username password io :
  api_max_retries (settings self) < 0 ->
  ssl session = Some tls ->
  upper mechanism = "PLAIN" ->
  parse_auth_plain payload = Ok (username, password) ->
  handle_AUTH up self session (mechanism :: payload :: rest) io
  = (Ok ("451 4.7.0 Temporary authentication failure, please try again", self), io).
Proof.
  intros Hneg Hssl Hmech Hparse.
  rewrite (handle_AUTH_plain up self session mechanism payload rest tls io Hssl Hmech).
  rewrite Hparse, validate_credentials_no_attempt by exact Hneg. reflexivity.
Qed.

(** X9.  With a retry count of three or more, an AUTH PLAIN whose
    validation meets three transient answers in a row produces no reply:
    the [IndexError] of the validator is caught by none of the [except]
    clauses of [handle_AUTH] and escapes it. *)
Theorem handle_AUTH_lets_index_error_escape {lib : Lib} up self session
    mechanism payload rest tls username password io :
  3 <= api_max_retries (settings self) ->
  ssl session = Some tls ->
  upper mechanism = "PLAIN" ->
  parse_auth_plain payload = Ok (username, password) ->
  (forall k, (k < 3)%nat ->
     transient (auth_answer up (auth_requests io) username password k)) ->
  fst (handle_AUTH up self session (mechanism :: payload :: rest) io)
  = Raise (IndexError "list index out of range").
Proof.
  intros Hmr Hssl Hmech Hparse Htr.
  rewrite (handle_AUTH_plain up self session mechanism payload rest tls io Hssl Hmech).
  rewrite Hparse, (validate_credentials_overrun up (settings self) username password
                     io Hmr Htr).
  reflexivity.
Qed.

Section AuthMoreExamples.
#[local] Existing Instance Sample.lib.

Lemma handle_AUTH_mechanism_case_witness :
  (forall s, upper (upper s) = upper s) /\
  handle_AUTH Sample.happy (init default_settings) Sample.client
    ["plain"; Sample.auth_token] io0
  = handle_AUTH Sample.happy (init default_settings) Sample.client
      [upper "plain"; Sample.auth_token] io0.
Proof.
  split; [exact ascii_upper_idempotent|].
  exact (handle_AUTH_mechanism_case Sample.happy (init default_settings)
           Sample.client "plain" [Sample.auth_token] io0 ascii_upper_idempotent).
Defined.

Lemma handle_AUTH_upstream_traffic_witness :
  let run := handle_AUTH Sample.happy (init default_settings) Sample.client
               ["plain"; Sample.auth_token] io0 in
  email_requests (snd run) = email_requests io0 /\
  (snd run = io0 \/
   exists tls mechanism payload rest username password (n : nat),
     ssl Sample.client = Some tls /\
     ["plain"; Sample.auth_token] = mechanism :: payload :: rest /\
     upper mechanism = "PLAIN" /\
     parse_auth_plain payload = Ok (username, password) /\
     (n <= 3)%nat /\
     auth_requests (snd run) = auth_requests io0 ++ replicate n (username, password)).
Proof.
  intros run.
  exact (handle_AUTH_upstream_traffic Sample.happy (init default_settings)
           Sample.client ["plain"; Sample.auth_token] io0 (fst run) (snd run) eq_refl).
Defined.

Lemma auth_reply_gates_the_session_witness :
  let io1 := IO [("u@x.com", "pw")] [] [] in
  let h1 := Sample.authenticated_handler in
  handle_AUTH Sample.happy (init default_settings) Sample.client
    ["PLAIN"; Sample.auth_token] io0
  = (Ok ("235 2.7.0 Authentication successful", h1), io1) /\
  forall envelope address options,
    handle_MAIL h1 Sample.client envelope address options
    = ("250 OK",
       MkEnvelope (Some address) (mail_options envelope ++ options)
         (rcpt_tos envelope) (rcpt_options envelope) (content envelope)).
Proof.
  intros io1 h1.
  assert (Hrun : handle_AUTH Sample.happy (init default_settings) Sample.client
                   ["PLAIN"; Sample.auth_token] io0
                 = (Ok ("235 2.7.0 Authentication successful", h1), io1))
    by (vm_compute; reflexivity).
  split; [exact Hrun|].
  destruct (auth_reply_gates_the_session Sample.happy (init default_settings)
              Sample.client ["PLAIN"; Sample.auth_token] io0 _ h1 io1 Hrun)
    as [Hok _].
  exact (Hok eq_refl).
Defined.

Lemma unauthenticated_session_is_refused_witness :
  let self := init default_settings in
  let envelope := Sample.envelope_of ["r@x.com"] Sample.raw_one in
  not_authenticated self Sample.client = true /\
  handle_MAIL self Sample.client envelope "s@x.com" []
  = ("530 5.7.0 Authentication required", envelope) /\
  handle_RCPT self Sample.client envelope "r@x.com" []
  = ("530 5.7.0 Authentication required", envelope) /\
  handle_DATA Sample.happy self Sample.client envelope io0
  = (Ok "530 5.7.0 Authentication required", io0).
Proof.
  intros self envelope.
  assert (Hna : not_authenticated self Sample.client = true) by reflexivity.
  split; [exact Hna|].
  exact (unauthenticated_session_is_refused Sample.happy self Sample.client
           envelope "s@x.com" [] io0 Hna).
Defined.

Lemma negative_retries_refuse_every_auth_witness :
  let self := init (with_api_max_retries default_settings (-1)) in
  api_max_retries (settings self) < 0 /\
  ssl Sample.client = Some "TLSv1.3" /\
  upper "Plain" = "PLAIN" /\
  parse_auth_plain Sample.auth_token = Ok ("u@x.com", "pw") /\
  handle_AUTH Sample.happy self Sample.client ["Plain"; Sample.auth_token] io0
  = (Ok ("451 4.7.0 Temporary authentication failure, please try again", self), io0).
Proof.
  intros self.
  assert (H1 : api_max_retries (settings self) < 0) by (simpl; lia).
  assert (H2 : ssl Sample.client = Some "TLSv1.3") by reflexivity.
  assert (H3 : upper "Plain" = "PLAIN") by reflexivity.
  assert (H4 : parse_auth_plain Sample.auth_token = Ok ("u@x.com", "pw"))
    by reflexivity.
  repeat (split; [assumption|]).
  exact (negative_retries_refuse_every_auth Sample.happy self Sample.client
           "Plain" Sample.auth_token [] "TLSv1.3" "u@x.com" "pw" io0 H1 H2 H3 H4).
Defined.

Lemma handle_AUTH_lets_index_error_escape_witness :
  let self := init (with_api_max_retries default_settings 5) in
  3 <= api_max_retries (settings self) /\
  ssl Sample.client = Some "TLSv1.3" /\
  upper "PLAIN" = "PLAIN" /\
  parse_auth_plain Sample.auth_token = Ok ("u@x.com", "pw") /\
  (forall k, (k < 3)%nat ->
     transient (auth_answer Sample.failing_auth (auth_requests io0) "u@x.com" "pw" k)) /\
  fst (handle_AUTH Sample.failing_auth self Sample.client
         ["PLAIN"; Sample.auth_token] io0)
  = Raise (IndexError "list index out of range").
Proof.
  intros self.
  assert (H1 : 3 <= api_max_retries (settings self)) by (simpl; lia).
  assert (H2 : ssl Sample.client = Some "TLSv1.3") by reflexivity.
  assert (H3 : upper "PLAIN" = "PLAIN") by reflexivity.
  assert (H4 : parse_auth_plain Sample.auth_token = Ok ("u@x.com", "pw"))
    by reflexivity.
  assert (H5 : forall k, (k < 3)%nat ->
            transient (auth_answer Sample.failing_auth (auth_requests io0)
                         "u@x.com" "pw" k)).
  { intros [|[|[|k]]] Hk; try lia; vm_compute; constructor; lia. }
  repeat (split; [assumption|]).
  exact (handle_AUTH_lets_index_error_escape Sample.failing_auth self Sample.client
           "PLAIN" Sample.auth_token [] "TLSv1.3" "u@x.com" "pw" io0 H1 H2 H3 H4 H5).
Defined.

End AuthMoreExamples.


(** ** The handler object over a sequence of calls *)

Section EngineFacts.
Context {lib : Lib}.
Variable up : upstream.

(** What one call does to the table. *)
Lemma step_table self c s self' s' :
  step up self c s = (Ok self', s') ->
  settings self' = settings self /\
  (_authenticated_sessions self' = _authenticated_sessions self \/
   exists session args,
     c = Auth session args /\
     ((exists username key, py_bool key = true /\
         _authenticated_sessions self'
         = <[peer_key session := SessionData username (Some key) true]>
             (_authenticated_sessions self)) \/
      _authenticated_sessions self'
      = delete (peer_key session) (_authenticated_sessions self))).
Proof.
  destruct c; simpl; try (intros [= <- _]; auto).
  - unfold bind.
    destruct (handle_AUTH up self session args s) as [[[reply h]|e] s1] eqn:Hrun;
      [|discriminate].
    intros [= <- _]. simpl.
    apply handle_AUTH_table in Hrun as [Hset Hcases]. split; [exact Hset|].
    destruct Hcases as [(_ & u & key & Hkey & Htab)|[[_ Htab]|(_ & _ & ->)]].
    + right. exists session, args. split; [reflexivity|]. left. eauto.
    + right. exists session, args. split; [reflexivity|]. right. exact Htab.
    + left. reflexivity.
  - unfold bind. destruct (handle_DATA up self session envelope s) as [[x|e] s1];
      [|discriminate].
    intros [= <- _]. auto.
Qed.

Lemma step_keeps_table_ok self c s self' s' :
  table_ok self -> step up self c s = (Ok self', s') -> table_ok self'.
Proof.
  intros Hok Hstep. apply step_table in Hstep as [_ Hcases].
  destruct Hcases as [Heq|(session & args & _ & [(u & key & Hkey & Htab)|Htab])];
    intros a sd; rewrite ?Heq, ?Htab.
  - apply Hok.
  - destruct (decide (peer_key session = a)) as [<-|Hne].
    + rewrite lookup_insert_eq. intros [= <-]. split; [reflexivity|]. eauto.
    + rewrite lookup_insert_ne by exact Hne. apply Hok.
  - destruct (decide (peer_key session = a)) as [<-|Hne].
    + rewrite lookup_delete_eq. discriminate.
    + rewrite lookup_delete_ne by exact Hne. apply Hok.
Qed.

Lemma run_keeps_table_ok calls :
  forall self s, table_ok self -> table_ok (fst (run up calls self s)).
Proof.
  induction calls as [|c calls IH]; intros self s Hok; [exact Hok|].
  simpl. destruct (step up self c s) as [[self'|e] s'] eqn:Hstep.
  - apply IH. eapply step_keeps_table_ok; eauto.
  - apply IH. exact Hok.
Qed.

Lemma init_table_ok settings : table_ok (init settings).
Proof. intros a sd. simpl. rewrite lookup_empty. discriminate. Qed.

End EngineFacts.

(** X10.  Every entry of the table of authenticated sessions is flagged
    authenticated and holds a key that is true as a condition (a string:
    not empty), and this is kept by every
    sequence of handler calls: connections made and lost, EHLO, AUTH,
    MAIL, RCPT, DATA and QUIT, in any order, from any sessions, including
    calls that raise. *)
Theorem table_entries_stay_well_formed {lib : Lib} up calls self io :
  table_ok self -> table_ok (fst (run up calls self io)).
Proof. apply run_keeps_table_ok. Qed.

(** X11.  From the handler as [__init__] builds it, no sequence of calls
    leads to a DATA that is answered 451 4.3.0 Internal error: missing API
    key; that branch of [handle_DATA] cannot be reached. *)
Theorem missing_api_key_reply_is_unreachable {lib : Lib} up settings calls io
    session envelope io2 :
  fst (handle_DATA up (fst (run up calls (init settings) io)) session envelope io2)
  <> Ok "451 4.3.0 Internal error: missing API key".
Proof.
  pose proof (run_keeps_table_ok up calls (init settings) io (init_table_ok settings))
    as Hok.
  set (self := fst (run up calls (init settings) io)) in *.
  unfold handle_DATA.
  destruct (_authenticated_sessions self !! peer_key session) as [sd|] eqn:Hsd.
  2:{ unfold handle_DATA_with. rewrite Hsd. simpl. discriminate. }
  destruct (Hok _ _ Hsd) as (Hauth & key & Hkey & Hne).
  destruct (truthy (mail_from envelope)) as [a|] eqn:Hfrom.
  2:{ unfold handle_DATA_with. rewrite Hsd, Hauth, Hfrom. simpl. discriminate. }
  destruct (rcpt_tos envelope) as [|r rs] eqn:Hrcpt.
  { unfold handle_DATA_with. rewrite Hsd, Hauth, Hfrom, Hrcpt. simpl. discriminate. }
  rewrite (handle_DATA_with_guarded _ _ _ _ _ sd a r rs io2 Hsd Hauth Hfrom Hrcpt).
  destruct (parse_email_message (content envelope)) as [d|e].
  2:{ destruct e; simpl; discriminate. }
  rewrite Hkey. simpl. rewrite Hne.
  destruct (submit_email up key d io2) as [[out|e] s1]; [simpl; discriminate|].
  destruct e; simpl; discriminate.
Qed.

Section EngineFacts2.
Context {lib : Lib}.
Variable up : upstream.

Lemma run_keeps_other_entries calls (a : string) :
  forall self s,
    Forall (fun c => ~ auth_from a c) calls ->
    _authenticated_sessions (fst (run up calls self s)) !! a
    = _authenticated_sessions self !! a.
Proof.
  induction calls as [|c calls IH]; intros self s Hall; [reflexivity|].
  apply Forall_cons in Hall as [Hc Hall]. simpl.
  destruct (step up self c s) as [[self'|e] s'] eqn:Hstep; [|apply IH, Hall].
  rewrite IH by exact Hall.
  apply step_table in Hstep as [_ Hcases].
  destruct Hcases as [->|(session & args & -> & [(u & key & _ & ->)| ->])];
    [reflexivity| |]; simpl in Hc.
  - apply lookup_insert_ne. exact Hc.
  - apply lookup_delete_ne. exact Hc.
Qed.

End EngineFacts2.

(** X12.  The entry stored under an address is changed by nothing but an
    AUTH from that address: it survives the loss of the connection, new
    connections, EHLO, MAIL, RCPT, DATA and QUIT of any session, and AUTH
    commands from other addresses.  In particular closing a connection does
    not end its authentication. *)
Theorem entry_outlives_everything_but_auth {lib : Lib} up calls a self io :
  Forall (fun c => ~ auth_from a c) calls ->
  _authenticated_sessions (fst (run up calls self io)) !! a
  = _authenticated_sessions self !! a.
Proof. apply run_keeps_other_entries. Qed.

(** X13.  In an authenticated session, RCPT TO is accepted while the
    envelope holds fewer than [max_recipients] addresses: of the addresses
    offered in turn, the first ones up to the cap are answered 250 and
    appended in order, every later one is answered 452 and dropped; the
    sender and the content of the envelope are not touched.  No sender is
    required. *)
Theorem rcpt_accepts_up_to_the_cap (self : SMTPHandler) (session : Session)
    (envelope : Envelope) (addresses : list string) :
  not_authenticated self session = false ->
  let cap := max_recipients (settings self) in
  let room := Z.to_nat (cap - Z.of_nat (length (rcpt_tos envelope))) in
  let '(replies, final) := rcpt_each self session envelope addresses in
  rcpt_tos final = rcpt_tos envelope ++ take room addresses /\
  replies = replicate (min room (length addresses)) "250 OK"
            ++ replicate (length addresses - room)
                 ("452 4.5.3 Too many recipients (max " +:+ pretty cap +:+ ")") /\
  mail_from final = mail_from envelope /\
  content final = content envelope.
Proof.
  intros Hauth cap. revert envelope.
  induction addresses as [|address rest IH]; intros envelope room.
  - simpl. rewrite take_nil, app_nil_r, Nat.min_0_r. auto.
  - cbn [rcpt_each]. unfold handle_RCPT at 1. rewrite Hauth. fold cap.
    destruct (cap <=? Z.of_nat (length (rcpt_tos envelope))) eqn:Hfull.
    + apply Z.leb_le in Hfull.
      specialize (IH envelope).
      destruct (rcpt_each self session envelope rest) as [replies final].
      cbv zeta in IH. destruct IH as (Htos & Hrep & Hfrom & Hcont).
      assert (Hroom : room = O) by (subst room; lia).
      rewrite Hroom in *. replace (Z.to_nat (cap - Z.of_nat (length (rcpt_tos envelope))))
        with O in * by lia.
      simpl in *. conjs; auto. rewrite Hrep. rewrite Nat.sub_0_r. reflexivity.
    + apply Z.leb_gt in Hfull.
      set (envelope' := MkEnvelope (mail_from envelope) (mail_options envelope)
                          (rcpt_tos envelope ++ [address])
                          (rcpt_options envelope ++ []) (content envelope)).
      specialize (IH envelope').
      destruct (rcpt_each self session envelope' rest) as [replies final].
      cbv zeta in IH. destruct IH as (Htos & Hrep & Hfrom & Hcont).
      simpl in Htos, Hrep, Hfrom, Hcont. rewrite length_app in Htos, Hrep.
      simpl in Htos, Hrep.
      assert (Hroom : room = S (Z.to_nat (cap - Z.of_nat (length (rcpt_tos envelope) + 1))))
        by (subst room; lia).
      rewrite Hroom. simpl. conjs; auto.
      * rewrite Htos, <- app_assoc. reflexivity.
      * rewrite Hrep. reflexivity.
Qed.

Section EngineExamples.
#[local] Existing Instance Sample.lib.

Lemma table_entries_stay_well_formed_witness :
  let calls := [Connected Sample.client 0;
                Auth Sample.client ["PLAIN"; Sample.auth_token];
                Lost Sample.client;
                Auth Sample.neighbour ["PLAIN"; "abc"];
                Data Sample.neighbour (Sample.envelope_of ["r@x.com"] Sample.raw_one)] in
  table_ok (init default_settings) /\
  table_ok (fst (run Sample.happy calls (init default_settings) io0)).
Proof.
  intros calls.
  assert (H0 : table_ok (init default_settings)) by apply init_table_ok.
  split; [exact H0|].
  exact (table_entries_stay_well_formed Sample.happy calls (init default_settings)
           io0 H0).
Defined.

Lemma entry_outlives_everything_but_auth_witness :
  let calls := [Lost Sample.client;
                Connected Sample.neighbour 7;
                Mail Sample.neighbour Sample.fresh_envelope "s@x.com" [];
                Data Sample.client (Sample.envelope_of ["r@x.com"] Sample.raw_one);
                Auth Sample.stranger ["PLAIN"; "abc"]] in
  Forall (fun c => ~ auth_from "203.0.113.7" c) calls /\
  _authenticated_sessions
    (fst (run Sample.happy calls Sample.authenticated_handler io0)) !! "203.0.113.7"
  = _authenticated_sessions Sample.authenticated_handler !! "203.0.113.7".
Proof.
  intros calls.
  assert (Hall : Forall (fun c => ~ auth_from "203.0.113.7" c) calls).
  { repeat constructor; simpl; try tauto. discriminate. }
  split; [exact Hall|].
  exact (entry_outlives_everything_but_auth Sample.happy calls "203.0.113.7"
           Sample.authenticated_handler io0 Hall).
Defined.

Lemma rcpt_accepts_up_to_the_cap_witness :
  let self := MoreSamples.two_recipients_handler in
  let addresses := ["a@x.com"; "b@x.com"; "c@x.com"] in
  not_authenticated self Sample.client = false /\
  let cap := max_recipients (settings self) in
  let room := Z.to_nat (cap - Z.of_nat (length (rcpt_tos Sample.fresh_envelope))) in
  let '(replies, final) := rcpt_each self Sample.client Sample.fresh_envelope addresses in
  rcpt_tos final = rcpt_tos Sample.fresh_envelope ++ take room addresses /\
  replies = replicate (min room (length addresses)) "250 OK"
            ++ replicate (length addresses - room)
                 ("452 4.5.3 Too many recipients (max " +:+ pretty cap +:+ ")") /\
  mail_from final = mail_from Sample.fresh_envelope /\
  content final = content Sample.fresh_envelope.
Proof.
  intros self addresses.
  assert (Hauth : not_authenticated self Sample.client = false) by reflexivity.
  split; [exact Hauth|].
  exact (rcpt_accepts_up_to_the_cap self Sample.client Sample.fresh_envelope
           addresses Hauth).
Defined.

(** Two of three recipients fit under a cap of two. *)
Example rcpt_third_is_refused :
  fst (rcpt_each MoreSamples.two_recipients_handler Sample.client
         Sample.fresh_envelope ["a@x.com"; "b@x.com"; "c@x.com"])
  = ["250 OK"; "250 OK"; "452 4.5.3 Too many recipients (max 2)"].
Proof. reflexivity. Qed.

End EngineExamples.


(** ** What a submission sends *)

Section SubmitMore.
Variable up : upstream.
Variable api_key : json_value.
Variable data : email_data.

(** The cost of the fan-out: one or two requests per recipient tried. *)
Lemma fan_out_cost R :
  forall t s res s',
    fan_out up api_key data R t s = (res, s') ->
    (length (email_requests s') <= length (email_requests s) + 2 * length R)%nat /\
    (forall t', res = Ok t' ->
       (length (email_requests s) + length R <= length (email_requests s'))%nat).
Proof.
  induction R as [|r rest IH]; intros t s res s' Hrun.
  - injection Hrun as <- <-. simpl. split; [lia|]. intros; lia.
  - rewrite fan_out_cons in Hrun.
    destruct (_submit_to_single_recipient up api_key data r s) as [r1 s1] eqn:H1.
    apply single_recipient_run in H1 as (new & Hlog & _ & _ & Hlen & _).
    assert (Hs1 : (length (email_requests s) + 1 <= length (email_requests s1)
                   <= length (email_requests s) + 2)%nat)
      by (rewrite Hlog, length_app; lia).
    destruct r1 as [x|e].
    + apply IH in Hrun as [Hup Hlow]. simpl. split; [lia|].
      intros t' Ht'. specialize (Hlow t' Ht'). lia.
    + injection Hrun as <- <-. simpl. split; [lia|]. discriminate.
Qed.

(** With no success, the failures are the recipients, each with its
    error. *)
Lemma failures_when_no_success R :
  forall rs : list single_result,
    length rs = length R ->
    successes (zip R rs) = [] ->
    exists errors : list json_value,
      length errors = length R /\ failures (zip R rs) = zip R errors.
Proof.
  induction R as [|r R IH]; intros [|res rs] Hlen Hnone; try discriminate.
  - exists []. auto.
  - simpl in Hlen, Hnone. destruct res as [i|e]; [discriminate|].
    destruct (IH rs ltac:(lia) Hnone) as (errors & Hlen' & Heq).
    exists (e :: errors). simpl. rewrite Heq. split; [lia|reflexivity].
Qed.

Lemma submit_email_traffic s res s' :
  submit_email up api_key data s = (res, s') ->
  let R := ed_to data ++ ed_cc data ++ ed_bcc data in
  auth_requests s' = auth_requests s /\
  sleeps s' = sleeps s /\
  exists new : list email_request,
    email_requests s' = email_requests s ++ new /\
    (length new <= 2 * length R)%nat /\
    Forall (fun rq => exists r, r ∈ R /\
              rq = EmailRequest (py_str api_key) (build_payload data r)) new /\
    ((exists out, res = Ok out) \/
     (exists m, res = Raise (ValidationError m) /\ R <> []) ->
     (length R <= length new)%nat).
Proof.
  intros Hrun R.
  destruct (decide (R = [])) as [HR|HR].
  - rewrite submit_email_empty in Hrun by exact HR. injection Hrun as <- <-.
    conjs; auto. exists []. rewrite app_nil_r. conjs; auto; simpl; try lia.
    intros [[out Ho]|(m & _ & Hne)]; [discriminate|contradiction].
  - rewrite submit_email_nonempty in Hrun by exact HR. fold R in Hrun.
    destruct (fan_out up api_key data R (Tally [] [] []) s) as [r1 s1] eqn:Hfan.
    pose proof (fan_out_cost _ _ _ _ _ Hfan) as [Hup Hlow].
    apply fan_out_requests in Hfan as (new & Hlog & Hauth & Hsl & Hall & _ & Hraise).
    assert (s' = s1) as ->.
    { destruct r1 as [t|e]; [destruct (succeeded_recipients t)|];
        injection Hrun as _ <-; reflexivity. }
    conjs; auto. exists new. rewrite Hlog, length_app in Hup, Hlow.
    conjs; auto; try lia.
    intros Hdone. destruct r1 as [t|e].
    + specialize (Hlow t eq_refl). lia.
    + injection Hrun as <-.
      destruct Hdone as [[out Ho]|(m & [= ->] & _)]; [discriminate|].
      destruct (Hraise _ eq_refl) as [?|Hbody]; [discriminate|destruct Hbody].
Qed.

End SubmitMore.



(** X15.  When a submission over a non-empty [R] fails as a validation
    error, every recipient failed, and the message is "All recipients
    failed: " followed by "address: error" for each recipient of [R], in
    order, joined by "; ". *)
Theorem all_recipients_failed_summary up key data io m io' :
  let R := ed_to data ++ ed_cc data ++ ed_bcc data in
  R <> [] ->
  submit_email up key data io = (Raise (ValidationError m), io') ->
  exists errors : list json_value,
    length errors = length R /\
    m = "All recipients failed: " +:+ error_summary (zip R errors).
Proof.
  intros R HR Hrun. rewrite submit_email_nonempty in Hrun by exact HR. fold R in Hrun.
  destruct (fan_out up key data R (Tally [] [] []) io) as [[t|e] s1] eqn:Hfan.
  - apply fan_out_tally in Hfan as (rs & Hlen & Hs & Hf & _). simpl in Hs, Hf.
    destruct (succeeded_recipients t) as [|x xs]; [|discriminate].
    injection Hrun as <- _.
    destruct (failures_when_no_success R rs Hlen (eq_sym Hs)) as (errors & He & Heq).
    exists errors. split; [exact He|]. rewrite Hf, Heq. reflexivity.
  - apply fan_out_requests in Hfan as (_ & _ & _ & _ & _ & _ & Hraise).
    injection Hrun as -> _.
    destruct (Hraise _ eq_refl) as [?|Hbody]; [discriminate|destruct Hbody].
Qed.

Lemma all_recipients_failed_summary_witness :
  let data := SubmitSamples.two_recipients in
  let R := ed_to data ++ ed_cc data ++ ed_bcc data in
  let m := "All recipients failed: a@x.com: API server error: 500; b@x.com: API server error: 500" in
  R <> [] /\
  fst (submit_email SubmitSamples.both_fail "k" data io0) = Raise (ValidationError m) /\
  exists errors : list json_value,
    length errors = length R /\
    m = "All recipients failed: " +:+ error_summary (zip R errors).
Proof.
  intros data R m.
  assert (HR : R <> []) by discriminate.
  split; [exact HR|]. split; [reflexivity|].
  exact (all_recipients_failed_summary SubmitSamples.both_fail "k" data io0 m
           (snd (submit_email SubmitSamples.both_fail "k" data io0)) HR eq_refl).
Defined.

(** The two iterations of the retry loop, written out. *)
Lemma single_recipient_unrolled up key data r io :
  let rq := EmailRequest (py_str key) (build_payload data r) in
  _submit_to_single_recipient up key data r io =
  match email_api up (email_requests io ++ [rq]) with
  | Response st body =>
      (classify_response st body,
       IO (auth_requests io) (email_requests io ++ [rq]) (sleeps io))
  | _ =>
      (match email_api up (email_requests io ++ [rq; rq]) with
       | Response st body => classify_response st body
       | TimeoutException e => Ok (Failed ("API request timeout: " +:+ e))
       | RequestError e => Ok (Failed ("Network error: " +:+ e))
       end,
       IO (auth_requests io) (email_requests io ++ [rq; rq]) (sleeps io))
  end.
Proof.
  intros rq. unfold _submit_to_single_recipient. fold rq.
  change (Z.to_nat 2) with 2%nat. simpl. unfold bind, post_email. simpl.
  assert (Hlift : forall (x : result single_result) s,
            match x with Ok y => ret y | Raise e => raise e end s = (x, s))
    by (intros [y|e] s; reflexivity).
  assert (Happ : (email_requests io ++ [rq]) ++ [rq] = email_requests io ++ [rq; rq])
    by (rewrite <- app_assoc; reflexivity).
  destruct (email_api up (email_requests io ++ [rq])) as [st body|e|e].
  - apply Hlift.
  - cbn [auth_requests email_requests sleeps]. rewrite Happ.
    destruct (email_api up (email_requests io ++ [rq; rq])) as [st body|e2|e2];
      [apply Hlift|reflexivity|reflexivity].
  - cbn [auth_requests email_requests sleeps]. rewrite Happ.
    destruct (email_api up (email_requests io ++ [rq; rq])) as [st body|e2|e2];
      [apply Hlift|reflexivity|reflexivity].
Qed.

(** X16.  One recipient costs one request when the first request gets a
    response, whatever its status: a response is never retried, and a
    status of 500 or more is recorded at once as the failure "API server
    error: N".  It costs two requests, sent back to back, when the first
    one times out or fails in transport; the result is then that of the
    second request alone. *)
Theorem recipient_is_retried_only_after_transport_failure up key data r io res io' :
  _submit_to_single_recipient up key data r io = (res, io') ->
  let rq := EmailRequest (py_str key) (build_payload data r) in
  let first := email_api up (email_requests io ++ [rq]) in
  let second := email_api up (email_requests io ++ [rq; rq]) in
  sleeps io' = sleeps io /\
  (forall st body, first = Response st body ->
     email_requests io' = email_requests io ++ [rq] /\
     res = classify_response st body /\
     (500 <= st -> res = Ok (Failed ("API server error: " +:+ pretty st)))) /\
  ((exists e, first = TimeoutException e \/ first = RequestError e) ->
   email_requests io' = email_requests io ++ [rq; rq] /\
   match second with
   | Response st body => res = classify_response st body
   | TimeoutException e => res = Ok (Failed ("API request timeout: " +:+ e))
   | RequestError e => res = Ok (Failed ("Network error: " +:+ e))
   end).
Proof.
  intros Hrun rq first second. subst first second.
  rewrite single_recipient_unrolled in Hrun. fold rq in Hrun. revert Hrun.
  assert (Hsrv : forall st body, 500 <= st ->
            classify_response st body
            = Ok (Failed ("API server error: " +:+ pretty st))).
  { intros st body Hst. unfold classify_response.
    replace (st =? 200) with false by (symmetry; apply Z.eqb_neq; lia).
    replace (st =? 202) with false by (symmetry; apply Z.eqb_neq; lia).
    replace (st =? 400) with false by (symmetry; apply Z.eqb_neq; lia).
    replace (st =? 429) with false by (symmetry; apply Z.eqb_neq; lia).
    replace (500 <=? st) with true by (symmetry; apply Z.leb_le; lia).
    reflexivity. }
  destruct (email_api up (email_requests io ++ [rq])) as [st body|e|e].
  - intros [= <- <-]. simpl. conjs; auto.
    + intros st' body' [= <- <-]. conjs; auto.
    + intros (e & [?|?]); discriminate.
  - intros [= <- <-]. simpl. conjs; auto; [discriminate|].
    intros _. split; [reflexivity|].
    destruct (email_api up (email_requests io ++ [rq; rq])); reflexivity.
  - intros [= <- <-]. simpl. conjs; auto; [discriminate|].
    intros _. split; [reflexivity|].
    destruct (email_api up (email_requests io ++ [rq; rq])); reflexivity.
Qed.

Lemma recipient_is_retried_only_after_transport_failure_witness :
  let data := SubmitSamples.two_recipients in
  let up := SubmitSamples.timeout_then_ok in
  let rq := EmailRequest "k" (build_payload data "a@x.com") in
  let first := email_api up (email_requests io0 ++ [rq]) in
  let second := email_api up (email_requests io0 ++ [rq; rq]) in
  let run := _submit_to_single_recipient up "k" data "a@x.com" io0 in
  (exists e, first = TimeoutException e \/ first = RequestError e) /\
  fst run = Ok (Success "m-2") /\
  email_requests (snd run) = email_requests io0 ++ [rq; rq] /\
  match second with
  | Response st body => fst run = classify_response st body
  | TimeoutException e => fst run = Ok (Failed ("API request timeout: " +:+ e))
  | RequestError e => fst run = Ok (Failed ("Network error: " +:+ e))
  end.
Proof.
  intros data up rq first second run.
  assert (Hfirst : exists e, first = TimeoutException e \/ first = RequestError e)
    by (exists "read timed out"; left; reflexivity).
  split; [exact Hfirst|]. split; [reflexivity|].
  destruct (recipient_is_retried_only_after_transport_failure up "k" data "a@x.com"
              io0 (fst run) (snd run) eq_refl) as (_ & _ & Hretry).
  exact (Hretry Hfirst).
Defined.


(** ** What a DATA sends *)

Section DataMore.
Context {lib : Lib}.
Variable up : upstream.

Lemma truthy_some (v : option json_value) (x : json_value) :
  truthy_value v = Some x -> v = Some x.
Proof.
  destruct v as [y|]; simpl; [|discriminate].
  destruct (py_bool y); [|discriminate]. auto.
Qed.

(** A DATA either sends nothing or runs one submission, with the key of
    the session's entry, on the parsed content. *)
Lemma handle_DATA_run self session envelope io res io' :
  handle_DATA up self session envelope io = (res, io') ->
  io' = io \/
  exists sd key email_data r,
    _authenticated_sessions self !! peer_key session = Some sd /\
    api_key sd = Some key /\
    parse_email_message (content envelope) = Ok email_data /\
    submit_email up key email_data io = (r, io').
Proof.
  unfold handle_DATA. intros Hrun.
  destruct (_authenticated_sessions self !! peer_key session) as [sd|] eqn:Hsd.
  2:{ destruct (handle_DATA_with_unguarded parse_email_message (submit_email up)
                  self session envelope io) as [x Hx]; [rewrite Hsd; exact I|].
      rewrite Hx in Hrun. injection Hrun as _ <-. auto. }
  destruct (authenticated sd) eqn:Hauth.
  2:{ destruct (handle_DATA_with_unguarded parse_email_message (submit_email up)
                  self session envelope io) as [x Hx]; [rewrite Hsd; auto|].
      rewrite Hx in Hrun. injection Hrun as _ <-. auto. }
  destruct (truthy (mail_from envelope)) as [a|] eqn:Hfrom.
  2:{ destruct (handle_DATA_with_unguarded parse_email_message (submit_email up)
                  self session envelope io) as [x Hx]; [rewrite Hsd; auto|].
      rewrite Hx in Hrun. injection Hrun as _ <-. auto. }
  destruct (rcpt_tos envelope) as [|r rs] eqn:Hrcpt.
  { destruct (handle_DATA_with_unguarded parse_email_message (submit_email up)
                self session envelope io) as [x Hx]; [rewrite Hsd; auto|].
    rewrite Hx in Hrun. injection Hrun as _ <-. auto. }
  rewrite (handle_DATA_with_guarded _ _ _ _ _ sd a r rs io Hsd Hauth Hfrom Hrcpt) in Hrun.
  destruct (parse_email_message (content envelope)) as [d|e] eqn:Hparse.
  2:{ destruct e; injection Hrun as _ <-; auto. }
  destruct (truthy_value (api_key sd)) as [key|] eqn:Hkey;
    [|injection Hrun as _ <-; auto].
  destruct (submit_email up key d io) as [res1 s1] eqn:Hsub.
  right. exists sd, key, d, res1. apply truthy_some in Hkey.
  assert (io' = s1) as ->.
  { destruct res1 as [out|e]; [|destruct e]; injection Hrun as _ <-; reflexivity. }
  auto.
Qed.

End DataMore.

(** X17.  The recipients a DATA submits to are read from the To, Cc and
    Bcc headers of the message, not from the envelope: two envelopes with
    the same content, each with some sender and at least one recipient,
    get the same reply and cause the same requests, whatever their RCPT
    and MAIL addresses and options are. *)
Theorem data_ignores_envelope_addresses {lib : Lib} up self session
    (one other : Envelope) io :
  content one = content other ->
  truthy (mail_from one) <> None -> truthy (mail_from other) <> None ->
  rcpt_tos one <> [] -> rcpt_tos other <> [] ->
  handle_DATA up self session one io = handle_DATA up self session other io.
Proof.
  intros Hcontent Hf1 Hf2 Hr1 Hr2. unfold handle_DATA, handle_DATA_with.
  destruct (_authenticated_sessions self !! peer_key session) as [sd|]; [|reflexivity].
  destruct (negb (authenticated sd)); [reflexivity|].
  destruct (truthy (mail_from one)); [|congruence].
  destruct (truthy (mail_from other)); [|congruence].
  destruct (rcpt_tos one); [congruence|].
  destruct (rcpt_tos other); [congruence|].
  rewrite Hcontent. reflexivity.
Qed.

(** X18.  A DATA sends nothing to the auth service and never sleeps.
    When it sends requests to the email service, each carries the key
    stored for the session's address as its bearer token and the body
    built from the parsed content for one recipient of its To, Cc and Bcc
    headers. *)
Theorem handle_DATA_upstream_traffic {lib : Lib} up self session envelope io res io' :
  handle_DATA up self session envelope io = (res, io') ->
  auth_requests io' = auth_requests io /\
  sleeps io' = sleeps io /\
  exists new : list email_request,
    email_requests io' = email_requests io ++ new /\
    (new <> [] ->
     exists sd key email_data,
       _authenticated_sessions self !! peer_key session = Some sd /\
       api_key sd = Some key /\
       parse_email_message (content envelope) = Ok email_data /\
       Forall (fun rq =>
                 bearer rq = py_str key /\
                 exists r, r ∈ ed_to email_data ++ ed_cc email_data ++ ed_bcc email_data /\
                           payload rq = build_payload email_data r) new).
Proof.
  intros Hrun.
  apply handle_DATA_run in Hrun as [->|(sd & key & d & r & Hsd & Hkey & Hparse & Hsub)].
  - conjs; auto. exists []. rewrite app_nil_r. split; [reflexivity|congruence].
  - apply submit_email_traffic in Hsub as (Hauth & Hsl & new & Hlog & _ & Hall & _).
    conjs; auto. exists new. split; [exact Hlog|]. intros _.
    exists sd, key, d. conjs; auto.
    eapply Forall_impl; [exact Hall|]. intros rq (r0 & Hin & ->). simpl. eauto.
Qed.

Section DataMoreExamples.
#[local] Existing Instance Sample.lib.

Lemma data_ignores_envelope_addresses_witness :
  let one := Sample.envelope_of ["a@x.com"; "b@x.com"; "c@x.com"] Sample.raw_three in
  let other := Sample.envelope_of ["z@x.com"] Sample.raw_three in
  content one = content other /\
  truthy (mail_from one) <> None /\ truthy (mail_from other) <> None /\
  rcpt_tos one <> [] /\ rcpt_tos other <> [] /\
  handle_DATA Sample.one_rejected Sample.authenticated_handler Sample.client one io0
  = handle_DATA Sample.one_rejected Sample.authenticated_handler Sample.client other io0.
Proof.
  intros one other.
  assert (H1 : content one = content other) by reflexivity.
  assert (H2 : truthy (mail_from one) <> None) by discriminate.
  assert (H3 : truthy (mail_from other) <> None) by discriminate.
  assert (H4 : rcpt_tos one <> []) by discriminate.
  assert (H5 : rcpt_tos other <> []) by discriminate.
  repeat (split; [assumption|]).
  exact (data_ignores_envelope_addresses Sample.one_rejected
           Sample.authenticated_handler Sample.client one other io0 H1 H2 H3 H4 H5).
Defined.

Lemma handle_DATA_upstream_traffic_witness :
  let envelope := Sample.envelope_of ["z@x.com"] Sample.raw_three in
  let run := handle_DATA Sample.one_rejected Sample.authenticated_handler
               Sample.client envelope io0 in
  auth_requests (snd run) = auth_requests io0 /\
  sleeps (snd run) = sleeps io0 /\
  exists new : list email_request,
    email_requests (snd run) = email_requests io0 ++ new /\
    (new <> [] ->
     exists sd key email_data,
       _authenticated_sessions Sample.authenticated_handler !! peer_key Sample.client
       = Some sd /\
       api_key sd = Some key /\
       parse_email_message (content envelope) = Ok email_data /\
       Forall (fun rq =>
                 bearer rq = py_str key /\
                 exists r, r ∈ ed_to email_data ++ ed_cc email_data ++ ed_bcc email_data /\
                           payload rq = build_payload email_data r) new).
Proof.
  intros envelope run.
  exact (handle_DATA_upstream_traffic Sample.one_rejected Sample.authenticated_handler
           Sample.client envelope io0 (fst run) (snd run) eq_refl).
Defined.

(** The one envelope recipient [z@x.com] gets nothing; the three header
    recipients are tried. *)
Example data_submits_to_header_recipients :
  (fun rq => p_to (payload rq)) <$>
    email_requests
      (snd (handle_DATA Sample.one_rejected Sample.authenticated_handler Sample.client
              (Sample.envelope_of ["z@x.com"] Sample.raw_three) io0))
  = [["a@x.com"]; ["b@x.com"]; ["c@x.com"]].
Proof. reflexivity. Qed.

End DataMoreExamples.


(** ** Recipients, bodies and custom headers *)

Section ParserMore.
Context {lib : Lib}.

Lemma _extract_recipients_elem (msg : Message) (header_name a : string) :
  a ∈ _extract_recipients msg header_name ->
  a <> "" /\
  exists value name,
    get msg header_name = Some value /\ (name, a) ∈ getaddresses value.
Proof.
  intros Hin. apply _extract_recipients_spec in Hin
    as (value & name & Hget & _ & Hin & Hne).
  split; [exact Hne|]. eauto.
Qed.



End ParserMore.

(** X19.  No recipient the parser returns is the empty address: every
    entry of [to], [cc] and [bcc] is a non-empty address that
    [getaddresses] found in the To, Cc or Bcc header. *)
Theorem parsed_recipients_are_nonempty {lib : Lib} (raw_content : list byte) d :
  parse_email_message raw_content = Ok d ->
  exists msg,
    message_from_bytes raw_content = Ok msg /\
    forall a, a ∈ ed_to d ++ ed_cc d ++ ed_bcc d ->
      a <> "" /\
      exists header value name,
        header ∈ ["To"; "Cc"; "Bcc"] /\
        get msg header = Some value /\ (name, a) ∈ getaddresses value.
Proof.
  unfold parse_email_message.
  destruct (message_from_bytes raw_content) as [msg|e]; [|discriminate].
  destruct (parse_message msg) as [d'|e] eqn:Hparse; [|discriminate].
  intros [= <-]. exists msg. split; [reflexivity|].
  apply parse_message_ok in Hparse as (_ & _ & Hto & Hcc & Hbcc & _).
  intros a Hin. rewrite Hto, Hcc, Hbcc in Hin.
  rewrite !elem_of_app in Hin.
  destruct Hin as [Hin|[Hin|Hin]];
    apply _extract_recipients_elem in Hin as (Hne & value & name & Hget & Hin);
    (split; [exact Hne|]).
  - exists "To", value, name. conjs; auto. set_solver.
  - exists "Cc", value, name. conjs; auto. set_solver.
  - exists "Bcc", value, name. conjs; auto. set_solver.
Qed.


Section ParserMoreExamples.
#[local] Existing Instance Sample.lib.

Lemma parsed_recipients_are_nonempty_witness :
  let raw := String.list_byte_of_string Sample.raw_three in
  let d := Sample.three_recipients in
  parse_email_message raw = Ok d /\
  exists msg,
    message_from_bytes raw = Ok msg /\
    forall a, a ∈ ed_to d ++ ed_cc d ++ ed_bcc d ->
      a <> "" /\
      exists header value name,
        header ∈ ["To"; "Cc"; "Bcc"] /\
        get msg header = Some value /\ (name, a) ∈ getaddresses value.
Proof.
  intros raw d. split; [reflexivity|].
  exact (parsed_recipients_are_nonempty raw d eq_refl).
Defined.

(** The message that declares the charset [undefined] has a text leaf,
    and reading its body raises. *)
Example undefined_charset_body_raises :
  _extract_plain_text_body Sample.msg_undefined_charset
  = Raise (UnicodeError
             "decoding with 'undefined' codec failed (UnicodeError: undefined encoding)").
Proof. reflexivity. Qed.

End ParserMoreExamples.

Section CustomHeaders.
Context {lib : Lib}.

Lemma extract_custom_headers_fold (msg : Message) :
  extract_custom_headers msg = List.fold_left keep_custom (items msg) ∅.
Proof. reflexivity. Qed.

Lemma keep_custom_origin (l : list (string * header_value)) :
  forall acc k v,
    List.fold_left keep_custom l acc !! k = Some v ->
    acc !! k = Some v \/
    (startswith "X-" k = true /\
     exists raw, (k, raw) ∈ l /\ v = _decode_header (Some raw)).
Proof.
  induction l as [|[k0 raw0] l IH]; intros acc k v; simpl; [auto|].
  intros Hlook. apply IH in Hlook as [Hacc|(Hx & raw & Hin & ->)].
  - unfold keep_custom in Hacc. simpl in Hacc.
    destruct (startswith "X-" k0) eqn:Hx; [|auto].
    destruct (decide (k0 = k)) as [->|Hne].
    + rewrite lookup_insert_eq in Hacc. injection Hacc as <-.
      right. split; [exact Hx|]. exists raw0. split; [left|reflexivity].
    + rewrite lookup_insert_ne in Hacc by exact Hne. auto.
  - right. split; [exact Hx|]. exists raw. split; [right; exact Hin|reflexivity].
Qed.

Lemma keep_custom_absent (l : list (string * header_value)) :
  forall acc k,
    (forall raw, (k, raw) ∉ l) ->
    List.fold_left keep_custom l acc !! k = acc !! k.
Proof.
  induction l as [|[k0 raw0] l IH]; intros acc k Habsent; simpl; [reflexivity|].
  rewrite IH by (intros raw Hin; apply (Habsent raw); right; exact Hin).
  unfold keep_custom. simpl. destruct (startswith "X-" k0); [|reflexivity].
  apply lookup_insert_ne. intros ->. apply (Habsent raw0). left.
Qed.

End CustomHeaders.

(** X21.  [custom_headers] maps exactly the header names that begin with
    "X-" (capital X: a name written [x-...] is not kept) to the decoded
    value of their last occurrence in the message. *)
Theorem custom_headers_keep_last_occurrence {lib : Lib} (msg : Message) :
  (forall k v,
     extract_custom_headers msg !! k = Some v ->
     startswith "X-" k = true /\
     exists raw, (k, raw) ∈ items msg /\ v = _decode_header (Some raw)) /\
  (forall k raw before after,
     items msg = before ++ (k, raw) :: after ->
     (forall raw', (k, raw') ∉ after) ->
     extract_custom_headers msg !! k
     = if startswith "X-" k then Some (_decode_header (Some raw)) else None).
Proof.
  split.
  - intros k v Hlook. rewrite extract_custom_headers_fold in Hlook.
    apply keep_custom_origin in Hlook as [Habs|H]; [|exact H].
    rewrite lookup_empty in Habs. discriminate.
  - intros k raw before after Hitems Hlast.
    rewrite extract_custom_headers_fold, Hitems, fold_left_app. simpl.
    rewrite keep_custom_absent by exact Hlast.
    unfold keep_custom at 1. simpl.
    destruct (startswith "X-" k) eqn:Hx.
    + apply lookup_insert_eq.
    + destruct (List.fold_left keep_custom before ∅ !! k) as [v|] eqn:Hlook;
        [|reflexivity].
      apply keep_custom_origin in Hlook as [Habs|(Hx' & _)].
      * rewrite lookup_empty in Habs. discriminate.
      * congruence.
Qed.

Section AttachmentMore.
Context {lib : Lib}.

Lemma b64encode_length_upto (n : nat) :
  forall bs : list byte,
    (length bs <= n)%nat ->
    String.length (b64encode bs) = (4 * ((length bs + 2) / 3))%nat.
Proof.
  induction n as [n H] using (well_founded_induction lt_wf).
  intros [|a [|b [|c rest]]] Hlen; try reflexivity.
  cbn [b64encode String.length length].
  destruct n as [|[|[|n]]]; simpl in Hlen; try lia.
  rewrite (H n) by lia.
  replace (S (S (S (length rest))) + 2)%nat with (1 * 3 + (length rest + 2))%nat by lia.
  rewrite Nat.div_add_l by lia. lia.
Qed.

Lemma b64encode_length (bs : list byte) :
  String.length (b64encode bs) = (4 * ((length bs + 2) / 3))%nat.
Proof. apply (b64encode_length_upto (length bs)). lia. Qed.

End AttachmentMore.

(** X22.  Every attachment record the extractor returns has a filename
    that is not empty, a positive size, and a content of exactly
    [4 * ceil(size / 3)] characters: the padded base64 length of that many
    bytes. *)
Theorem attachment_records_are_sized {lib : Lib} (msg : Message)
    (atts : list attachment) (a : attachment) :
  _extract_attachments msg = Ok atts ->
  a ∈ atts ->
  0 < att_size a /\
  Z.of_nat (String.length (att_content a)) = 4 * ((att_size a + 2) / 3) /\
  exists part F,
    part ∈ walk msg /\ get_filename part = Ok (Some F) /\ F <> "" /\
    att_filename a = _decode_header (Some (HStr F)) /\
    att_content_type a = get_content_type part.
Proof.
  intros Hatts Ha.
  apply (_extract_attachments_elem _ _ _ Hatts) in Ha as (part & c & Hin & Hof & Ha).
  apply (attachment_of_elem _ _ _ Hof) in Ha
    as (F & B & _ & _ & Hname & HF & _ & HB & ->). simpl.
  split; [destruct B; [contradiction|simpl; lia]|]. split.
  - rewrite b64encode_length, Nat2Z.inj_mul, Nat2Z.inj_div, Nat2Z.inj_add. reflexivity.
  - exists part, F. conjs; auto.
Qed.

Section AttachmentMoreExamples.
#[local] Existing Instance Sample.lib.

Lemma attachment_records_are_sized_witness :
  let a := Attachment "hello.bin" "application/octet-stream" "aGVsbG8=" 5 in
  _extract_attachments Sample.msg_attachments = Ok [a] /\
  a ∈ [a] /\
  0 < att_size a /\
  Z.of_nat (String.length (att_content a)) = 4 * ((att_size a + 2) / 3) /\
  exists part F,
    part ∈ walk Sample.msg_attachments /\ get_filename part = Ok (Some F) /\
    F <> "" /\
    att_filename a = _decode_header (Some (HStr F)) /\
    att_content_type a = get_content_type part.
Proof.
  intros a.
  assert (Ha : a ∈ [a]) by (apply list_elem_of_singleton; reflexivity).
  split; [reflexivity|]. split; [exact Ha|].
  exact (attachment_records_are_sized Sample.msg_attachments [a] a eq_refl Ha).
Defined.

End AttachmentMoreExamples.


(** ** The AUTH PLAIN payload *)

Section SplitFacts.

Lemma append_nil_r (s : string) : s +:+ "" = s.
Proof.
  induction s as [|c s IH]; [reflexivity|].
  change (String c (s +:+ "") = String c s). rewrite IH. reflexivity.
Qed.

Lemma rev_app_append (a b s : string) :
  String.rev_app a b +:+ s = String.rev_app a (b +:+ s).
Proof. revert b. induction a as [|c a IH]; intros b; simpl; [reflexivity|apply IH]. Qed.

Lemma rev_app_rev_app (a b c : string) :
  String.rev_app (String.rev_app a b) c = String.rev_app b (a +:+ c).
Proof.
  revert b c. induction a as [|x a IH]; intros b c; simpl; [reflexivity|].
  rewrite IH. reflexivity.
Qed.

Lemma rev_rev_app (a b : string) :
  String.rev (String.rev_app a b) = String.rev b +:+ a.
Proof.
  unfold String.rev. rewrite rev_app_rev_app, append_nil_r, rev_app_append.
  reflexivity.
Qed.

Lemma free_of_rev_app (c : Ascii.ascii) (a b : string) :
  free_of c (String.rev_app a b) <-> free_of c a /\ free_of c b.
Proof.
  revert b. induction a as [|x a IH]; intros b; simpl; [tauto|].
  rewrite IH. simpl. tauto.
Qed.

Variable sep : Ascii.ascii.

Lemma split_go_nonempty (s cur : string) : split_go sep cur s <> [].
Proof.
  revert cur. induction s as [|c s IH]; intros cur; simpl; [discriminate|].
  destruct (Ascii.eqb c sep); [discriminate|apply IH].
Qed.

(** Joining the pieces with the separator gives the string back. *)
Lemma concat_split_go (s cur : string) :
  String.concat (String sep "") (split_go sep cur s) = String.rev cur +:+ s.
Proof.
  revert cur. induction s as [|c s IH]; intros cur; simpl.
  - rewrite append_nil_r. reflexivity.
  - destruct (Ascii.eqb_spec c sep) as [->|Hne].
    + pose proof (split_go_nonempty s "") as Hne.
      specialize (IH "").
      destruct (split_go sep "" s) as [|p ps]; [contradiction|].
      change (String.rev cur
              +:+ (String sep "" +:+ String.concat (String sep "") (p :: ps))
              = String.rev cur +:+ String sep s).
      rewrite IH. reflexivity.
    + rewrite IH. unfold String.rev. simpl. rewrite !rev_app_append. reflexivity.
Qed.

(** No piece contains the separator. *)
Lemma split_go_free (s cur : string) :
  free_of sep cur -> Forall (free_of sep) (split_go sep cur s).
Proof.
  revert cur. induction s as [|c s IH]; intros cur Hcur; simpl.
  - constructor; [|constructor]. apply free_of_rev_app. simpl. auto.
  - destruct (Ascii.eqb_spec c sep) as [->|Hne].
    + constructor; [|apply IH; exact I]. apply free_of_rev_app. simpl. auto.
    + apply IH. simpl. auto.
Qed.

(** Reading a piece that has no separator only grows the current piece. *)
Lemma split_go_piece (p s cur : string) :
  free_of sep p ->
  split_go sep cur (p +:+ s) = split_go sep (String.rev_app p cur) s.
Proof.
  revert cur. induction p as [|c p IH]; intros cur Hfree; simpl; [reflexivity|].
  destruct Hfree as [Hc Hp].
  destruct (Ascii.eqb_spec c sep) as [Heq|_]; [contradiction|].
  apply IH. exact Hp.
Qed.

Lemma split_three (a u p : string) :
  free_of sep a -> free_of sep u -> free_of sep p ->
  split sep (a +:+ String sep (u +:+ String sep p)) = [a; u; p].
Proof.
  intros Ha Hu Hp. unfold split.
  rewrite split_go_piece by exact Ha. simpl. rewrite Ascii.eqb_refl.
  rewrite split_go_piece by exact Hu. simpl. rewrite Ascii.eqb_refl.
  replace p with (p +:+ "") at 1 by apply append_nil_r.
  rewrite split_go_piece by exact Hp. simpl.
  rewrite !rev_rev_app. reflexivity.
Qed.

End SplitFacts.

(** X23.  [parse_auth_plain] returns [(username, password)] exactly when
    the decoded payload reads [authzid NUL username NUL password] with no
    other NUL and with a username and a password that are not empty.  The
    authorization identity is dropped: payloads that differ only in it
    parse to the same pair. *)
Theorem parse_auth_plain_accepts {lib : Lib} (auth_string username password : string) :
  parse_auth_plain auth_string = Ok (username, password) <->
  exists authzid,
    b64decode_utf8 auth_string
    = inl (authzid +:+ String Ascii.zero (username +:+ String Ascii.zero password)) /\
    free_of Ascii.zero authzid /\ free_of Ascii.zero username /\
    free_of Ascii.zero password /\
    username <> "" /\ password <> "".
Proof.
  unfold parse_auth_plain. split.
  - destruct (b64decode_utf8 auth_string) as [decoded|e]; [|discriminate].
    pose proof (concat_split_go Ascii.zero decoded "") as Hjoin.
    pose proof (split_go_free Ascii.zero decoded "" I) as Hfree.
    fold (split Ascii.zero decoded) in Hjoin, Hfree.
    destruct (split Ascii.zero decoded) as [|a [|u [|p [|x l]]]]; try discriminate.
    destruct (String.eqb_spec u "") as [|Hu]; [discriminate|].
    destruct (String.eqb_spec p "") as [|Hp]; [discriminate|].
    simpl. intros [= <- <-]. exists a.
    assert (decoded = a +:+ String Ascii.zero (u +:+ String Ascii.zero p)) as ->
      by (symmetry; exact Hjoin).
    apply Forall_cons in Hfree as [Ha Hfree].
    apply Forall_cons in Hfree as [Hu' Hfree].
    apply Forall_cons in Hfree as [Hp' _]. conjs; auto.
  - intros (authzid & -> & Ha & Hu & Hp & Hune & Hpne).
    rewrite split_three by assumption.
    apply String.eqb_neq in Hune, Hpne. rewrite Hune, Hpne. reflexivity.
Qed.

(** * TLS material and the start of the server *)

Section TlsTheorems.
Context {fs : Type} `{OSLaws fs}.

(** What a completed generation leaves behind. *)
Lemma generate_self_signed_cert_done (host cert_path key_path : string)
    (days : Z) (s s' : fs) (r : string * string) :
  generate_self_signed_cert host cert_path key_path days s = (Returns r, s') ->
  r = (cert_path, key_path) /\
  path_exists s' cert_path = true /\
  path_exists s' key_path = true /\
  read_bytes s' key_path = Some (snd (issue host days)) /\
  mode_of s' key_path = Some 384 /\
  (cert_path <> key_path ->
   read_bytes s' cert_path = Some (fst (issue host days))) /\
  (forall q data, q <> cert_path -> q <> key_path ->
     read_bytes s q = Some data -> read_bytes s' q = Some data).
Proof.
  unfold generate_self_signed_cert.
  destruct (issue host days) as [cert key].
  destruct (mkdir_parents (parent cert_path) s) as [[[]|e] s1] eqn:H1;
    [|discriminate].
  destruct (mkdir_parents (parent key_path) s1) as [[[]|e] s2] eqn:H2;
    [|discriminate].
  destruct (write_bytes cert_path cert s2) as [[[]|e] s3] eqn:H3;
    [|discriminate].
  destruct (write_bytes key_path key s3) as [[[]|e] s4] eqn:H4;
    [|discriminate].
  destruct (chmod key_path 384 s4) as [[[]|e] s5] eqn:H5; [|discriminate].
  intros [= <- <-].
  destruct (write_reads_back _ _ _ _ H3) as [Ec3 Rc3].
  destruct (write_reads_back _ _ _ _ H4) as [Ek4 Rk4].
  pose proof (chmod_sets_mode _ _ _ _ H5) as Hmode.
  destruct (chmod_keeps_files _ _ _ _ key_path H5) as [Ek5 Rk5].
  destruct (chmod_keeps_files _ _ _ _ cert_path H5) as [Ec5 Rc5].
  simpl. conjs; auto.
  - rewrite Ec5. destruct (String.eqb_spec cert_path key_path) as [->|Hne]; auto.
    destruct (write_keeps_others _ _ _ _ cert_path H4 Hne) as [-> _]. exact Ec3.
  - congruence.
  - congruence.
  - intros Hne. rewrite Rc5.
    destruct (write_keeps_others _ _ _ _ cert_path H4 Hne) as [_ ->]. exact Rc3.
  - intros q data Hqc Hqk Hq.
    destruct (chmod_keeps_files _ _ _ _ q H5) as [_ ->].
    destruct (write_keeps_others _ _ _ _ q H4 Hqk) as [_ ->].
    destruct (write_keeps_others _ _ _ _ q H3 Hqc) as [_ ->].
    destruct (mkdir_keeps_files _ _ _ q H2) as [_ Hk2]. apply Hk2.
    destruct (mkdir_keeps_files _ _ _ q H1) as [_ Hk1]. apply Hk1. exact Hq.
Qed.

(** X24.  When the certificate and the key both exist,
    [create_smtp_server] leaves the file system as it was: nothing is
    generated or written.  It raises what loading the pair raises; when
    the pair loads, the context is one for TLS 1.2 to 1.3 that holds this
    pair and asks no client certificate, and the call raises what
    [controller.start()] raises, or returns the controller. *)
Theorem existing_certificates_are_used_untouched (settings : Settings)
    (paths : TlsPaths) (s : fs) :
  path_exists s (tls_cert_path paths) = true ->
  path_exists s (tls_key_path paths) = true ->
  let context :=
    MkSSLContext TLSv1_2 TLSv1_3
      "ECDHE+AESGCM:ECDHE+CHACHA20:DHE+AESGCM:DHE+CHACHA20:!aNULL:!MD5:!DSS"
      CERT_NONE false (Some (tls_cert_path paths, tls_key_path paths)) in
  let controller := create_smtp_server settings in
  _ensure_tls_certificates settings paths s
  = (Returns (tls_cert_path paths, tls_key_path paths), s) /\
  snd (create_smtp_server_with_tls settings paths s) = s /\
  fst (create_smtp_server_with_tls settings paths s)
  = match load_cert_chain s (tls_cert_path paths) (tls_key_path paths) with
    | Raises e => Raises e
    | Returns _ =>
        match controller_start controller context with
        | Raises e => Raises e
        | Returns _ => Returns (context, controller)
        end
    end.
Proof.
  intros Hc Hk context controller.
  unfold create_smtp_server_with_tls, _ensure_tls_certificates, create_tls_context.
  rewrite Hc, Hk. cbn [andb negb]. cbv beta iota. rewrite Hc, Hk. cbn [negb].
  destruct (load_cert_chain s (tls_cert_path paths) (tls_key_path paths)) as [[]|e].
  - fold context. fold controller.
    destruct (controller_start controller context) as [[]|e]; conjs; auto.
  - conjs; auto.
Qed.

(** X25.  On a file system that obeys [OSLaws] (a written file exists and
    reads back, the other files are left alone).  Whenever
    [_ensure_tls_certificates] returns, it returns the two
    configured paths and both exist afterwards: [validate_tls_paths] then
    passes, and [create_tls_context] on the returned pair never raises
    FileNotFoundError, its outcome being that of loading the pair. *)
Theorem ensured_certificates_exist (settings : Settings) (paths : TlsPaths)
    (s s' : fs) (r : string * string) :
  _ensure_tls_certificates settings paths s = (Returns r, s') ->
  r = (tls_cert_path paths, tls_key_path paths) /\
  path_exists s' (tls_cert_path paths) = true /\
  path_exists s' (tls_key_path paths) = true /\
  validate_tls_paths paths s' = Returns tt /\
  (forall require_cert,
     create_tls_context (Some (fst r)) (Some (snd r)) require_cert s'
     = match load_cert_chain s' (tls_cert_path paths) (tls_key_path paths) with
       | Raises e => Raises e
       | Returns _ =>
           Returns (MkSSLContext TLSv1_2 TLSv1_3
             "ECDHE+AESGCM:ECDHE+CHACHA20:DHE+AESGCM:DHE+CHACHA20:!aNULL:!MD5:!DSS"
             (if require_cert then CERT_REQUIRED else CERT_NONE) require_cert
             (Some (tls_cert_path paths, tls_key_path paths)))
       end).
Proof.
  intros Hrun.
  assert (r = (tls_cert_path paths, tls_key_path paths) /\
          path_exists s' (tls_cert_path paths) = true /\
          path_exists s' (tls_key_path paths) = true) as (-> & Hc & Hk).
  { unfold _ensure_tls_certificates in Hrun.
    destruct (path_exists s (tls_cert_path paths)) eqn:Hc;
      [destruct (path_exists s (tls_key_path paths)) eqn:Hk|];
      cbn [andb] in Hrun.
    - injection Hrun as <- <-. auto.
    - apply generate_self_signed_cert_done in Hrun. tauto.
    - apply generate_self_signed_cert_done in Hrun. tauto. }
  conjs; auto.
  - unfold validate_tls_paths. rewrite Hc, Hk. reflexivity.
  - intros require_cert. unfold create_tls_context. cbn [fst snd].
    rewrite Hc, Hk. reflexivity.
Qed.

(** X26.  On a file system that obeys [OSLaws].  When the certificate or
    the key is missing and the generation
    completes, the key file holds the freshly issued key with mode 0600,
    whatever it held before: a key that was there alone is replaced.  The
    certificate file holds the issued certificate when the two paths differ,
    and every other file keeps its contents. *)
Theorem missing_certificate_replaces_the_key (settings : Settings)
    (paths : TlsPaths) (s s' : fs) (r : string * string) :
  path_exists s (tls_cert_path paths) && path_exists s (tls_key_path paths) = false ->
  _ensure_tls_certificates settings paths s = (Returns r, s') ->
  read_bytes s' (tls_key_path paths)
  = Some (snd (issue (smtp_hostname settings) 365)) /\
  mode_of s' (tls_key_path paths) = Some 384 /\
  (tls_cert_path paths <> tls_key_path paths ->
   read_bytes s' (tls_cert_path paths)
   = Some (fst (issue (smtp_hostname settings) 365))) /\
  (forall q data, q <> tls_cert_path paths -> q <> tls_key_path paths ->
     read_bytes s q = Some data -> read_bytes s' q = Some data).
Proof.
  intros Hmiss Hrun. unfold _ensure_tls_certificates in Hrun.
  rewrite Hmiss in Hrun.
  apply generate_self_signed_cert_done in Hrun. tauto.
Qed.

End TlsTheorems.

(** The example file system obeys the laws. *)
Lemma simple_os_laws : @OSLaws simple_fs simple_os.
Proof.
  split; unfold write_bytes, mkdir_parents, chmod, path_exists, read_bytes,
    mode_of, simple_os.
  - intros p data s s' [= <-]. rewrite lookup_insert_eq. split; auto.
  - intros p data s s' q [= <-] Hne. rewrite lookup_insert_ne by auto. auto.
  - intros p s s' q [= <-]. auto.
  - intros p m s s'. destruct (s !! p) as [[data m']|] eqn:Hp; [|discriminate].
    intros [= <-]. rewrite lookup_insert_eq. reflexivity.
  - intros p m s s' q. destruct (s !! p) as [[data m']|] eqn:Hp; [|discriminate].
    intros [= <-]. destruct (decide (q = p)) as [->|Hne].
    + rewrite lookup_insert_eq, Hp. split; auto.
    + rewrite lookup_insert_ne by auto. auto.
Qed.

Lemma existing_certificates_are_used_untouched_witness :
  let paths := default_tls_paths in
  let settings := unprivileged_settings in
  let run := @create_smtp_server_with_tls _ simple_os settings paths both_present in
  @path_exists _ simple_os both_present (tls_cert_path paths) = true /\
  @path_exists _ simple_os both_present (tls_key_path paths) = true /\
  snd run = both_present /\
  exists context,
    fst run = Returns (context, create_smtp_server settings) /\
    cert_chain context = Some (tls_cert_path paths, tls_key_path paths).
Proof.
  intros paths settings run.
  split; [reflexivity|]. split; [reflexivity|].
  destruct (@existing_certificates_are_used_untouched _ simple_os
              settings paths both_present eq_refl eq_refl)
    as (_ & Hfs & Hrun).
  split; [exact Hfs|]. eexists. split; [exact Hrun|reflexivity].
Defined.

(** A certificate file that holds no certificate, and a privileged port:
    the start fails with the error of the load, respectively of
    [controller.start()]. *)
Example broken_certificate_stops_the_start :
  fst (@create_smtp_server_with_tls _ simple_os unprivileged_settings
         default_tls_paths broken_certificate)
  = Raises (SSLError "[SSL] PEM lib").
Proof. reflexivity. Qed.

Example privileged_port_stops_the_start :
  fst (@create_smtp_server_with_tls _ simple_os default_settings
         default_tls_paths both_present)
  = Raises (OSError "[Errno 13] Permission denied").
Proof. reflexivity. Qed.

Lemma ensured_certificates_exist_witness :
  let paths := default_tls_paths in
  let out := @_ensure_tls_certificates _ simple_os default_settings paths key_alone in
  @path_exists _ simple_os key_alone (tls_cert_path paths) = false /\
  @path_exists _ simple_os (snd out) (tls_cert_path paths) = true /\
  @path_exists _ simple_os (snd out) (tls_key_path paths) = true /\
  @validate_tls_paths _ simple_os paths (snd out) = Returns tt.
Proof.
  intros paths out. split; [reflexivity|].
  destruct (@ensured_certificates_exist _ simple_os simple_os_laws
              default_settings paths key_alone (snd out)
              (tls_cert_path paths, tls_key_path paths) eq_refl)
    as (_ & Hc & Hk & Hv & _).
  conjs; assumption.
Defined.

Lemma missing_certificate_replaces_the_key_witness :
  let paths := default_tls_paths in
  let out := @_ensure_tls_certificates _ simple_os default_settings paths key_alone in
  @read_bytes _ simple_os key_alone (tls_key_path paths)
  = Some (pem "RSA PRIVATE KEY" "old") /\
  @read_bytes _ simple_os (snd out) (tls_key_path paths)
  = Some (pem "RSA PRIVATE KEY" "fresh") /\
  @mode_of _ simple_os (snd out) (tls_key_path paths) = Some 384 /\
  @read_bytes _ simple_os (snd out) "/etc/motd"
  = Some (String.list_byte_of_string "hello").
Proof.
  intros paths out. split; [reflexivity|].
  destruct (@missing_certificate_replaces_the_key _ simple_os simple_os_laws
              default_settings paths key_alone (snd out)
              (tls_cert_path paths, tls_key_path paths) eq_refl eq_refl)
    as (Hkey & Hmode & _ & Hrest).
  conjs; [exact Hkey|exact Hmode|].
  apply Hrest; [discriminate|discriminate|reflexivity].
Defined.
